(** * BPE tokenizer training utilities: a shallow embedding

    The development follows the Python sources of [cs336_basics]:

    - [bpe_training_utils.py]: [analyze_vocab], [save_vocab_and_merges],
      [train_bpe_tokenizer];
    - [compare_tokenizers.py]: [load_tokenizer],
      [analyze_tokenizer_characteristics] and the script;
    - [fix_vocab_json.py]: [fix_vocab_json];
    - [train_bpe_tinystories.py], [train_bpe_expts_owt.py]: the scripts.

    Python values are modelled as follows.  A [bytes] object is a list of
    [byte]; a [str] is the list of its Unicode code points; an [int] is a
    [Z]; a [dict] is a [gmap], and [for k, v in d.items()] is [map_fold]
    where the order of iteration does not matter; where it does
    ([max(vocab.values(), key=len)], and the keys of a JSON object that
    [load_tokenizer] turns into integers), the items are taken in the order
    of insertion, which is a parameter.  The file system is a finite map from
    paths to file nodes and is threaded explicitly through every function
    that touches it; the calls that may fail whatever the files hold
    ([stat], [mkdir], the writing of a file) fail as a parameter says. *)

From Stdlib Require Import ZArith NArith List Lia Ascii String.
From Stdlib.Strings Require Import Byte.
From stdpp Require Import base option list gmap fin_maps pretty relations sorting.

Open Scope N_scope.

Abbreviation bytes := (list byte).
Abbreviation pystr := (list N).

(** ** Python primitives *)

Module Py.

(** A literal: the code points of an ASCII string. *)
Definition lit (s : string) : pystr :=
  (λ c, N_of_ascii c) <$> list_ascii_of_string s.

(** [str.isspace] on one code point (the characters Python treats as
    whitespace in [str.strip] and [str.split]). *)
Definition is_space (c : N) : bool :=
  ((9 <=? c) && (c <=? 13)) || ((28 <=? c) && (c <=? 32))
  || (c =? 133) || (c =? 160) || (c =? 5760)
  || ((8192 <=? c) && (c <=? 8202))
  || (c =? 8232) || (c =? 8233) || (c =? 8239) || (c =? 8287)
  || (c =? 12288).

(** The ASCII whitespace that [bytes.fromhex] skips. *)
Definition is_ascii_space (c : N) : bool :=
  ((9 <=? c) && (c <=? 13)) || (c =? 32).

Fixpoint lstrip (s : pystr) : pystr :=
  match s with
  | c :: s' => if is_space c then lstrip s' else s
  | [] => []
  end.

Definition rstrip (s : pystr) : pystr := reverse (lstrip (reverse s)).

(** [s.strip()] *)
Definition strip (s : pystr) : pystr := rstrip (lstrip s).

(** [s.split()]: the maximal runs of non-whitespace characters. *)
Fixpoint split_go (cur : pystr) (s : pystr) : list pystr :=
  match s with
  | [] => match cur with [] => [] | _ => [reverse cur] end
  | c :: s' =>
      if is_space c
      then match cur with
           | [] => split_go [] s'
           | _ => reverse cur :: split_go [] s'
           end
      else split_go (c :: cur) s'
  end.

Definition split (s : pystr) : list pystr := split_go [] s.

(** What reading in text mode makes of the line ends (universal newlines):
    a carriage return, with the line feed that follows it if there is one,
    becomes a line feed. *)
Fixpoint universal_newlines (s : pystr) : pystr :=
  match s with
  | [] => []
  | c :: s' =>
      if c =? 13
      then 10 :: match s' with
                 | d :: s'' =>
                     if d =? 10 then universal_newlines s''
                     else universal_newlines s'
                 | [] => []
                 end
      else c :: universal_newlines s'
  end.

(** [for line in f]: the lines of a text, each with its line feed. *)
Fixpoint lines_go (cur : pystr) (s : pystr) : list pystr :=
  match s with
  | [] => match cur with [] => [] | _ => [reverse cur] end
  | c :: s' =>
      if c =? 10 then reverse (c :: cur) :: lines_go [] s'
      else lines_go (c :: cur) s'
  end.

Definition lines (s : pystr) : list pystr := lines_go [] s.

(** [str(i)] for an [int].  The limit that the interpreter puts on the
    number of digits of the conversions between [int] and [str] (4300 by
    default, a setting of the interpreter) is not modelled. *)
Definition str (i : Z) : pystr := lit (pretty i).

(** The zeros of the decimal digits of Unicode 14.0, the character
    database of Python 3.11; the digits 1 to 9 follow each of them. *)
Definition decimal_zeros : list N :=
  [ 48; 1632; 1776; 1984; 2406; 2534; 2662; 2790; 2918; 3046; 3174;
    3302; 3430; 3558; 3664; 3792; 3872; 4160; 4240; 6112; 6160; 6470;
    6608; 6784; 6800; 6992; 7088; 7232; 7248; 42528; 43216; 43264;
    43472; 43504; 43600; 44016; 65296; 66720; 68912; 69734; 69872;
    69942; 70096; 70384; 70736; 70864; 71248; 71360; 71472; 71904;
    72016; 72784; 73040; 73120; 92768; 92864; 93008; 120782; 120792;
    120802; 120812; 120822; 123200; 123632; 125264; 130032 ].

Fixpoint decimal_in (zeros : list N) (c : N) : option N :=
  match zeros with
  | [] => None
  | z :: zeros' =>
      if (z <=? c) && (c <=? z + 9) then Some (c - z) else decimal_in zeros' c
  end.

(** The value of a decimal digit, of whatever script. *)
Definition digit_val (c : N) : option Z :=
  Z.of_N <$> decimal_in decimal_zeros c.

(** The whitespace of [int]: ASCII whitespace, and the whitespace beyond
    ASCII, which [int] reads as a space. *)
Definition int_space (c : N) : bool :=
  is_ascii_space c || ((127 <=? c) && is_space c).

Fixpoint lstrip_int (s : pystr) : pystr :=
  match s with
  | c :: s' => if int_space c then lstrip_int s' else s
  | [] => []
  end.

(** What follows a digit: more digits, each of them possibly after one
    underscore, then whitespace up to the end. *)
Fixpoint parse_digits (acc : Z) (s : pystr) : option Z :=
  match s with
  | [] => Some acc
  | c :: s' =>
      match digit_val c with
      | Some d => parse_digits (10 * acc + d) s'
      | None =>
          if c =? 95
          then match s' with
               | c' :: s'' => d ← digit_val c'; parse_digits (10 * acc + d) s''
               | [] => None
               end
          else if forallb int_space s then Some acc else None
      end
  end.

(** A number starts with a digit. *)
Definition parse_number (s : pystr) : option Z :=
  match s with
  | c :: _ =>
      match digit_val c with Some _ => parse_digits 0 s | None => None end
  | [] => None
  end.

(** [int(s)]: whitespace, an optional sign, decimal digits of any script
    with single underscores between them, whitespace.  [None] stands for
    [ValueError]. *)
Definition int (s : pystr) : option Z :=
  match lstrip_int s with
  | 45 :: ds => Z.opp <$> parse_number ds
  | 43 :: ds => parse_number ds
  | ds => parse_number ds
  end.

(** [b.hex()] *)
Definition hex_digit (n : N) : N := if n <? 10 then 48 + n else 87 + n.

Definition hex_byte (b : byte) : pystr :=
  let n := Byte.to_N b in [hex_digit (n / 16); hex_digit (n mod 16)].

Definition hex (bs : bytes) : pystr := bs ≫= hex_byte.

Definition hex_val (c : N) : option N :=
  if (48 <=? c) && (c <=? 57) then Some (c - 48)
  else if (97 <=? c) && (c <=? 102) then Some (c - 87)
  else if (65 <=? c) && (c <=? 70) then Some (c - 55)
  else None.

(** [bytes.fromhex(s)]: two hexadecimal digits per byte, ASCII whitespace
    allowed between bytes.  [None] stands for [ValueError]. *)
Fixpoint fromhex (s : pystr) : option bytes :=
  match s with
  | [] => Some []
  | c :: s' =>
      if is_ascii_space c then fromhex s'
      else match s' with
           | d :: s'' =>
               h ← hex_val c; l ← hex_val d;
               b ← Byte.of_N (16 * h + l);
               bs ← fromhex s''; Some (b :: bs)
           | [] => None
           end
  end.

(** [b.decode('utf-8')] with the strict error handler: shortest-form
    encodings only, no surrogates, nothing above U+10FFFF.  [None]
    stands for [UnicodeDecodeError]. *)
Definition is_cont (n : N) : bool := (128 <=? n) && (n <=? 191).

Definition in_range (lo hi n : N) : bool := (lo <=? n) && (n <=? hi).

Fixpoint utf8_decode_go (fuel : nat) (bs : list N) : option pystr :=
  match fuel with
  | O => match bs with [] => Some [] | _ => None end
  | S fuel =>
      match bs with
      | [] => Some []
      | b0 :: r0 =>
          if b0 <? 128 then (b0 ::.) <$> utf8_decode_go fuel r0
          else if in_range 194 223 b0 then
            match r0 with
            | b1 :: r1 =>
                if is_cont b1
                then (((b0 - 192) * 64 + (b1 - 128)) ::.)
                       <$> utf8_decode_go fuel r1
                else None
            | _ => None
            end
          else if in_range 224 239 b0 then
            match r0 with
            | b1 :: b2 :: r2 =>
                if in_range (if b0 =? 224 then 160 else 128)
                            (if b0 =? 237 then 159 else 191) b1
                   && is_cont b2
                then (((b0 - 224) * 4096 + (b1 - 128) * 64 + (b2 - 128)) ::.)
                       <$> utf8_decode_go fuel r2
                else None
            | _ => None
            end
          else if in_range 240 244 b0 then
            match r0 with
            | b1 :: b2 :: b3 :: r3 =>
                if in_range (if b0 =? 240 then 144 else 128)
                            (if b0 =? 244 then 143 else 191) b1
                   && is_cont b2 && is_cont b3
                then (((b0 - 240) * 262144 + (b1 - 128) * 4096
                       + (b2 - 128) * 64 + (b3 - 128)) ::.)
                       <$> utf8_decode_go fuel r3
                else None
            | _ => None
            end
          else None
      end
  end.

Definition utf8_decode (bs : bytes) : option pystr :=
  utf8_decode_go (length bs) (Byte.to_N <$> bs).

(** Comparison of [bytes] objects: lexicographic on unsigned byte values,
    a proper prefix is smaller. *)
Fixpoint bytes_compare (a b : bytes) : comparison :=
  match a, b with
  | [], [] => Eq
  | [], _ :: _ => Lt
  | _ :: _, [] => Gt
  | x :: a', y :: b' =>
      match Byte.to_N x ?= Byte.to_N y with
      | Eq => bytes_compare a' b'
      | c => c
      end
  end.

(** Comparison of 2-tuples of [bytes]. *)
Definition pair_compare (p q : bytes * bytes) : comparison :=
  match bytes_compare p.1 q.1 with
  | Eq => bytes_compare p.2 q.2
  | c => c
  end.

(** No character of [s] is whitespace. *)
Definition nospace (s : pystr) : Prop := Forall (λ c, is_space c = false) s.

(** An ASCII decimal digit. *)
Definition is_digit (c : N) : Prop := 48 ≤ c ≤ 57.

End Py.

#[global] Instance byte_eq_dec : EqDecision byte := Byte.byte_eq_dec.
#[global] Instance byte_countable : Countable byte :=
  inj_countable Byte.to_N Byte.of_N Byte.of_to_N.

(** ** Files, exceptions and outcomes *)

(** What a path of the file system holds.  A file is kept in the form in
    which it was written: the bytes of a corpus, the text of a text file,
    or the JSON object that [json.dump] serialised ([json.load] gives the
    object back; the JSON text itself is not modelled).  [Unreadable] is a
    file that exists but cannot be opened for reading. *)
Inductive node :=
  | Unreadable
  | RawFile (content : bytes)
  | TextFile (content : pystr)
  | JsonFile (obj : gmap pystr pystr).

(** Exceptions.  [OSError errno] is an [OSError] of no named subclass.
    [WrongKind] reports a read of a node through another view than the one
    it was written in, which this model does not cover.
    [ConfigurationError], [InputError] and [InternalError] are the fatal
    errors of the training entry point. *)
Inductive exn :=
  | ValueError
  | FileNotFoundError
  | PermissionError
  | NotADirectoryError
  | FileExistsError
  | IsADirectoryError
  | OSError (errno : Z)
  | WrongKind
  | ConfigurationError
  | InputError
  | InternalError.

(** How a call ends: it returns, raises, or leaves through [sys.exit]. *)
Inductive outcome (A : Type) :=
  | Return (a : A)
  | Raise (e : exn)
  | SysExit (code : Z).
Arguments Return {A} a.
Arguments Raise {A} e.
Arguments SysExit {A} code.

#[global] Instance outcome_ret : MRet outcome := @Return.
#[global] Instance outcome_bind : MBind outcome := λ A B f m,
  match m with
  | Return a => f a
  | Raise e => Raise e
  | SysExit c => SysExit c
  end.

Definition of_option {A} (o : option A) (e : exn) : outcome A :=
  match o with Some a => Return a | None => Raise e end.

(** [output_dir / name] *)
Definition path_join (dir name : pystr) : pystr := dir ++ Py.lit "/" ++ name.

(** [open(path)] for reading *)
Definition open_read (path : pystr) (fs : gmap pystr node) : outcome node :=
  match fs !! path with
  | None => Raise FileNotFoundError
  | Some Unreadable => Raise PermissionError
  | Some n => Return n
  end.

(** [json.load(f)] *)
Definition json_load (n : node) : outcome (gmap pystr pystr) :=
  match n with JsonFile obj => Return obj | _ => Raise WrongKind end.

(** The items of a JSON object in the order in which the file has them,
    which is the order of iteration of the dictionary that [json.load]
    returns: [position key] is the position of [key] in the file. *)
Definition key_before (position : pystr → nat) (a b : pystr * pystr) : Prop :=
  (position a.1 ≤ position b.1)%nat.

#[global] Instance key_before_dec position : RelDecision (key_before position) :=
  λ a b, decide (position a.1 ≤ position b.1)%nat.

Definition json_items (position : pystr → nat) (obj : gmap pystr pystr)
  : list (pystr * pystr) :=
  merge_sort (key_before position) (map_to_list obj).

(** The lines [for line in f] yields. *)
Definition read_lines (n : node) : outcome (list pystr) :=
  match n with
  | TextFile s => Return (Py.lines (Py.universal_newlines s))
  | _ => Raise WrongKind
  end.

(** [json.dump] of a dictionary with [int] keys: every key is written as
    [str(key)]. *)
Definition json_dump_int_keys (d : gmap Z pystr) : gmap pystr pystr :=
  map_fold (λ k v obj, <[Py.str k := v]> obj) ∅ d.

(** What the process shows of itself besides files: the calls made to the
    training entry point and the two error reports of
    [train_bpe_tokenizer]. *)
Inductive event :=
  | CallRunTrainBpe (input_path : pystr) (vocab_size : Z)
                    (special_tokens : list bytes)
  | PrintInputNotFound (input_path : pystr)
  | PrintTrainingError (e : exn).

Record world := World { fs : gmap pystr node; events : list event }.

Definition log (ev : event) (w : world) : world :=
  {| fs := fs w; events := events w ++ [ev] |}.

(** The calls that may fail whatever the files hold: [Path.stat],
    [Path.mkdir], and the writing of a file, that is [open(path, 'w')], the
    writes to the file and its closing. *)
Inductive file_op := Stat | Mkdir | WriteFile.

(** The errors after which [Path.exists] answers [False] (Python 3.11,
    [pathlib._ignore_error]): [ENOENT], [ENOTDIR], [EBADF] and [ELOOP], and
    the [ValueError] of a path that cannot be encoded. *)
Definition ignored_by_exists (e : exn) : bool :=
  match e with
  | FileNotFoundError | NotADirectoryError | ValueError => true
  | OSError errno => bool_decide (errno = 9%Z ∨ errno = 40%Z)
  | _ => false
  end.

(** ** [bpe_training_utils.py], [compare_tokenizers.py], [fix_vocab_json.py] *)

Section Utils.

(** [tests.common.gpt2_bytes_to_unicode()]: the byte-to-unicode table.  The
    module is not part of the sources at hand, so the table is a
    parameter; it gives every byte value one code point. *)
Variable byte_encoder : byte → N.

(** [tests.adapters.run_train_bpe]: the training entry point, likewise a
    parameter.  It reads the file system and returns the vocabulary and
    the merges, or fails. *)
Variable run_train_bpe :
  gmap pystr node → pystr → Z → list bytes →
  outcome (gmap Z bytes * list (bytes * bytes)).

(** [str.lower], and the readings of the clock and of [tracemalloc]. *)
Variable lower : pystr → pystr.
Variable pyfloat : Type.
Variable elapsed_time : pyfloat.
Variable peak_memory : Z.

(** What fails: [os_error op path] is the exception that the call [op] on
    [path] raises when it fails (a directory that cannot be searched, a
    name taken by a file or a directory, a file system mounted read-only,
    a full disk), and [None] when the call goes through. *)
Variable os_error : file_op → pystr → option exn.

(** What a failed write leaves behind: after a write of [path] has failed,
    [path] holds [left_behind path old], where [old] is what it held
    before: [old] itself when [open] is refused, an empty or a cut file
    when the failure comes later (a full disk, a string that cannot be
    encoded). *)
Variable left_behind : pystr → option node → option node.

(** The order of iteration of a dictionary.  Python iterates in insertion
    order, which a finite map does not record: [inserted_at token_id] is
    the position at which [token_id] entered the dictionary. *)
Variable inserted_at : Z → nat.

(** The order of the keys in the JSON files: [key_position path key] is
    the position of [key] in the object that the file at [path] holds. *)
Variable key_position : pystr → pystr → nat.

(** [path.stat()] *)
Definition path_stat (path : pystr) (fs : gmap pystr node) : outcome unit :=
  match os_error Stat path with
  | Some e => Raise e
  | None =>
      match fs !! path with
      | Some _ => Return ()
      | None => Raise FileNotFoundError
      end
  end.

(** [path.exists()]: [stat], and [False] on the errors of a missing path;
    any other error is raised. *)
Definition path_exists (path : pystr) (fs : gmap pystr node) : outcome bool :=
  match path_stat path fs with
  | Return _ => Return true
  | Raise e => if ignored_by_exists e then Return false else Raise e
  | SysExit code => SysExit code
  end.

(** [output_dir.mkdir(parents=True, exist_ok=True)].  Directories are not
    part of the file system here; the call succeeds unless it is
    refused. *)
Definition mkdir (path : pystr) : outcome unit :=
  match os_error Mkdir path with
  | Some e => Raise e
  | None => Return ()
  end.

(** [with open(path, 'w') as f: ...]: the file holds [content] afterwards,
    unless opening it, writing to it or closing it fails; the path then
    holds what the failed write leaves behind. *)
Definition write_file (path : pystr) (content : node) (fs : gmap pystr node)
  : outcome unit * gmap pystr node :=
  match os_error WriteFile path with
  | Some e => (Raise e, partial_alter (left_behind path) path fs)
  | None => (Return (), <[path := content]> fs)
  end.

(** Writing one file after the other, up to the first that fails. *)
Fixpoint write_files (files : list (pystr * node)) (fs : gmap pystr node)
  : outcome unit * gmap pystr node :=
  match files with
  | [] => (Return (), fs)
  | (path, content) :: files' =>
      match write_file path content fs with
      | (Return _, fs') => write_files files' fs'
      | r => r
      end
  end.

(** One item is not after the other in the order of iteration. *)
Definition inserted_before (a b : Z * bytes) : Prop :=
  (inserted_at a.1 ≤ inserted_at b.1)%nat.

#[global] Instance inserted_before_dec : RelDecision inserted_before :=
  λ a b, decide (inserted_at a.1 ≤ inserted_at b.1)%nat.

(** [vocab.items()] and [vocab.values()], in the order of iteration. *)
Definition dict_items (vocab : gmap Z bytes) : list (Z * bytes) :=
  merge_sort inserted_before (map_to_list vocab).

Definition dict_values (vocab : gmap Z bytes) : list bytes :=
  (dict_items vocab).*2.

(** [max(values, key=len)]: the first value of maximal length; [None]
    stands for the [ValueError] on an empty sequence. *)
Definition longest (values : list bytes) : option bytes :=
  foldl (λ best v,
    match best with
    | None => Some v
    | Some t => if (length t <? length v)%nat then Some v else Some t
    end) None values.

(** [analyze_vocab(vocab, merges)].  The printed report is left out; the
    [finally] block neither returns nor raises on a non-empty
    vocabulary, so the value of the [try] block stands. *)
Definition analyze_vocab (vocab : gmap Z bytes) (merges : list (bytes * bytes))
  : outcome (option pystr) :=
  longest_token ← of_option (longest (dict_values vocab)) ValueError;
  Return (Py.utf8_decode longest_token).

(** [''.join(byte_encoder[b] for b in token_bytes)] *)
Definition encode_token (token_bytes : bytes) : pystr :=
  byte_encoder <$> token_bytes.

(** The dictionary [vocab_gpt2] that goes to [vocab.json]. *)
Definition vocab_gpt2_of (vocab : gmap Z bytes) : gmap pystr pystr :=
  map_fold (λ token_id token_bytes vocab_gpt2,
    <[Py.str token_id := encode_token token_bytes]> vocab_gpt2) ∅ vocab.

(** [f"{token1_str} {token2_str}\n"], the line written for one merge. *)
Definition merge_line (m : bytes * bytes) : pystr :=
  let '(token1, token2) := m in
  encode_token token1 ++ [32] ++ encode_token token2 ++ [10].

(** What is written to [merges.txt]: the header, then one [write] per
    merge. *)
Definition merges_txt (merges : list (bytes * bytes)) : pystr :=
  foldl (λ f m, f ++ merge_line m) (Py.lit "#version: 0.2" ++ [10]) merges.

(** [{k: v.hex() for k, v in vocab.items()}] *)
Definition vocab_serializable (vocab : gmap Z bytes) : gmap Z pystr :=
  Py.hex <$> vocab.

(** [f"{token1.hex()} {token2.hex()}\n"] *)
Definition raw_merge_line (m : bytes * bytes) : pystr :=
  let '(token1, token2) := m in Py.hex token1 ++ [32] ++ Py.hex token2 ++ [10].

(** What is written to [merges_raw.txt]. *)
Definition merges_raw_txt (merges : list (bytes * bytes)) : pystr :=
  foldl (λ f m, f ++ raw_merge_line m) [] merges.

(** [save_vocab_and_merges(vocab, merges, output_dir, name_prefix)], when
    no call fails: the four files, in the order in which they are
    written.  The call with its failures is [save_vocab_and_merges_io]
    below. *)
Definition save_vocab_and_merges (vocab : gmap Z bytes)
    (merges : list (bytes * bytes)) (output_dir name_prefix : pystr)
    (fs : gmap pystr node) : gmap pystr node :=
  let vocab_path := path_join output_dir (name_prefix ++ Py.lit "vocab.json") in
  let fs := <[vocab_path := JsonFile (vocab_gpt2_of vocab)]> fs in
  let merges_path := path_join output_dir (name_prefix ++ Py.lit "merges.txt") in
  let fs := <[merges_path := TextFile (merges_txt merges)]> fs in
  let raw_vocab_path :=
    path_join output_dir (name_prefix ++ Py.lit "vocab_raw.json") in
  let fs :=
    <[raw_vocab_path := JsonFile (json_dump_int_keys (vocab_serializable vocab))]> fs in
  let raw_merges_path :=
    path_join output_dir (name_prefix ++ Py.lit "merges_raw.txt") in
  <[raw_merges_path := TextFile (merges_raw_txt merges)]> fs.

(** The four files of [save_vocab_and_merges] with what is written to
    them, in the order of the writes. *)
Definition saved_files (vocab : gmap Z bytes) (merges : list (bytes * bytes))
    (output_dir name_prefix : pystr) : list (pystr * node) :=
  [ (path_join output_dir (name_prefix ++ Py.lit "vocab.json"),
     JsonFile (vocab_gpt2_of vocab));
    (path_join output_dir (name_prefix ++ Py.lit "merges.txt"),
     TextFile (merges_txt merges));
    (path_join output_dir (name_prefix ++ Py.lit "vocab_raw.json"),
     JsonFile (json_dump_int_keys (vocab_serializable vocab)));
    (path_join output_dir (name_prefix ++ Py.lit "merges_raw.txt"),
     TextFile (merges_raw_txt merges)) ].

(** [save_vocab_and_merges(vocab, merges, output_dir, name_prefix)] as a
    call that may fail: [mkdir], then the four files one after the other.
    The first call that fails ends it with that exception; the files
    written until then stay, and the file whose write failed holds what
    that leaves behind. *)
Definition save_vocab_and_merges_io (vocab : gmap Z bytes)
    (merges : list (bytes * bytes)) (output_dir name_prefix : pystr)
    (fs : gmap pystr node) : outcome unit * gmap pystr node :=
  match mkdir output_dir with
  | Return _ => write_files (saved_files vocab merges output_dir name_prefix) fs
  | Raise e => (Raise e, fs)
  | SysExit code => (SysExit code, fs)
  end.

(** [train_bpe_tokenizer(input_path, vocab_size, special_tokens,
    output_dir, dataset_name)].  [input_path.exists()] and
    [input_path.stat()] come before the [try]; what they raise escapes.
    Inside the [try], every exception, those of saving included, ends in
    [sys.exit(1)].  The two resource limits only select what is printed
    and are left out, and printing itself is taken to succeed. *)
Definition train_bpe_tokenizer (input_path : pystr) (vocab_size : Z)
    (special_tokens : list bytes) (output_dir dataset_name : pystr)
    (w : world)
  : outcome (gmap Z bytes * list (bytes * bytes) * pyfloat * Z * option pystr)
    * world :=
  match path_exists input_path (fs w) with
  | Raise e => (Raise e, w)
  | SysExit code => (SysExit code, w)
  | Return false => (SysExit 1, log (PrintInputNotFound input_path) w)
  | Return true =>
      match path_stat input_path (fs w) with
      | Raise e => (Raise e, w)
      | SysExit code => (SysExit code, w)
      | Return _ =>
          let w := log (CallRunTrainBpe input_path vocab_size special_tokens) w in
          let body :=
            '(vocab, merges) ←
              run_train_bpe (fs w) input_path vocab_size special_tokens;
            longest_token_decoded ← analyze_vocab vocab merges;
            Return (vocab, merges, longest_token_decoded) in
          match body with
          | Return (vocab, merges, longest_token_decoded) =>
              match save_vocab_and_merges_io vocab merges output_dir
                      (lower dataset_name ++ Py.lit "_") (fs w) with
              | (Return _, fs') =>
                  (Return (vocab, merges, elapsed_time, peak_memory,
                           longest_token_decoded),
                   {| fs := fs'; events := events w |})
              | (Raise e, fs') =>
                  (SysExit 1,
                   log (PrintTrainingError e) {| fs := fs'; events := events w |})
              | (SysExit code, fs') =>
                  (SysExit code, {| fs := fs'; events := events w |})
              end
          | Raise e => (SysExit 1, log (PrintTrainingError e) w)
          | SysExit code => (SysExit code, w)
          end
      end
  end.

(** One line of [merges_raw.txt] in [load_tokenizer]: skipped when blank,
    otherwise unpacked into exactly two hexadecimal fields. *)
Definition load_merge_line (line : pystr) : outcome (option (bytes * bytes)) :=
  match Py.strip line with
  | [] => Return None
  | _ =>
      match Py.split (Py.strip line) with
      | [token1_hex; token2_hex] =>
          token1 ← of_option (Py.fromhex token1_hex) ValueError;
          token2 ← of_option (Py.fromhex token2_hex) ValueError;
          Return (Some (token1, token2))
      | _ => Raise ValueError
      end
  end.

Fixpoint load_merges (merges : list (bytes * bytes)) (ls : list pystr)
  : outcome (list (bytes * bytes)) :=
  match ls with
  | [] => Return merges
  | line :: ls' =>
      r ← load_merge_line line;
      load_merges (match r with Some m => merges ++ [m] | None => merges end) ls'
  end.

(** [{int(k): bytes.fromhex(v) for k, v in vocab_hex.items()}], the items
    taken in the order of the file: when two keys stand for the same
    integer, the value of the later one stays. *)
Definition load_vocab (position : pystr → nat) (vocab_hex : gmap pystr pystr)
  : outcome (gmap Z bytes) :=
  foldl (λ acc kv,
    vocab ← acc;
    i ← of_option (Py.int kv.1) ValueError;
    b ← of_option (Py.fromhex kv.2) ValueError;
    Return (<[i := b]> vocab)) (Return ∅) (json_items position vocab_hex).

(** [load_tokenizer(output_dir, prefix)] *)
Definition load_tokenizer (output_dir prefix : pystr) (fs : gmap pystr node)
  : outcome (gmap Z bytes * list (bytes * bytes)) :=
  f ← open_read (path_join output_dir (prefix ++ Py.lit "vocab_raw.json")) fs;
  vocab_hex ← json_load f;
  vocab ←
    load_vocab
      (key_position (path_join output_dir (prefix ++ Py.lit "vocab_raw.json")))
      vocab_hex;
  f ← open_read (path_join output_dir (prefix ++ Py.lit "merges_raw.txt")) fs;
  ls ← read_lines f;
  merges ← load_merges [] ls;
  Return (vocab, merges).

(** The conversion loop of [fix_vocab_json]. *)
Definition fix_vocab (vocab_raw : gmap pystr pystr) : outcome (gmap pystr pystr) :=
  map_fold (λ token_id_str hex_bytes acc,
    vocab_gpt2 ← acc;
    token_bytes ← of_option (Py.fromhex hex_bytes) ValueError;
    Return (<[token_id_str := encode_token token_bytes]> vocab_gpt2))
    (Return ∅) vocab_raw.

(** The closing check of [fix_vocab_json]: [min] and [max] of
    [int(k) for k in vocab_gpt2.keys()], which raise on a key that is no
    integer and on an empty dictionary. *)
Definition verify_ids (vocab_gpt2 : gmap pystr pystr) : outcome unit :=
  match mapM Py.int (map_to_list vocab_gpt2).*1 with
  | None | Some [] => Raise ValueError
  | Some _ => Return ()
  end.

(** [fix_vocab_json(tokenizer_dir, name_prefix)]: the outcome and the file
    system it leaves.  [vocab.json] is written before the closing check;
    the write is taken to succeed. *)
Definition fix_vocab_json (tokenizer_dir name_prefix : pystr)
    (fs : gmap pystr node) : outcome unit * gmap pystr node :=
  let raw_vocab_path :=
    path_join tokenizer_dir (name_prefix ++ Py.lit "_vocab_raw.json") in
  match (f ← open_read raw_vocab_path fs; vocab_raw ← json_load f;
         fix_vocab vocab_raw) with
  | Return vocab_gpt2 =>
      let vocab_path :=
        path_join tokenizer_dir (name_prefix ++ Py.lit "_vocab.json") in
      (verify_ids vocab_gpt2, <[vocab_path := JsonFile vocab_gpt2]> fs)
  | Raise e => (Raise e, fs)
  | SysExit code => (SysExit code, fs)
  end.

End Utils.

(** ** The training entry point [run_train_bpe]

    [tests/adapters.py] is not part of the sources at hand.  The
    definitions of this section are modelled from the specification of the
    training core (its sections 3 to 7). *)

(** Modelled from the spec: the errors of the training core that are missing
    from the sources.  [InvariantViolation] is the loud abort of section 7
    on an inconsistent index. *)
Inductive train_abort := InvariantViolation.

(** Modelled from the spec: a segment of section 3, missing from the
    sources: one distinct pretoken as a sequence of symbols, with the
    number of times it occurs.  Symbols are interned by value, so a symbol
    is represented by its byte string. *)
Record segment := Segment { seg_symbols : list bytes; seg_count : nat }.

(** Modelled from the spec: the frequency index of section 4.2, missing
    from the sources: pair frequencies, and for each pair the identifiers
    (positions in the segment table) of the segments that contain it. *)
Record index := Index {
  freq : gmap (bytes * bytes) nat;
  occ : gmap (bytes * bytes) (gset nat)
}.

(** Modelled from the spec: the three states of section 4.5. *)
Inductive phase := INITIALIZING | MERGING | DONE.

(** Modelled from the spec: the training state, missing from the sources:
    segment table, index, vocabulary (dense, so a list indexed by token
    id) and merge records in the order in which they were applied. *)
Record state := State {
  st_phase : phase;
  st_segments : list segment;
  st_index : index;
  st_vocab : list bytes;
  st_merges : list (bytes * bytes)
}.

Section Training.

(** The pretokenization rule, which the specification leaves to the
    implementer, and the frequency floor of the merge selector (1 in
    section 4.3, 2 in section 3). *)
Variable pretokenize : bytes → list bytes.
Variable floor : nat.

(** *** Segmenter (section 4.1) *)

(** Modelled from the spec: a special token occurs at the head of the
    text. *)
Fixpoint is_prefix (p s : bytes) : bool :=
  match p, s with
  | [], _ => true
  | x :: p', y :: s' => bool_decide (x = y) && is_prefix p' s'
  | _ :: _, [] => false
  end.

(** Modelled from the spec: the special token that starts [s], the
    longest one first. *)
Definition longest_special (special_tokens : list bytes) (s : bytes)
  : option bytes :=
  foldl (λ best t,
    if is_prefix t s && bool_decide (t ≠ []) then
      match best with
      | Some u => if (length u <? length t)%nat then Some t else best
      | None => Some t
      end
    else best) None special_tokens.

(** Modelled from the spec: the corpus split at special tokens, which
    are removed.  [skip] counts the bytes of a special token still to be
    dropped and [cur] holds the current chunk, reversed. *)
Fixpoint split_special_go (special_tokens : list bytes) (skip : nat)
    (cur s : bytes) : list bytes :=
  match s with
  | [] => [reverse cur]
  | b :: s' =>
      match skip with
      | S k => split_special_go special_tokens k cur s'
      | O =>
          match longest_special special_tokens s with
          | Some t =>
              reverse cur
                :: split_special_go special_tokens (length t - 1) [] s'
          | None => split_special_go special_tokens 0 (b :: cur) s'
          end
      end
  end.

(** Modelled from the spec: the segmenter: the number of occurrences of
    each distinct pretoken. *)
Definition segmenter (corpus : bytes) (special_tokens : list bytes)
  : gmap bytes nat :=
  foldl (λ counts tok, <[tok := S (default 0%nat (counts !! tok))]> counts) ∅
        (split_special_go special_tokens 0 [] corpus ≫= pretokenize).

(** Modelled from the spec: the segment table at the start: every symbol
    is one byte. *)
Definition initial_segments (counts : gmap bytes nat) : list segment :=
  (λ tc : bytes * nat, Segment ((λ b, [b]) <$> tc.1) tc.2)
    <$> map_to_list counts.

(** *** Frequency index (section 4.2) *)

(** Modelled from the spec: the adjacent pairs of a symbol sequence, left
    to right, with multiplicity. *)
Fixpoint pairs_of (symbols : list bytes) : list (bytes * bytes) :=
  match symbols with
  | a :: tl =>
      match tl with
      | b :: _ => (a, b) :: pairs_of tl
      | [] => []
      end
  | [] => []
  end.

(** Modelled from the spec: one occurrence of a pair in segment [i]
    entered: its count added to the frequency, its identifier to the
    occurrence set. *)
Definition add_pair (i c : nat) (ix : index) (p : bytes * bytes) : index :=
  Index (<[p := (default 0 (freq ix !! p) + c)%nat]> (freq ix))
        (<[p := {[i]} ∪ default ∅ (occ ix !! p)]> (occ ix)).

(** Modelled from the spec: one occurrence of a pair in segment [i]
    withdrawn; a frequency that reaches zero leaves the table. *)
Definition sub_pair (i c : nat) (ix : index) (p : bytes * bytes) : index :=
  Index (match (default 0 (freq ix !! p) - c)%nat with
         | O => delete p (freq ix)
         | f => <[p := f]> (freq ix)
         end)
        (<[p := default ∅ (occ ix !! p) ∖ {[i]}]> (occ ix)).

(** Modelled from the spec: the contribution of segment [i] entered into
    the index: its count added once per occurrence of a pair, its
    identifier recorded once per pair. *)
Definition add_segment (i : nat) (sg : segment) (ix : index) : index :=
  foldl (add_pair i (seg_count sg)) ix (pairs_of (seg_symbols sg)).

(** Modelled from the spec: the contribution of segment [i] withdrawn. *)
Definition remove_segment (i : nat) (sg : segment) (ix : index) : index :=
  foldl (sub_pair i (seg_count sg)) ix (pairs_of (seg_symbols sg)).

(** Modelled from the spec: the index built from the segment table. *)
Definition build_index (segments : list segment) : index :=
  foldl (λ ix isg, add_segment isg.1 isg.2 ix) (Index ∅ ∅)
        (imap (λ i sg, (i, sg)) segments).

(** *** Merge selector (section 4.3) *)

(** Modelled from the spec: [q] gives way to [p]: lower frequency, or the
    same frequency and a lexicographically smaller pair of byte strings. *)
Definition gives_way (q p : (bytes * bytes) * nat) : bool :=
  (q.2 <? p.2)%nat
  || ((q.2 =? p.2)%nat && bool_decide (Py.pair_compare q.1 p.1 = Lt)).

(** Modelled from the spec: the merge selector as a scan of the
    frequency table; [None] is the signal that no pair is available. *)
Definition select (ix : index) : option (bytes * bytes) :=
  fst <$> map_fold (λ p f best,
    if (f <? floor)%nat then best
    else match best with
         | None => Some (p, f)
         | Some q => if gives_way q (p, f) then Some (p, f) else best
         end) None (freq ix).

(** Modelled from the spec: the selection rule in the specification's own
    words: a pair that reaches the floor, of maximal frequency, and the
    lexicographically greatest among the pairs of that frequency. *)
Definition selects (ix : index) (p : bytes * bytes) : Prop :=
  ∃ f, freq ix !! p = Some f ∧ (floor ≤ f)%nat ∧
    ∀ q g, freq ix !! q = Some g →
      (g < f)%nat ∨ (g = f ∧ Py.pair_compare q p ≠ Gt).

(** *** Incremental updater (section 4.4) *)

(** Modelled from the spec: one left-to-right scan of a segment that
    replaces each occurrence of [a, b] by the new symbol. *)
Fixpoint merge_symbols (a b : bytes) (symbols : list bytes) : list bytes :=
  match symbols with
  | x :: tl =>
      match tl with
      | y :: rest =>
          if bool_decide (x = a ∧ y = b)
          then (a ++ b) :: merge_symbols a b rest
          else x :: merge_symbols a b tl
      | [] => [x]
      end
  | [] => []
  end.

(** Modelled from the spec: the update of one segment that contains the
    pair.  The net change of the index is that of section 4.4: the
    contributions of the old symbol sequence are withdrawn and those of
    the new one are entered, so the pairs away from a replaced occurrence
    cancel.  A segment identifier outside the table aborts. *)
Definition update_segment (a b : bytes) (acc : option (list segment * index))
    (i : nat) : option (list segment * index) :=
  '(segments, ix) ← acc;
  sg ← segments !! i;
  let sg' := Segment (merge_symbols a b (seg_symbols sg)) (seg_count sg) in
  Some (<[i := sg']> segments, add_segment i sg' (remove_segment i sg ix)).

(** Modelled from the spec: one merge: only the segments of the pair's
    occurrence set are touched, the new symbol gets the next id and the
    merge record is appended.  A selected pair without occurrence set
    aborts. *)
Definition apply_merge (p : bytes * bytes) (st : state) : option state :=
  touched ← occ (st_index st) !! p;
  '(segments, ix) ← foldl (update_segment p.1 p.2)
                        (Some (st_segments st, st_index st))
                        (elements touched);
  Some (State MERGING segments ix (st_vocab st ++ [p.1 ++ p.2])
              (st_merges st ++ [p])).

(** *** Vocabulary builder and termination (section 4.5) *)

(** Modelled from the spec: the 256 single bytes, in the order of their
    values. *)
Definition single_bytes : list bytes :=
  omap (λ n, (λ b, [b]) <$> Byte.of_N (N.of_nat n)) (seq 0 256).

Section Run.

Variable corpus : bytes.
Variable vocab_size : Z.
Variable special_tokens : list bytes.

(** Modelled from the spec: the state in which training starts: the
    reserved ids are allocated, nothing is segmented yet. *)
Definition start : state :=
  State INITIALIZING [] (Index ∅ ∅) (single_bytes ++ special_tokens) [].

(** Modelled from the spec: INITIALIZING runs the segmenter and builds
    the frequency index, once. *)
Definition initialize (st : state) : state :=
  let segments := initial_segments (segmenter corpus special_tokens) in
  State MERGING segments (build_index segments) (st_vocab st) (st_merges st).

(** Modelled from the spec: the transition to DONE keeps what was
    accumulated. *)
Definition finish (st : state) : state :=
  State DONE (st_segments st) (st_index st) (st_vocab st) (st_merges st).

(** Modelled from the spec: the current vocabulary size equals the
    requested size. *)
Definition full (st : state) : Prop :=
  Z.of_nat (length (st_vocab st)) = vocab_size.

(** Modelled from the spec: the invariant of section 3 on a state: the
    vocabulary holds the reserved ids and one id per merge, and does not
    exceed the requested size. *)
Definition wf_state (st : state) : Prop :=
  length (st_vocab st)
    = (256 + length special_tokens + length (st_merges st))%nat ∧
  (Z.of_nat (length (st_vocab st)) ≤ vocab_size)%Z.

(** Modelled from the spec: the state machine of section 4.5 as a step
    relation.  The merge step may take any pair that the selection
    rule allows. *)
Inductive step : state → state → Prop :=
  | step_initialize st :
      st_phase st = INITIALIZING → step st (initialize st)
  | step_full st :
      st_phase st = MERGING → full st → step st (finish st)
  | step_exhausted st :
      st_phase st = MERGING → ¬ full st →
      (∀ p, ¬ selects (st_index st) p) → step st (finish st)
  | step_merge st p st' :
      st_phase st = MERGING → ¬ full st →
      selects (st_index st) p → apply_merge p st = Some st' →
      step st st'.

(** Modelled from the spec: a merging state whose selected pair cannot be
    applied: the inconsistency on which section 7 aborts. *)
Definition broken (st : state) : Prop :=
  st_phase st = MERGING ∧ ¬ full st ∧
  ∃ p, selects (st_index st) p ∧ apply_merge p st = None.

(** Modelled from the spec: the merging loop as a function; [fuel]
    bounds the number of merges still allowed. *)
Fixpoint merging (fuel : nat) (st : state) : train_abort + state :=
  match fuel with
  | O => inr (finish st)
  | S fuel =>
      if bool_decide (full st) then inr (finish st)
      else match select (st_index st) with
           | None => inr (finish st)
           | Some p =>
               match apply_merge p st with
               | Some st' => merging fuel st'
               | None => inl InvariantViolation
               end
           end
  end.

(** Modelled from the spec: a training run from the start state; at most
    [vocab_size - 256 - len(special_tokens)] merges are left to do. *)
Definition train : train_abort + state :=
  merging (Z.to_nat (vocab_size - Z.of_nat (length (st_vocab start))))
          (initialize start).

End Run.

(** Modelled from the spec: the dictionary from token id to bytes that
    training returns. *)
Definition vocab_dict (vocab : list bytes) : gmap Z bytes := map_seqZ 0 vocab.

(** Modelled from the spec: the output of the core entry contract:
    vocabulary and ordered merge list. *)
Definition result_of (st : state) : gmap Z bytes * list (bytes * bytes) :=
  (vocab_dict (st_vocab st), st_merges st).

(** Modelled from the spec: [run_train_bpe(input_path, vocab_size,
    special_tokens)], missing from the sources.  A vocabulary size below
    [256 + len(special_tokens)] is a configuration error, found before
    any work begins; a corpus that cannot be read is an input error.
    Special tokens are given by their UTF-8 encoding. *)
Definition run_train_bpe (fs : gmap pystr node) (input_path : pystr)
    (vocab_size : Z) (special_tokens : list bytes)
  : outcome (gmap Z bytes * list (bytes * bytes)) :=
  if bool_decide (vocab_size < 256 + Z.of_nat (length special_tokens))%Z
  then Raise ConfigurationError
  else match fs !! input_path with
       | Some (RawFile corpus) =>
           match train corpus vocab_size special_tokens with
           | inr st => Return (result_of st)
           | inl InvariantViolation => Raise InternalError
           end
       | _ => Raise InputError
       end.

(** Modelled from the spec: what a training run may return, with the
    merge steps taken through the step relation. *)
Inductive trains (fs : gmap pystr node) (input_path : pystr)
    (vocab_size : Z) (special_tokens : list bytes)
  : outcome (gmap Z bytes * list (bytes * bytes)) → Prop :=
  | trains_configuration_error :
      (vocab_size < 256 + Z.of_nat (length special_tokens))%Z →
      trains fs input_path vocab_size special_tokens (Raise ConfigurationError)
  | trains_input_error :
      ¬ (vocab_size < 256 + Z.of_nat (length special_tokens))%Z →
      (∀ corpus, fs !! input_path ≠ Some (RawFile corpus)) →
      trains fs input_path vocab_size special_tokens (Raise InputError)
  | trains_done corpus st :
      ¬ (vocab_size < 256 + Z.of_nat (length special_tokens))%Z →
      fs !! input_path = Some (RawFile corpus) →
      rtc (step corpus vocab_size special_tokens) (start special_tokens) st →
      st_phase st = DONE →
      trains fs input_path vocab_size special_tokens (Return (result_of st))
  | trains_abort corpus st :
      ¬ (vocab_size < 256 + Z.of_nat (length special_tokens))%Z →
      fs !! input_path = Some (RawFile corpus) →
      rtc (step corpus vocab_size special_tokens) (start special_tokens) st →
      broken vocab_size st →
      trains fs input_path vocab_size special_tokens (Raise InternalError).

End Training.

(** ** The byte-to-unicode table *)

(** Modelled from the spec: a printable code point, as the external
    interface asks of the table: no whitespace, no C0 or C1 control
    character and not the soft hyphen. *)
Definition printable (c : N) : bool :=
  negb (Py.is_space c) && (32 <? c) && negb ((127 <=? c) && (c <=? 159))
  && negb (c =? 173).

(** Modelled from the spec: [gpt2_bytes_to_unicode] of [tests/common.py],
    missing from the sources: the table of GPT-2, one instance of the fixed
    table of the external interface.  The bytes that are printable in
    Latin-1 stand for themselves; the others, in increasing order, get the
    code points from U+0100 on. *)
Definition gpt2_bytes_to_unicode (b : byte) : N :=
  let v := Byte.to_N b in
  if v <? 33 then 256 + v
  else if v <? 127 then v
  else if v <? 161 then 162 + v
  else if v =? 173 then 323
  else v.

(** The table read backwards. *)
Definition gpt2_unicode_to_bytes (c : N) : option byte :=
  if c <? 33 then None
  else if c <? 127 then Byte.of_N c
  else if c <? 161 then None
  else if c =? 173 then None
  else if c <? 256 then Byte.of_N c
  else if c <? 289 then Byte.of_N (c - 256)
  else if c <? 323 then Byte.of_N (c - 162)
  else if c =? 323 then Byte.of_N 173
  else None.

(** ** What the loaders accept and how they fail *)

(** A merge whose two byte strings are both non-empty. *)
Definition nonempty_pair (m : bytes * bytes) : Prop := m.1 ≠ [] ∧ m.2 ≠ [].

(** How a call that only fails with [ValueError] ends. *)
Definition value_error_only {A} (r : outcome A) : Prop :=
  match r with
  | Return _ => True
  | Raise e => e = ValueError
  | SysExit _ => False
  end.

(** ** [compare_tokenizers.py]: the statistics and the script *)

(** [min(l)] and [max(l)] of a list of integers; [None] stands for the
    [ValueError] on an empty list. *)
Definition py_min (l : list nat) : option nat :=
  match l with [] => None | x :: l' => Some (foldl Nat.min x l') end.

Definition py_max (l : list nat) : option nat :=
  match l with [] => None | x :: l' => Some (foldl Nat.max x l') end.

(** [s.isspace()]: at least one character, all of them whitespace. *)
Definition isspace (s : pystr) : bool :=
  match s with [] => false | _ => forallb Py.is_space s end.

(** [[len(v) for v in vocab.values()]] *)
Definition token_lengths (vocab : gmap Z bytes) : list nat :=
  (λ kv : Z * bytes, length kv.2) <$> map_to_list vocab.

Section Compare.

(** [str.isalnum], which reads the Unicode character database, and the
    floating-point operations [int / int] and [x * 100] are parameters. *)
Variable isalnum : pystr → bool.
Variable pyfloat : Type.
Variable truediv : Z → Z → pyfloat.
Variable times100 : pyfloat → pyfloat.

(** The order of the keys in the JSON files that are read. *)
Variable key_position : pystr → pystr → nat.

(** The dictionary that [analyze_tokenizer_characteristics] returns. *)
Record stats := Stats {
  stats_vocab_size : nat;
  stats_num_merges : nat;
  stats_avg_token_length : pyfloat;
  stats_max_token_length : nat;
  stats_alphanumeric_pct : pyfloat;
  stats_multi_word_count : nat
}.

(** One round of the character type loop: the counters
    [(alphanumeric_count, special_char_count, multi_word_count)] after
    [token_bytes]; a token that is no valid UTF-8 is passed over. *)
Definition count_token (token_bytes : bytes) (counts : nat * nat * nat)
  : nat * nat * nat :=
  let '(alphanumeric_count, special_char_count, multi_word_count) := counts in
  match Py.utf8_decode token_bytes with
  | Some decoded =>
      let '(alphanumeric_count, special_char_count) :=
        if isalnum decoded then (S alphanumeric_count, special_char_count)
        else if negb (isspace decoded)
             then (alphanumeric_count, S special_char_count)
             else (alphanumeric_count, special_char_count) in
      let multi_word_count :=
        if bool_decide (32 ∈ decoded) && (1 <? length (Py.split decoded))%nat
        then S multi_word_count else multi_word_count in
      (alphanumeric_count, special_char_count, multi_word_count)
  | None => counts
  end.

Definition count_tokens (vocab : gmap Z bytes) : nat * nat * nat :=
  map_fold (λ _ token_bytes counts, count_token token_bytes counts)
           (0, 0, 0)%nat vocab.

(** [analyze_tokenizer_characteristics(vocab, merges, name)].  The report
    is left out; [min(token_lengths)], the first call that can fail, raises
    [ValueError] on an empty vocabulary. *)
Definition analyze_tokenizer_characteristics (vocab : gmap Z bytes)
    (merges : list (bytes * bytes)) (name : pystr) : outcome stats :=
  let lengths := token_lengths vocab in
  _ ← of_option (py_min lengths) ValueError;
  max_length ← of_option (py_max lengths) ValueError;
  let '(alphanumeric_count, _, multi_word_count) := count_tokens vocab in
  Return {|
    stats_vocab_size := size vocab;
    stats_num_merges := length merges;
    stats_avg_token_length :=
      truediv (Z.of_nat (sum_list lengths)) (Z.of_nat (length lengths));
    stats_max_token_length := max_length;
    stats_alphanumeric_pct :=
      times100 (truediv (Z.of_nat alphanumeric_count) (Z.of_nat (size vocab)));
    stats_multi_word_count := multi_word_count
  |}.

(** [base_dir] of the script. *)
Definition base_dir : pystr :=
  Py.lit "/home/lifans/cs336/cs336-assignment1-basics/tokenizer_output".

(** The script of [compare_tokenizers.py]: a tokenizer that is not found
    ends the script through [exit(1)]; every other exception escapes.
    [compare_tokenizers] only prints. *)
Definition compare_tokenizers_main (fs : gmap pystr node) : outcome unit :=
  match load_tokenizer key_position (path_join base_dir (Py.lit "tinystories"))
                       (Py.lit "tinystories_") fs with
  | Raise FileNotFoundError => SysExit 1
  | Raise e => Raise e
  | SysExit code => SysExit code
  | Return (tinystories_vocab, tinystories_merges) =>
      match load_tokenizer key_position
                           (path_join base_dir (Py.lit "openwebtext"))
                           (Py.lit "openwebtext_") fs with
      | Raise FileNotFoundError => SysExit 1
      | Raise e => Raise e
      | SysExit code => SysExit code
      | Return (owt_vocab, owt_merges) =>
          _ ← analyze_tokenizer_characteristics tinystories_vocab
                tinystories_merges (Py.lit "TinyStories");
          _ ← analyze_tokenizer_characteristics owt_vocab owt_merges
                (Py.lit "OpenWebText");
          Return ()
      end
  end.

End Compare.

(** [base_dir / "tinystories"] and [base_dir / "openwebtext"] *)
Definition tinystories_dir : pystr := path_join base_dir (Py.lit "tinystories").

Definition openwebtext_dir : pystr := path_join base_dir (Py.lit "openwebtext").

(** ** The training scripts *)

(** The corpora of the two scripts. *)
Definition tinystories_input : pystr :=
  Py.lit "/home/lifans/cs336/data/TinyStoriesV2-GPT4-train.txt".

Definition owt_input : pystr := Py.lit "/home/lifans/cs336/data/owt_train.txt".

(** How a script ends: it runs to its end, leaves through [sys.exit], or
    stops on the [AttributeError] of a method call on [None]. *)
Inductive script_end :=
  | ScriptDone
  | ScriptExit (code : Z)
  | ScriptRaise (e : exn)
  | ScriptAttributeError.

Section Scripts.

Variable byte_encoder : byte → N.
Variable run_train_bpe :
  gmap pystr node → pystr → Z → list bytes →
  outcome (gmap Z bytes * list (bytes * bytes)).
Variable lower : pystr → pystr.
Variable pyfloat : Type.
Variable elapsed_time : pyfloat.
Variable peak_memory : Z.
Variable os_error : file_op → pystr → option exn.
Variable left_behind : pystr → option node → option node.
Variable inserted_at : Z → nat.

(** ["<|endoftext|>"], as bytes. *)
Definition endoftext : bytes := list_byte_of_string "<|endoftext|>".

(** The call of [train_bpe_tinystories.py]. *)
Definition train_bpe_tinystories (w : world) :=
  train_bpe_tokenizer byte_encoder run_train_bpe lower pyfloat elapsed_time
    peak_memory os_error left_behind inserted_at tinystories_input 10000 [endoftext]
    (Py.lit "/home/lifans/cs336/cs336-assignment1-basics/tokenizer_output/tinystories")
    (Py.lit "TinyStories") w.

(** The call of [train_bpe_expts_owt.py]. *)
Definition train_bpe_expts_owt (w : world) :=
  train_bpe_tokenizer byte_encoder run_train_bpe lower pyfloat elapsed_time
    peak_memory os_error left_behind inserted_at owt_input 32000 [endoftext]
    (Py.lit "/home/lifans/cs336/cs336-assignment1-basics/tokenizer_output/openwebtext")
    (Py.lit "OpenWebText") w.

(** The script of [train_bpe_tinystories.py]: the result of the call is
    dropped. *)
Definition train_bpe_tinystories_main (w : world) : script_end * world :=
  match train_bpe_tinystories w with
  | (Return _, w') => (ScriptDone, w')
  | (Raise e, w') => (ScriptRaise e, w')
  | (SysExit code, w') => (ScriptExit code, w')
  end.

(** The script of [train_bpe_expts_owt.py]: after the call it prints
    [len(longest_token.encode('utf-8'))], which fails when [longest_token]
    is [None]. *)
Definition train_bpe_expts_owt_main (w : world) : script_end * world :=
  match train_bpe_expts_owt w with
  | (Return (_, _, _, _, longest_token), w') =>
      match longest_token with
      | Some _ => (ScriptDone, w')
      | None => (ScriptAttributeError, w')
      end
  | (Raise e, w') => (ScriptRaise e, w')
  | (SysExit code, w') => (ScriptExit code, w')
  end.

End Scripts.

(** ** Inputs of the concrete runs *)

(** A pretokenizer for the examples: a chunk is one pretoken. *)
Definition one_pretoken (chunk : bytes) : list bytes :=
  match chunk with [] => [] | _ => [chunk] end.

Definition ex_path : pystr := Py.lit "corpus.txt".
Definition ex_dir : pystr := Py.lit "out".
Definition ex_corpus : bytes := list_byte_of_string "aaabdaaabac".
Definition ex_fs : gmap pystr node := {[ ex_path := RawFile ex_corpus ]}.
Definition ex_world : world := World ex_fs [].
Definition ex_unreadable : world := World {[ ex_path := Unreadable ]} [].
Definition ex_merges : list (bytes * bytes) :=
  [(["a"], ["a"]); (["a"; "a"], ["a"]); (["a"; "a"; "a"], ["b"])]%byte.
Definition ex_vocab : gmap Z bytes :=
  vocab_dict (single_bytes ++ [["a"; "a"]; ["a"; "a"; "a"]; ["a"; "a"; "a"; "b"]]%byte).
Definition ex_small_vocab : gmap Z bytes :=
  <[0%Z := ["a"]%byte]> (<[1%Z := [xc3; xa9]%byte]> ∅).

(** An operating system that refuses nothing, one that refuses to give the
    status of the corpus, and one that refuses to create the output
    directory. *)
Definition os_ok (op : file_op) (path : pystr) : option exn := None.

Definition os_no_stat (op : file_op) (path : pystr) : option exn :=
  match op with
  | Stat => if bool_decide (path = ex_path) then Some PermissionError else None
  | _ => None
  end.

Definition os_no_mkdir (op : file_op) (path : pystr) : option exn :=
  match op with
  | Mkdir => if bool_decide (path = ex_dir) then Some FileExistsError else None
  | _ => None
  end.

(** A disk that is full when [tiny_merges.txt] is written (errno 28), and
    the empty file that this leaves; a refused [open] leaves what was
    there. *)
Definition os_disk_full (op : file_op) (path : pystr) : option exn :=
  match op with
  | WriteFile =>
      if bool_decide (path = path_join ex_dir (Py.lit "tiny_merges.txt"))
      then Some (OSError 28) else None
  | _ => None
  end.

Definition left_empty (path : pystr) (old : option node) : option node :=
  Some (TextFile []).

Definition left_as_is (path : pystr) (old : option node) : option node := old.

(** JSON files with their keys in lexicographic order of their first
    character. *)
Definition by_first (path key : pystr) : nat :=
  match key with c :: _ => N.to_nat c | [] => 0 end.

Definition by_first_reversed (path key : pystr) : nat :=
  2000 - by_first path key.

(** Tokenizer files written by hand: two keys of the vocabulary, the
    second in Arabic-Indic digits, stand for the integer 10, and the lines
    of the merges file end in carriage returns. *)
Definition ex_hand_fs : gmap pystr node :=
  {[ path_join ex_dir (Py.lit "vocab_raw.json") :=
       JsonFile {[ Py.lit "1_0" := Py.lit "61"; [1633; 1632] := Py.lit "62" ]};
     path_join ex_dir (Py.lit "merges_raw.txt") :=
       TextFile (Py.lit "61 62" ++ [13; 10; 13; 10] ++ Py.lit "6161 62" ++ [13])
  ]}.

(** Token ids that entered the dictionary in increasing order, and in
    decreasing order. *)
Definition by_id (token_id : Z) : nat := Z.to_nat token_id.

Definition by_id_reversed (token_id : Z) : nat := 1000 - Z.to_nat token_id.

(** Two tokens of the same length, the first of them no valid UTF-8. *)
Definition ex_tie_vocab : gmap Z bytes :=
  <[3%Z := [xff]%byte]> (<[4%Z := ["c"]%byte]> ∅).

(** The size of the vocabulary and the merges of a successful run. *)
Definition merges_of (r : outcome (gmap Z bytes * list (bytes * bytes)))
  : option (nat * list (bytes * bytes)) :=
  match r with Return (vocab, merges) => Some (size vocab, merges) | _ => None end.

(** [str.lower] and [str.isalnum] on ASCII letters and digits, and integer
    division for the floating-point one: the parameters of the concrete
    runs. *)
Definition ascii_lower (s : pystr) : pystr :=
  (λ c, if (65 <=? c) && (c <=? 90) then c + 32 else c) <$> s.

Definition ascii_isalnum (s : pystr) : bool :=
  match s with
  | [] => false
  | _ => forallb (λ c, (48 <=? c) && (c <=? 57) || (65 <=? c) && (c <=? 90)
                       || (97 <=? c) && (c <=? 122)) s
  end.

(** A training entry point for the concrete runs of the scripts that does
    no training: for a corpus that can be read it returns a small
    tokenizer. *)
Definition ex_trainer (fs : gmap pystr node) (input_path : pystr)
    (vocab_size : Z) (special_tokens : list bytes)
  : outcome (gmap Z bytes * list (bytes * bytes)) :=
  match fs !! input_path with
  | Some (RawFile _) => Return (ex_small_vocab, ex_merges)
  | _ => Raise InputError
  end.

(** Another one, which returns the vocabulary with the tie. *)
Definition ex_tie_trainer (fs : gmap pystr node) (input_path : pystr)
    (vocab_size : Z) (special_tokens : list bytes)
  : outcome (gmap Z bytes * list (bytes * bytes)) :=
  match fs !! input_path with
  | Some (RawFile _) => Return (ex_tie_vocab, ex_merges)
  | _ => Raise InputError
  end.

(** Both corpora of the scripts, and the file system after both training
    scripts. *)
Definition ex_scripts_world : world :=
  World {[ tinystories_input := RawFile ex_corpus;
           owt_input := RawFile ex_corpus ]} [].

Definition ex_trained_world : world :=
  (train_bpe_expts_owt gpt2_bytes_to_unicode ex_trainer ascii_lower Z 0%Z 0%Z
     os_ok left_as_is by_id
     (train_bpe_tinystories gpt2_bytes_to_unicode ex_trainer ascii_lower Z
        0%Z 0%Z os_ok left_as_is by_id ex_scripts_world).2).2.

(** * Facts and theorems *)

(** ** The primitives on small inputs *)

Example str_42 : Py.str 42 = Py.lit "42". Proof. reflexivity. Qed.
Example int_m7 : Py.int (Py.lit " -7 ") = Some (-7)%Z. Proof. reflexivity. Qed.
Example hex_ab : Py.hex ["a"%byte; "b"%byte] = Py.lit "6162". Proof. reflexivity. Qed.
Example fromhex_ab : Py.fromhex (Py.lit "61 62") = Some ["a"%byte; "b"%byte].
Proof. reflexivity. Qed.
Example split_ex : Py.split (Py.lit " ab  cd ") = [Py.lit "ab"; Py.lit "cd"].
Proof. reflexivity. Qed.
Example lines_ex : Py.lines (Py.lit "ab") = [Py.lit "ab"].
Proof. reflexivity. Qed.
Example utf8_ex : Py.utf8_decode [x63; xc3; xa9]%byte = Some [99; 233].
Proof. reflexivity. Qed.
Example utf8_overlong : Py.utf8_decode [xc0; x80]%byte = None.
Proof. reflexivity. Qed.
Example utf8_surrogate : Py.utf8_decode [xed; xa0; x80]%byte = None.
Proof. reflexivity. Qed.

(** ** Facts about the Python primitives *)

Module PyFacts.
Import Py.

Lemma lstrip_nospace s : nospace s → lstrip s = s.
Proof. destruct 1 as [|c s Hc _]; simpl; [done|]. cbv beta in Hc. by rewrite Hc. Qed.

Lemma lstrip_nospace_head a rest :
  nospace a → a ≠ [] → lstrip (a ++ rest) = a ++ rest.
Proof. destruct 1 as [|c a Hc _]; simpl; [done|]. cbv beta in Hc. by rewrite Hc. Qed.

Lemma strip_nospace s : nospace s → strip s = s.
Proof.
  intros Hs. unfold strip, rstrip. rewrite (lstrip_nospace s Hs).
  rewrite lstrip_nospace; [apply reverse_involutive|].
  unfold nospace. by rewrite Forall_reverse.
Qed.

Lemma strip_line a b :
  nospace a → a ≠ [] → nospace b → b ≠ [] →
  strip (a ++ [32] ++ b ++ [10]) = a ++ [32] ++ b.
Proof.
  intros Ha Hane Hb Hbne. unfold strip, rstrip.
  rewrite (lstrip_nospace_head a) by done.
  destruct b as [|d b _] using rev_ind; [done|].
  unfold nospace in Hb. rewrite Forall_app, Forall_singleton in Hb.
  destruct Hb as [_ Hd].
  replace (a ++ [32] ++ (b ++ [d]) ++ [10])
    with ((a ++ [32] ++ b) ++ [d] ++ [10]) by (by rewrite <- !(assoc_L (++))).
  rewrite !reverse_app. simpl. rewrite Hd.
  rewrite reverse_cons, !reverse_app, !reverse_involutive.
  change (reverse [32]) with [32]. by rewrite <- !(assoc_L (++)).
Qed.

Lemma split_go_nospace a cur rest :
  nospace a → split_go cur (a ++ rest) = split_go (reverse a ++ cur) rest.
Proof.
  intros Ha. revert cur. induction Ha as [|c a Hc _ IH]; intros cur; [done|].
  simpl. cbv beta in Hc. rewrite Hc, IH, reverse_cons. by rewrite <- (assoc_L (++)).
Qed.

Lemma split_two a b :
  nospace a → a ≠ [] → nospace b → b ≠ [] → split (a ++ [32] ++ b) = [a; b].
Proof.
  intros Ha Hane Hb Hbne. unfold split.
  rewrite split_go_nospace, app_nil_r by done. simpl.
  destruct (reverse a) as [|x r] eqn:Hr.
  { destruct a; [done|]. rewrite reverse_cons in Hr. by destruct (reverse a). }
  rewrite <- Hr, reverse_involutive. f_equal.
  rewrite <- (app_nil_r b) at 1. rewrite split_go_nospace, app_nil_r by done.
  simpl. destruct (reverse b) as [|y r'] eqn:Hr'.
  { destruct b; [done|]. rewrite reverse_cons in Hr'. by destruct (reverse b). }
  by rewrite <- Hr', reverse_involutive.
Qed.

Lemma lines_go_line l cur rest :
  Forall (λ c, c ≠ 10) l →
  lines_go cur (l ++ 10 :: rest) = (reverse cur ++ l ++ [10]) :: lines_go [] rest.
Proof.
  intros Hl. revert cur. induction Hl as [|c l Hc _ IH]; intros cur; simpl.
  - by rewrite reverse_cons.
  - apply N.eqb_neq in Hc. rewrite Hc, IH, reverse_cons.
    by rewrite <- (assoc_L (++)).
Qed.

Lemma lines_concat (ls : list pystr) :
  Forall (Forall (λ c, c ≠ 10)) ls →
  lines (concat ((λ l, l ++ [10]) <$> ls)) = (λ l, l ++ [10]) <$> ls.
Proof.
  unfold lines. induction 1 as [|l ls Hl _ IH]; [done|].
  simpl. rewrite <- (assoc_L (++)). simpl. rewrite lines_go_line by done.
  simpl. f_equal. exact IH.
Qed.

Lemma foldl_append {A} (g : A → pystr) (xs : list A) (init : pystr) :
  foldl (λ f x, f ++ g x) init xs = init ++ concat (g <$> xs).
Proof.
  revert init. induction xs as [|x xs IH]; intros init; simpl.
  - by rewrite app_nil_r.
  - by rewrite IH, (assoc_L (++)).
Qed.

(** Hexadecimal text *)

Lemma fromhex_hex_byte b s :
  fromhex (hex_byte b ++ s) = bs ← fromhex s; Some (b :: bs).
Proof. destruct b; reflexivity. Qed.

Lemma fromhex_hex bs : fromhex (hex bs) = Some bs.
Proof.
  induction bs as [|b bs IH]; [done|].
  change (hex (b :: bs)) with (hex_byte b ++ hex bs).
  by rewrite fromhex_hex_byte, IH.
Qed.

Lemma hex_byte_nospace b : nospace (hex_byte b).
Proof. destruct b; repeat constructor. Qed.

Lemma hex_nospace bs : nospace (hex bs).
Proof.
  induction bs as [|b bs IH]; [constructor|].
  change (hex (b :: bs)) with (hex_byte b ++ hex bs).
  apply Forall_app; split; [apply hex_byte_nospace|done].
Qed.

Lemma hex_nonempty bs : bs ≠ [] → hex bs ≠ [].
Proof. by destruct bs. Qed.

Lemma nospace_no_newline s : nospace s → Forall (λ c, c ≠ 10) s.
Proof. intros Hs. eapply Forall_impl; [exact Hs|]. by intros c Hc ->. Qed.

Lemma nospace_no_cr s : nospace s → Forall (λ c, c ≠ 13) s.
Proof. intros Hs. eapply Forall_impl; [exact Hs|]. by intros c Hc ->. Qed.

(** A text without carriage returns is read as it is. *)
Lemma universal_newlines_id s :
  Forall (λ c, c ≠ 13) s → universal_newlines s = s.
Proof.
  induction 1 as [|c s Hc _ IH]; [done|]. simpl.
  apply N.eqb_neq in Hc. rewrite Hc. by rewrite IH.
Qed.

End PyFacts.

Module StrFacts.
Import Py PyFacts.

Lemma lit_String c s : lit (String c s) = N_of_ascii c :: lit s.
Proof. reflexivity. Qed.

Lemma digit_char r :
  r < 10 →
  is_digit (N_of_ascii (pretty_N_char r)) ∧
  digit_val (N_of_ascii (pretty_N_char r)) = Some (Z.of_N r).
Proof.
  intros Hr.
  assert (r = 0 ∨ r = 1 ∨ r = 2 ∨ r = 3 ∨ r = 4 ∨ r = 5 ∨ r = 6 ∨ r = 7
          ∨ r = 8 ∨ r = 9) as Hcases by lia.
  unfold is_digit.
  destruct Hcases as [->|[->|[->|[->|[->|[->|[->|[->|[->| ->]]]]]]]]];
    vm_compute; (split; [split; discriminate|reflexivity]).
Qed.

(** The digits that [pretty_N_go] puts in front of its accumulator. *)
Lemma pretty_N_go_digits x s :
  ∃ pre, lit (pretty_N_go x s) = pre ++ lit s ∧ Forall is_digit pre
         ∧ (0 < x → pre ≠ []).
Proof.
  revert s. induction (N.lt_wf_0 x) as [x _ IH]; intros s.
  destruct (decide (x = 0)) as [->|Hx].
  { exists []. rewrite pretty_N_go_0. split_and!; [done|constructor|lia]. }
  rewrite pretty_N_go_step by lia.
  destruct (IH (x `div` 10)) with (s := String (pretty_N_char (x `mod` 10)) s)
    as (pre & Heq & Hpre & _).
  { apply N.div_lt; lia. }
  exists (pre ++ [N_of_ascii (pretty_N_char (x `mod` 10))]).
  rewrite Heq, lit_String, <- (assoc_L (++)). split_and!; [done| |].
  - apply Forall_app; split; [done|]. apply Forall_singleton.
    apply digit_char. apply N.mod_lt; lia.
  - intros _. by destruct pre.
Qed.

Lemma digit_val_digit c : is_digit c → digit_val c = Some (Z.of_N (c - 48)).
Proof.
  unfold is_digit. intros Hc.
  assert (c = 48 ∨ c = 49 ∨ c = 50 ∨ c = 51 ∨ c = 52 ∨ c = 53 ∨ c = 54
          ∨ c = 55 ∨ c = 56 ∨ c = 57) as Hcases by lia.
  by destruct Hcases as [->|[->|[->|[->|[->|[->|[->|[->|[->| ->]]]]]]]]].
Qed.

Lemma parse_digits_digit acc c s :
  is_digit c →
  parse_digits acc (c :: s) = parse_digits (10 * acc + Z.of_N (c - 48)) s.
Proof. intros Hc. cbn [parse_digits]. by rewrite digit_val_digit. Qed.

Lemma parse_pretty_N_go x s :
  parse_digits 0 (lit (pretty_N_go x s)) = parse_digits (Z.of_N x) (lit s).
Proof.
  revert s. induction (N.lt_wf_0 x) as [x _ IH]; intros s.
  destruct (decide (x = 0)) as [->|Hx]; [by rewrite pretty_N_go_0|].
  rewrite pretty_N_go_step, IH by (try apply N.div_lt; lia).
  rewrite lit_String.
  destruct (digit_char (x `mod` 10)) as [Hd Hv]; [apply N.mod_lt; lia|].
  rewrite parse_digits_digit by done. f_equal.
  rewrite digit_val_digit in Hv by done. injection Hv as Hv.
  rewrite Hv. rewrite (N.div_mod x 10) at 3 by lia. lia.
Qed.

Lemma is_digit_no_int_space c : is_digit c → int_space c = false.
Proof.
  unfold is_digit. intros Hc.
  assert (c = 48 ∨ c = 49 ∨ c = 50 ∨ c = 51 ∨ c = 52 ∨ c = 53 ∨ c = 54
          ∨ c = 55 ∨ c = 56 ∨ c = 57) as Hcases by lia.
  by destruct Hcases as [->|[->|[->|[->|[->|[->|[->|[->|[->| ->]]]]]]]]].
Qed.

Lemma parse_number_digits c s :
  is_digit c → parse_number (c :: s) = parse_digits 0%Z (c :: s).
Proof. intros Hc. unfold parse_number. by rewrite digit_val_digit. Qed.

Lemma int_digits s :
  Forall is_digit s → s ≠ [] → int s = parse_digits 0%Z s.
Proof.
  intros Hs Hne. destruct Hs as [|c s Hc Hs]; [done|].
  unfold int. cbn [lstrip_int]. rewrite is_digit_no_int_space by done.
  rewrite <- (parse_number_digits c s Hc).
  unfold is_digit in Hc.
  assert (c = 48 ∨ c = 49 ∨ c = 50 ∨ c = 51 ∨ c = 52 ∨ c = 53 ∨ c = 54
          ∨ c = 55 ∨ c = 56 ∨ c = 57) as Hcases by lia.
  by destruct Hcases as [->|[->|[->|[->|[->|[->|[->|[->|[->| ->]]]]]]]]].
Qed.

Lemma int_pretty_pos p :
  int (lit (pretty (N.pos p))) = Some (Z.pos p) ∧
  Forall is_digit (lit (pretty (N.pos p))) ∧ lit (pretty (N.pos p)) ≠ [].
Proof.
  unfold pretty, pretty_N. rewrite decide_False by done.
  destruct (pretty_N_go_digits (N.pos p) "") as (pre & Heq & Hpre & Hne).
  change (lit "") with (@nil N) in Heq. rewrite app_nil_r in Heq.
  rewrite Heq in *. split_and!; [|done|apply Hne; lia].
  rewrite int_digits by (try apply Hne; done || lia).
  rewrite <- Heq, parse_pretty_N_go. reflexivity.
Qed.

Lemma int_str z : int (str z) = Some z.
Proof.
  unfold str. destruct z as [|p|p]; [reflexivity|apply int_pretty_pos|].
  change (pretty (Z.neg p)) with (String "-" (pretty (N.pos p))).
  rewrite lit_String. change (N_of_ascii "-") with 45.
  destruct (int_pretty_pos p) as (Hint & Hdig & Hne).
  rewrite int_digits in Hint by done.
  unfold int. change (lstrip_int (45 :: ?s)) with (45 :: s).
  destruct (lit (pretty (N.pos p))) as [|c ds] eqn:Hds; [done|].
  apply Forall_cons in Hdig as [Hc _].
  rewrite parse_number_digits by done. by rewrite Hint.
Qed.

#[global] Instance str_inj : Inj (=) (=) str.
Proof.
  intros a b Hab. apply (f_equal int) in Hab.
  rewrite !int_str in Hab. congruence.
Qed.

End StrFacts.

Import PyFacts StrFacts.

(** ** Facts about dictionaries and paths *)

Lemma map_fold_rekey {A B} (f : Z → pystr) `{!Inj (=) (=) f} (g : A → B)
    (m : gmap Z A) :
  map_fold (λ k v acc, <[f k := g v]> acc) ∅ m
  =@{gmap pystr B} kmap f (g <$> m).
Proof.
  apply (map_fold_weak_ind (λ r m, r =@{gmap pystr B} kmap f (g <$> m))).
  - by rewrite fmap_empty, kmap_empty.
  - intros k v m' r _ ->. by rewrite fmap_insert, kmap_insert.
Qed.

Lemma json_dump_int_keys_kmap (d : gmap Z pystr) :
  json_dump_int_keys d = kmap Py.str d.
Proof.
  unfold json_dump_int_keys.
  etrans; [exact (map_fold_rekey Py.str id d)|]. by rewrite map_fmap_id.
Qed.

Lemma path_join_inj dir prefix a b :
  path_join dir (prefix ++ a) = path_join dir (prefix ++ b) → a = b.
Proof. unfold path_join. intros H. by simplify_list_eq. Qed.

(** The four files of [save_vocab_and_merges] have four different paths. *)
Lemma names_distinct dir prefix :
  let p s := path_join dir (prefix ++ Py.lit s) in
  p "vocab.json" ≠ p "merges.txt" ∧ p "vocab.json" ≠ p "vocab_raw.json" ∧
  p "vocab.json" ≠ p "merges_raw.txt" ∧ p "merges.txt" ≠ p "vocab_raw.json" ∧
  p "merges.txt" ≠ p "merges_raw.txt" ∧ p "vocab_raw.json" ≠ p "merges_raw.txt".
Proof.
  simpl. split_and!; intros H; apply path_join_inj in H; by vm_compute in H.
Qed.

Section DictFacts.

Context (byte_encoder : byte → N).

Lemma vocab_gpt2_of_kmap vocab :
  vocab_gpt2_of byte_encoder vocab
  = kmap Py.str (encode_token byte_encoder <$> vocab).
Proof. apply (map_fold_rekey Py.str). Qed.

(** The files that [save_vocab_and_merges] leaves. *)
Lemma save_lookup vocab merges dir prefix fs :
  let fs' := save_vocab_and_merges byte_encoder vocab merges dir prefix fs in
  let p s := path_join dir (prefix ++ Py.lit s) in
  fs' !! p "vocab.json" = Some (JsonFile (vocab_gpt2_of byte_encoder vocab)) ∧
  fs' !! p "merges.txt" = Some (TextFile (merges_txt byte_encoder merges)) ∧
  fs' !! p "vocab_raw.json"
    = Some (JsonFile (json_dump_int_keys (vocab_serializable vocab))) ∧
  fs' !! p "merges_raw.txt" = Some (TextFile (merges_raw_txt merges)).
Proof.
  destruct (names_distinct dir prefix) as (?&?&?&?&?&?).
  unfold save_vocab_and_merges. simpl. split_and!; by simplify_map_eq.
Qed.

Lemma load_vocab_items (l : list (Z * bytes)) (acc : gmap Z bytes) :
  foldl (λ acc kv,
    vocab ← acc;
    i ← of_option (Py.int kv.1) ValueError;
    b ← of_option (Py.fromhex kv.2) ValueError;
    Return (<[i := b]> vocab)) (Return acc)
    (prod_map Py.str Py.hex <$> l)
  = Return (foldl (λ m kv, <[kv.1 := kv.2]> m) acc l).
Proof.
  revert acc. induction l as [|[i b] l IH]; intros acc; [done|].
  simpl. rewrite int_str. simpl. rewrite fromhex_hex. simpl. apply IH.
Qed.

Lemma foldl_insert_to_map (l : list (Z * bytes)) :
  foldl (λ m kv, <[kv.1 := kv.2]> m) (∅ : gmap Z bytes) l
  = list_to_map (reverse l).
Proof.
  induction l as [|kv l IH] using rev_ind; [done|].
  rewrite foldl_snoc, reverse_snoc, IH. by destruct kv.
Qed.

(** Whatever the order of the keys in the file, [load_vocab] gives back
    the vocabulary that was dumped. *)
Lemma load_vocab_dump position vocab :
  load_vocab position (json_dump_int_keys (vocab_serializable vocab))
  = Return vocab.
Proof.
  rewrite json_dump_int_keys_kmap. unfold vocab_serializable, load_vocab.
  assert (json_items position (kmap Py.str (Py.hex <$> vocab))
          ≡ₚ prod_map Py.str Py.hex <$> map_to_list vocab) as Hperm.
  { unfold json_items. rewrite merge_sort_Permutation.
    rewrite map_to_list_kmap by apply _. rewrite map_to_list_fmap.
    rewrite <- list_fmap_compose.
    by erewrite list_fmap_ext; [reflexivity|intros ? [??]]. }
  apply Permutation_map_inv in Hperm as (l & -> & Hl).
  rewrite load_vocab_items, foldl_insert_to_map.
  f_equal. etrans; [|apply (list_to_map_to_list vocab)].
  apply list_to_map_proper.
  - rewrite fmap_reverse, reverse_Permutation, <- Hl. apply NoDup_fst_map_to_list.
  - by rewrite reverse_Permutation, <- Hl.
Qed.

End DictFacts.

Section FileFacts.

Context (byte_encoder : byte → N).

Lemma fix_vocab_dump vocab :
  fix_vocab byte_encoder (json_dump_int_keys (vocab_serializable vocab))
  = Return (vocab_gpt2_of byte_encoder vocab).
Proof.
  rewrite json_dump_int_keys_kmap, vocab_gpt2_of_kmap.
  unfold vocab_serializable, fix_vocab.
  generalize (eq_refl (kmap (M2 := gmap pystr) Py.str (Py.hex <$> vocab))).
  generalize (kmap (M2 := gmap pystr) Py.str (Py.hex <$> vocab)) at 1 3.
  intros m. revert vocab.
  apply (map_fold_weak_ind (λ r m, ∀ vocab,
    m = kmap Py.str (Py.hex <$> vocab) →
    r = Return (kmap Py.str (encode_token byte_encoder <$> vocab)))).
  - intros vocab Hm. symmetry in Hm. apply kmap_empty_iff in Hm; [|apply _].
    apply fmap_empty_iff in Hm. subst. by rewrite fmap_empty, kmap_empty.
  - intros i x m' r Hi IH vocab Hm.
    assert (kmap (M2 := gmap pystr) Py.str (Py.hex <$> vocab) !! i = Some x)
      as Hix by (by rewrite <- Hm, lookup_insert_eq).
    apply lookup_kmap_Some in Hix as (k & -> & Hk); [|apply _].
    rewrite lookup_fmap in Hk.
    destruct (vocab !! k) as [v|] eqn:Hv; simplify_eq/=.
    rewrite (IH (delete k vocab)).
    + simpl. rewrite fromhex_hex. simpl. f_equal.
      rewrite <- kmap_insert, <- fmap_insert by apply _.
      by rewrite insert_delete_id.
    + rewrite fmap_delete, kmap_delete by apply _. rewrite <- Hm.
      by rewrite delete_insert_id.
Qed.

Lemma raw_merge_line_no_newline (m : bytes * bytes) :
  Forall (λ c, c ≠ 10) (Py.hex m.1 ++ [32] ++ Py.hex m.2).
Proof.
  rewrite !Forall_app. split_and!.
  - apply nospace_no_newline, hex_nospace.
  - by repeat constructor.
  - apply nospace_no_newline, hex_nospace.
Qed.

Lemma merges_raw_txt_lines merges :
  Py.lines (merges_raw_txt merges) = raw_merge_line <$> merges.
Proof.
  unfold merges_raw_txt. rewrite (foldl_append raw_merge_line). simpl.
  rewrite (list_fmap_ext raw_merge_line
    ((λ l, l ++ [10]) ∘ (λ m, Py.hex m.1 ++ [32] ++ Py.hex m.2)) merges)
    by (intros _ [??] _; simpl; by rewrite <- !(assoc_L (++))).
  rewrite list_fmap_compose. apply lines_concat.
  apply Forall_fmap, Forall_forall. intros m _.
  apply raw_merge_line_no_newline.
Qed.

Lemma merges_raw_txt_no_cr merges :
  Forall (λ c, c ≠ 13) (merges_raw_txt merges).
Proof.
  unfold merges_raw_txt. rewrite (foldl_append raw_merge_line). simpl.
  apply Forall_concat, Forall_fmap, Forall_forall. intros [t1 t2] _.
  change (Forall (λ c, c ≠ 13) (Py.hex t1 ++ [32] ++ Py.hex t2 ++ [10])).
  rewrite !Forall_app. split_and!.
  - apply nospace_no_cr, hex_nospace.
  - by repeat constructor.
  - apply nospace_no_cr, hex_nospace.
  - by repeat constructor.
Qed.

(** What [load_tokenizer] reads of [merges_raw.txt]. *)
Lemma read_merges_raw_txt merges :
  read_lines (TextFile (merges_raw_txt merges))
  = Return (raw_merge_line <$> merges).
Proof.
  unfold read_lines.
  by rewrite universal_newlines_id, merges_raw_txt_lines
    by apply merges_raw_txt_no_cr.
Qed.

Lemma load_merge_line_raw m :
  m.1 ≠ [] → m.2 ≠ [] → load_merge_line (raw_merge_line m) = Return (Some m).
Proof.
  destruct m as [t1 t2]. intros H1 H2. simpl in H1, H2.
  change (raw_merge_line (t1, t2)) with (Py.hex t1 ++ [32] ++ Py.hex t2 ++ [10]).
  unfold load_merge_line.
  rewrite strip_line by auto using hex_nospace, hex_nonempty.
  rewrite split_two by auto using hex_nospace, hex_nonempty.
  rewrite !fromhex_hex. simpl.
  destruct (Py.hex t1) eqn:Ht1; [by apply hex_nonempty in Ht1|done].
Qed.

Lemma load_merges_raw merges acc :
  Forall (λ m, m.1 ≠ [] ∧ m.2 ≠ []) merges →
  load_merges acc (raw_merge_line <$> merges) = Return (acc ++ merges).
Proof.
  intros H. revert acc. induction H as [|m ms [H1 H2] _ IH]; intros acc; simpl.
  - by rewrite app_nil_r.
  - rewrite load_merge_line_raw by done. simpl.
    by rewrite IH, <- (assoc_L (++)).
Qed.

(** [merges.txt] *)
Lemma merges_txt_lines merges :
  (∀ b, byte_encoder b ≠ 10) →
  Py.lines (merges_txt byte_encoder merges)
  = (Py.lit "#version: 0.2" ++ [10]) :: (merge_line byte_encoder <$> merges).
Proof.
  intros Hnl. unfold merges_txt.
  rewrite (foldl_append (merge_line byte_encoder)).
  assert (∀ t, Forall (λ c, c ≠ 10) (encode_token byte_encoder t)) as Henc.
  { intros t. apply Forall_fmap, Forall_forall. intros b _. apply Hnl. }
  unfold Py.lines. rewrite <- (assoc_L (++)). simpl app at 2.
  rewrite lines_go_line by (vm_compute; repeat constructor; discriminate).
  f_equal.
  rewrite (list_fmap_ext (merge_line byte_encoder)
    ((λ l, l ++ [10]) ∘
     (λ m, encode_token byte_encoder m.1 ++ [32] ++ encode_token byte_encoder m.2))
    merges)
    by (intros _ [??] _; simpl; by rewrite <- !(assoc_L (++))).
  rewrite list_fmap_compose. apply lines_concat.
  apply Forall_fmap, Forall_forall. intros [t1 t2] _.
  apply Forall_app; split; [apply Henc|].
  constructor; [done|apply Henc].
Qed.

End FileFacts.

(** ** The order on byte strings and on pairs of byte strings *)

Module OrderFacts.
Import Py.

Lemma to_N_inj x y : Byte.to_N x = Byte.to_N y → x = y.
Proof.
  intros H. apply (f_equal Byte.of_N) in H.
  rewrite !Byte.of_to_N in H. congruence.
Qed.

Lemma bytes_compare_eq a b : bytes_compare a b = Eq → a = b.
Proof.
  revert b. induction a as [|x a IH]; intros [|y b]; simpl; try done.
  destruct (N.compare_spec (Byte.to_N x) (Byte.to_N y)) as [Hxy| |]; try done.
  intros H. apply to_N_inj in Hxy. f_equal; auto.
Qed.

Lemma bytes_compare_refl a : bytes_compare a a = Eq.
Proof. induction a as [|x a IH]; simpl; [done|]. by rewrite N.compare_refl. Qed.

Lemma bytes_compare_antisym a b :
  bytes_compare b a = CompOpp (bytes_compare a b).
Proof.
  revert b. induction a as [|x a IH]; intros [|y b]; simpl; try done.
  rewrite (N.compare_antisym (Byte.to_N x) (Byte.to_N y)).
  destruct (Byte.to_N x ?= Byte.to_N y); simpl; auto.
Qed.

Lemma bytes_compare_trans a b c :
  bytes_compare a b = Lt → bytes_compare b c = Lt → bytes_compare a c = Lt.
Proof.
  revert b c. induction a as [|x a IH]; intros [|y b] [|z c]; simpl; try done.
  destruct (N.compare_spec (Byte.to_N x) (Byte.to_N y)) as [Hxy|Hxy|Hxy];
    destruct (N.compare_spec (Byte.to_N y) (Byte.to_N z)) as [Hyz|Hyz|Hyz];
    try done; intros H1 H2.
  - rewrite Hxy, Hyz, N.compare_refl. eauto.
  - rewrite Hxy. by apply N.compare_lt_iff in Hyz as ->.
  - rewrite <- Hyz. by apply N.compare_lt_iff in Hxy as ->.
  - assert (Byte.to_N x < Byte.to_N z) as Hxz by lia.
    by apply N.compare_lt_iff in Hxz as ->.
Qed.

Lemma pair_compare_eq p q : pair_compare p q = Eq → p = q.
Proof.
  destruct p as [a b], q as [c d]. unfold pair_compare. simpl.
  destruct (bytes_compare a c) eqn:H1; try done.
  intros H2. apply bytes_compare_eq in H1, H2. by subst.
Qed.

Lemma pair_compare_refl p : pair_compare p p = Eq.
Proof. unfold pair_compare. by rewrite !bytes_compare_refl. Qed.

Lemma pair_compare_antisym p q :
  pair_compare q p = CompOpp (pair_compare p q).
Proof.
  unfold pair_compare.
  rewrite (bytes_compare_antisym p.1 q.1), (bytes_compare_antisym p.2 q.2).
  by destruct (bytes_compare p.1 q.1).
Qed.

Lemma pair_compare_trans p q r :
  pair_compare p q = Lt → pair_compare q r = Lt → pair_compare p r = Lt.
Proof.
  unfold pair_compare.
  destruct (bytes_compare p.1 q.1) eqn:H1; try done;
    destruct (bytes_compare q.1 r.1) eqn:H2; try done; intros H3 H4.
  - apply bytes_compare_eq in H1, H2. rewrite H1, H2, bytes_compare_refl.
    eauto using bytes_compare_trans.
  - apply bytes_compare_eq in H1. by rewrite H1, H2.
  - apply bytes_compare_eq in H2. by rewrite <- H2, H1.
  - by rewrite (bytes_compare_trans _ _ _ H1 H2).
Qed.

(** Not greater, then smaller: the pair stays not greater. *)
Lemma pair_compare_le_lt p q r :
  pair_compare p q ≠ Gt → pair_compare q r = Lt → pair_compare p r ≠ Gt.
Proof.
  intros H1 H2. destruct (pair_compare p q) eqn:Hpq; [| |done].
  - apply pair_compare_eq in Hpq as ->. by rewrite H2.
  - by rewrite (pair_compare_trans _ _ _ Hpq H2).
Qed.

End OrderFacts.

Section TrainingFacts.

Context (pretokenize : bytes → list bytes) (floor : nat).
Import OrderFacts.


(** The selection rule leaves no choice. *)
Lemma selects_unique ix p q : selects floor ix p → selects floor ix q → p = q.
Proof.
  intros (f & Hp & _ & Hmaxp) (g & Hq & _ & Hmaxq).
  destruct (Hmaxp q g Hq) as [?|[-> Hqp]], (Hmaxq p f Hp) as [?|[? Hpq]];
    try lia.
  rewrite pair_compare_antisym in Hpq.
  destruct (Py.pair_compare q p) eqn:Hc; try done.
  symmetry. by apply pair_compare_eq.
Qed.

(** The scan of the frequency table implements the selection rule. *)
Lemma select_scan_spec (m : gmap (bytes * bytes) nat) :
  match map_fold (λ p f best,
          if (f <? floor)%nat then best
          else match best with
               | None => Some (p, f)
               | Some q => if gives_way q (p, f) then Some (p, f) else best
               end) None m with
  | Some (p, f) =>
      m !! p = Some f ∧ (floor ≤ f)%nat ∧
      ∀ q g, m !! q = Some g →
        (g < f)%nat ∨ (g = f ∧ Py.pair_compare q p ≠ Gt)
  | None => ∀ q g, m !! q = Some g → (g < floor)%nat
  end.
Proof.
  apply (map_fold_weak_ind (λ r (m : gmap (bytes * bytes) nat),
    match r with
    | Some (p, f) =>
        m !! p = Some f ∧ (floor ≤ f)%nat ∧
        ∀ q g, m !! q = Some g →
          (g < f)%nat ∨ (g = f ∧ Py.pair_compare q p ≠ Gt)
    | None => ∀ q g, m !! q = Some g → (g < floor)%nat
    end)).
  { intros q g. by rewrite lookup_empty. }
  intros p f m' r Hp IH.
  destruct (f <? floor)%nat eqn:Hfl.
  { apply Nat.ltb_lt in Hfl. destruct r as [[b fb]|].
    - destruct IH as (Hb & Hfb & Hmax). split_and!; [|done|].
      + rewrite lookup_insert_ne; [done|]. congruence.
      + intros q g. rewrite lookup_insert.
        destruct (decide (p = q)) as [<-|_]; [|by apply Hmax].
        intros [= <-]. left. lia.
    - intros q g. rewrite lookup_insert.
      destruct (decide (p = q)) as [<-|_]; [|by apply IH].
      by intros [= <-]. }
  apply Nat.ltb_ge in Hfl. destruct r as [[b fb]|].
  - destruct IH as (Hb & Hfb & Hmax).
    destruct (gives_way (b, fb) (p, f)) eqn:Hgw; unfold gives_way in Hgw;
      simpl in Hgw.
    + split_and!; [apply lookup_insert_eq|done|].
      intros q g. rewrite lookup_insert.
      destruct (decide (p = q)) as [<-|_].
      { intros [= <-]. right. by rewrite pair_compare_refl. }
      intros Hq. apply orb_true_iff in Hgw.
      destruct (Hmax q g Hq) as [Hlt|[-> Hqb]]; destruct Hgw as [Hgw|Hgw];
        rewrite ?Nat.ltb_lt in Hgw;
        rewrite ?andb_true_iff, ?Nat.eqb_eq, ?bool_decide_eq_true in Hgw.
      * left. lia.
      * left. lia.
      * left. lia.
      * destruct Hgw as [-> Hbp]. right. split; [done|].
        eauto using pair_compare_le_lt.
    + apply orb_false_iff in Hgw as [Hlt Heq]. apply Nat.ltb_ge in Hlt.
      split_and!; [|done|].
      { rewrite lookup_insert_ne; [done|]. congruence. }
      intros q g. rewrite lookup_insert.
      destruct (decide (p = q)) as [<-|_]; [|by apply Hmax].
      intros [= <-].
      destruct (decide (f = fb)) as [->|]; [|left; lia].
      right. split; [done|]. rewrite Nat.eqb_refl in Heq. simpl in Heq.
      apply bool_decide_eq_false in Heq.
      rewrite pair_compare_antisym. by destruct (Py.pair_compare b p).
  - split_and!; [apply lookup_insert_eq|done|].
    intros q g. rewrite lookup_insert.
    destruct (decide (p = q)) as [<-|_].
    + intros [= <-]. right. by rewrite pair_compare_refl.
    + intros Hq. apply IH in Hq. left. lia.
Qed.

Lemma select_Some ix p : select floor ix = Some p → selects floor ix p.
Proof.
  unfold select. pose proof (select_scan_spec (freq ix)) as H.
  destruct (map_fold _ _ _) as [[q f]|]; [|done].
  intros [= <-]. by exists f.
Qed.

Lemma select_None ix p : select floor ix = None → ¬ selects floor ix p.
Proof.
  unfold select. pose proof (select_scan_spec (freq ix)) as H.
  destruct (map_fold _ _ _) as [[q f]|]; [done|].
  intros _ (f & Hp & Hf & _). apply H in Hp. lia.
Qed.

End TrainingFacts.

Lemma rtc_final_unique {A} (R : relation A) x a b :
  (∀ x y z, R x y → R x z → y = z) →
  rtc R x a → rtc R x b → (∀ c, ¬ R a c) → (∀ c, ¬ R b c) → a = b.
Proof.
  intros Hdet Ha. revert b. induction Ha as [x|x y a Hxy Hya IH]; intros b Hb Hfa Hfb.
  - destruct Hb as [|x y b Hxy _]; [done|]. by destruct (Hfa y).
  - destruct Hb as [|x y' b Hxy' Hyb]; [by destruct (Hfb y)|].
    rewrite <- (Hdet _ _ _ Hxy Hxy') in Hyb. by apply IH.
Qed.

Lemma length_single_bytes : length single_bytes = 256%nat.
Proof. reflexivity. Qed.

Lemma size_vocab_dict vocab : size (vocab_dict vocab) = length vocab.
Proof.
  unfold vocab_dict. rewrite <- length_map_to_list, map_to_list_seqZ.
  rewrite length_zip_with, length_seqZ. lia.
Qed.

Section RunFacts.

Context (pretokenize : bytes → list bytes) (floor : nat).
Context (corpus : bytes) (vocab_size : Z) (special_tokens : list bytes).

Local Abbreviation stepR :=
  (step pretokenize floor corpus vocab_size special_tokens).
Local Abbreviation loop := (merging floor vocab_size).
Local Abbreviation start0 := (start special_tokens).
Local Abbreviation is_full := (full vocab_size).
Local Abbreviation is_broken := (broken floor vocab_size).

Lemma apply_merge_spec p st st' :
  apply_merge p st = Some st' →
  st_phase st' = MERGING ∧ st_vocab st' = st_vocab st ++ [p.1 ++ p.2] ∧
  st_merges st' = st_merges st ++ [p].
Proof.
  unfold apply_merge. intros H.
  destruct (occ (st_index st) !! p) as [touched|]; [|done]. simpl in H.
  destruct (foldl _ _ _) as [[segments ix]|]; [|done]. simpl in H.
  by simplify_eq.
Qed.

Lemma step_deterministic st s1 s2 : stepR st s1 → stepR st s2 → s1 = s2.
Proof.
  intros H1 H2. destruct H1 as [st ?|st ? ?|st ? ? Hno|st p s1 ? ? Hp Hs1];
    inversion H2 as [? ?|? ? ?|? ? ? Hno'|? q ? ? ? Hq Hs2]; subst;
    try done; try congruence.
  - by destruct (Hno q).
  - by destruct (Hno' p).
  - assert (p = q) as -> by eauto using selects_unique. congruence.
Qed.

Lemma done_final st s : st_phase st = DONE → ¬ stepR st s.
Proof. intros Hd Hs. destruct Hs; congruence. Qed.

Lemma broken_final st s : is_broken st → ¬ stepR st s.
Proof.
  intros (Hph & Hnf & p & Hp & Hnone) Hs.
  destruct Hs as [st ?|st ? ?|st ? ? Hno|st q s ? ? Hq Hs]; try congruence.
  - by destruct (Hno p).
  - assert (p = q) as -> by eauto using selects_unique. congruence.
Qed.

Lemma step_wf st s :
  stepR st s → wf_state vocab_size special_tokens st →
  wf_state vocab_size special_tokens s.
Proof.
  intros Hs [Hlen Hle]. destruct Hs as [st ?|st ? ?|st ? ? Hno|st p s ? Hnf Hp Hs];
    try done.
  apply apply_merge_spec in Hs as (_ & Hv & Hm). unfold wf_state.
  rewrite Hv, Hm, !length_app. simpl. unfold full in Hnf. lia.
Qed.

Lemma reachable_wf st :
  ¬ (vocab_size < 256 + Z.of_nat (length special_tokens))%Z →
  rtc stepR start0 st → wf_state vocab_size special_tokens st.
Proof.
  intros Hcfg Hst. revert st Hst. apply rtc_ind_r.
  - unfold wf_state.
    change (st_vocab start0) with (single_bytes ++ special_tokens).
    change (st_merges start0) with (@nil (bytes * bytes)).
    rewrite length_app, length_single_bytes. simpl length. lia.
  - eauto using step_wf.
Qed.

Lemma merging_steps fuel st :
  st_phase st = MERGING →
  (Z.of_nat (length (st_vocab st)) + Z.of_nat fuel = vocab_size)%Z →
  match loop fuel st with
  | inr st' => rtc stepR st st' ∧ st_phase st' = DONE
  | inl _ => ∃ st', rtc stepR st st' ∧ is_broken st'
  end.
Proof.
  revert st. induction fuel as [|fuel IH]; intros st Hph Hlen; simpl.
  { split; [|done]. apply rtc_once, step_full; [done|].
    unfold full. lia. }
  case_bool_decide as Hfull.
  { split; [|done]. by apply rtc_once, step_full. }
  destruct (select floor (st_index st)) as [p|] eqn:Hsel.
  - apply select_Some in Hsel.
    destruct (apply_merge p st) as [st'|] eqn:Hst'.
    + destruct (apply_merge_spec _ _ _ Hst') as (Hph' & Hv & _).
      specialize (IH st' Hph'). rewrite Hv, length_app in IH. simpl in IH.
      assert (stepR st st') as Hstep by by eapply step_merge.
      destruct (loop fuel st') as [e|st''].
      * destruct IH as (s & Hs & Hb); [lia|]. exists s. split; [|done].
        by eapply rtc_l.
      * destruct IH as [Hs Hd]; [lia|]. split; [|done]. by eapply rtc_l.
    + exists st. split; [done|]. split_and!; [done..|]. by exists p.
  - split; [|done]. apply rtc_once, step_exhausted; [done..|].
    intros p. by apply select_None.
Qed.

Lemma length_start_vocab :
  length (st_vocab start0) = (256 + length special_tokens)%nat.
Proof.
  change (st_vocab start0) with (single_bytes ++ special_tokens).
  by rewrite length_app, length_single_bytes.
Qed.

Lemma st_vocab_initialize st :
  st_vocab (initialize pretokenize corpus special_tokens st) = st_vocab st.
Proof. reflexivity. Qed.

Lemma train_steps :
  ¬ (vocab_size < 256 + Z.of_nat (length special_tokens))%Z →
  match train pretokenize floor corpus vocab_size special_tokens with
  | inr st => rtc stepR start0 st ∧ st_phase st = DONE
  | inl _ => ∃ st, rtc stepR start0 st ∧ is_broken st
  end.
Proof.
  intros Hcfg. unfold train.
  remember (Z.to_nat (vocab_size - Z.of_nat (length (st_vocab start0))))
    as fuel eqn:Hfuel.
  rewrite length_start_vocab in Hfuel.
  assert (stepR start0 (initialize pretokenize corpus special_tokens start0))
    as Hinit by by apply step_initialize.
  pose proof (merging_steps fuel
                (initialize pretokenize corpus special_tokens start0) eq_refl) as H.
  rewrite st_vocab_initialize, length_start_vocab in H.
  assert (Z.of_nat (256 + length special_tokens) + Z.of_nat fuel
          = vocab_size)%Z as Hsum by lia.
  specialize (H Hsum).
  destruct (loop fuel (initialize pretokenize corpus special_tokens start0))
    as [e|st].
  - destruct H as (s & Hs & Hb). exists s. split; [|done]. by eapply rtc_l.
  - destruct H as [Hs Hd]. split; [|done]. by eapply rtc_l.
Qed.

End RunFacts.

Section TrainsFacts.

Context (pretokenize : bytes → list bytes) (floor : nat).

Lemma run_train_bpe_trains fs input_path vocab_size special_tokens :
  trains pretokenize floor fs input_path vocab_size special_tokens
    (run_train_bpe pretokenize floor fs input_path vocab_size special_tokens).
Proof.
  unfold run_train_bpe. case_bool_decide as Hcfg; [by constructor|].
  destruct (fs !! input_path) as [[| corpus | |]|] eqn:Hfs;
    try (apply trains_input_error; [done|congruence]).
  pose proof (train_steps pretokenize floor corpus vocab_size special_tokens Hcfg)
    as H.
  destruct (train _ _ _ _ _) as [[]|st].
  - destruct H as (st & Hst & Hb). by eapply trains_abort.
  - destruct H as [Hst Hd]. by eapply trains_done.
Qed.

Lemma trains_deterministic fs input_path vocab_size special_tokens r1 r2 :
  trains pretokenize floor fs input_path vocab_size special_tokens r1 →
  trains pretokenize floor fs input_path vocab_size special_tokens r2 →
  r1 = r2.
Proof.
  intros H1 H2.
  destruct H1 as [?|? Hno|c1 s1 ? Hc1 Hs1 Hd1|c1 s1 ? Hc1 Hs1 Hb1];
    destruct H2 as [?|? Hno'|c2 s2 ? Hc2 Hs2 Hd2|c2 s2 ? Hc2 Hs2 Hb2];
    try done; try (by destruct (Hno _ Hc2)); try (by destruct (Hno' _ Hc1));
    assert (c1 = c2) as -> by congruence.
  - f_equal. f_equal.
    eapply rtc_final_unique; eauto using step_deterministic, done_final.
  - assert (s1 = s2) as ->.
    { eapply rtc_final_unique;
        eauto using step_deterministic, done_final, broken_final. }
    destruct Hb2 as [? _]. congruence.
  - assert (s1 = s2) as ->.
    { eapply rtc_final_unique;
        eauto using step_deterministic, done_final, broken_final. }
    destruct Hb1 as [? _]. congruence.
Qed.

End TrainsFacts.

Lemma gpt2_table_inverse b :
  gpt2_unicode_to_bytes (gpt2_bytes_to_unicode b) = Some b.
Proof. destruct b; reflexivity. Qed.

Lemma gpt2_table_inj : Inj (=) (=) gpt2_bytes_to_unicode.
Proof.
  intros a b Hab. apply (f_equal gpt2_unicode_to_bytes) in Hab.
  rewrite !gpt2_table_inverse in Hab. congruence.
Qed.

Lemma gpt2_table_printable b : printable (gpt2_bytes_to_unicode b) = true.
Proof. destruct b; reflexivity. Qed.

Lemma printable_not_newline c : printable c = true → c ≠ 10.
Proof. by intros Hc ->. Qed.

Lemma map_size_kmap_str {A} (m : gmap Z A) :
  size (kmap (M2 := gmap pystr) Py.str m) = size m.
Proof.
  rewrite <- !length_map_to_list, map_to_list_kmap by apply _.
  apply length_fmap.
Qed.

(** ** The order of iteration and the longest token *)

(** [max(values, key=len)] keeps the first value of maximal length. *)
Lemma longest_split (values : list bytes) :
  match longest values with
  | None => values = []
  | Some t =>
      ∃ pre post, values = pre ++ t :: post ∧
        Forall (λ v, (length v < length t)%nat) pre ∧
        Forall (λ v, (length v ≤ length t)%nat) post
  end.
Proof.
  induction values as [|x l IH] using rev_ind; [done|].
  unfold longest in *. rewrite foldl_snoc.
  destruct (foldl _ None l) as [t|].
  - destruct IH as (pre & post & -> & Hpre & Hpost).
    destruct (length t <? length x)%nat eqn:Hlt.
    + apply Nat.ltb_lt in Hlt. exists (pre ++ t :: post), []. split; [done|].
      split; [|constructor]. apply Forall_app. split.
      * eapply Forall_impl; [exact Hpre|]. simpl. lia.
      * constructor; [done|]. eapply Forall_impl; [exact Hpost|]. simpl. lia.
    + apply Nat.ltb_ge in Hlt. exists pre, (post ++ [x]).
      split; [by rewrite <- (assoc_L (++))|]. split; [done|].
      apply Forall_app. split; [done|]. by constructor.
  - subst l. exists [], []. by repeat constructor.
Qed.

Section IterationFacts.

Context (inserted_at : Z → nat).

#[local] Instance inserted_before_trans : Transitive (inserted_before inserted_at).
Proof. unfold inserted_before. intros a b c. lia. Qed.

#[local] Instance inserted_before_total : Total (inserted_before inserted_at).
Proof. unfold inserted_before. intros a b. lia. Qed.

Lemma elem_of_dict_items vocab k v :
  (k, v) ∈ dict_items inserted_at vocab ↔ vocab !! k = Some v.
Proof.
  unfold dict_items. rewrite merge_sort_Permutation.
  apply elem_of_map_to_list.
Qed.

Lemma dict_items_nil vocab : dict_items inserted_at vocab = [] ↔ vocab = ∅.
Proof.
  rewrite <- map_to_list_empty_iff. unfold dict_items. split.
  - intros H. apply Permutation_nil_r. rewrite <- H.
    symmetry. apply merge_sort_Permutation.
  - intros H. apply Permutation_nil_r. rewrite <- H.
    apply merge_sort_Permutation.
Qed.

(** The token that [max(vocab.values(), key=len)] picks: a value of the
    dictionary of maximal length, and among those the one that comes first
    in the order of iteration. *)
Lemma longest_first (vocab : gmap Z bytes) :
  match longest (dict_values inserted_at vocab) with
  | None => vocab = ∅
  | Some t =>
      ∃ k, vocab !! k = Some t ∧
        (∀ k' v, vocab !! k' = Some v → (length v ≤ length t)%nat) ∧
        (∀ k' v, vocab !! k' = Some v → length v = length t →
           (inserted_at k ≤ inserted_at k')%nat)
  end.
Proof.
  pose proof (longest_split (dict_values inserted_at vocab)) as H.
  destruct (longest (dict_values inserted_at vocab)) as [t|].
  - destruct H as (pre & post & Heq & Hpre & Hpost).
    unfold dict_values in Heq.
    apply fmap_app_inv in Heq as (ipre & irest & -> & Hrest & Hitems).
    symmetry in Hrest.
    apply fmap_cons_inv in Hrest as ([k t'] & ipost & Ht' & -> & ->).
    simpl in Ht'. subst t'.
    pose proof (StronglySorted_merge_sort (inserted_before inserted_at)
                  (map_to_list vocab)) as Hsorted.
    fold (dict_items inserted_at vocab) in Hsorted. rewrite Hitems in Hsorted.
    apply StronglySorted_app_1_r, StronglySorted_inv in Hsorted as [_ Hafter].
    assert (∀ k' v, vocab !! k' = Some v →
              (k', v) ∈ ipre ∨ (k', v) = (k, t) ∨ (k', v) ∈ ipost) as Hin.
    { intros k' v Hv. apply elem_of_dict_items in Hv. rewrite Hitems in Hv.
      apply elem_of_app in Hv as [?|Hv]; [by left|].
      apply elem_of_cons in Hv as [?|?]; auto. }
    exists k. split_and!.
    + apply elem_of_dict_items. rewrite Hitems.
      apply elem_of_app. right. constructor.
    + intros k' v Hv. destruct (Hin k' v Hv) as [Hp|[Hp|Hp]].
      * rewrite Forall_fmap in Hpre. rewrite Forall_forall in Hpre.
        apply Hpre in Hp. simpl in Hp. lia.
      * by injection Hp as -> ->.
      * rewrite Forall_fmap in Hpost. rewrite Forall_forall in Hpost.
        apply Hpost in Hp. simpl in Hp. lia.
    + intros k' v Hv Hlen. destruct (Hin k' v Hv) as [Hp|[Hp|Hp]].
      * rewrite Forall_fmap in Hpre. rewrite Forall_forall in Hpre.
        apply Hpre in Hp. simpl in Hp. lia.
      * by injection Hp as -> ->.
      * rewrite Forall_forall in Hafter. apply Hafter in Hp. exact Hp.
  - unfold dict_values in H. apply fmap_nil_inv in H.
    by apply dict_items_nil.
Qed.

Lemma longest_spec (vocab : gmap Z bytes) :
  match longest (dict_values inserted_at vocab) with
  | None => vocab = ∅
  | Some t => (∃ k, vocab !! k = Some t) ∧
              ∀ k v, vocab !! k = Some v → (length v ≤ length t)%nat
  end.
Proof.
  pose proof (longest_first vocab) as H.
  destruct (longest (dict_values inserted_at vocab)); [|done].
  destruct H as (k & Hk & Hmax & _). eauto.
Qed.

Lemma longest_None vocab :
  longest (dict_values inserted_at vocab) = None ↔ vocab = ∅.
Proof.
  pose proof (longest_spec vocab) as H. split.
  - intros Hl. by rewrite Hl in H.
  - intros ->. unfold dict_values.
    by rewrite (proj2 (dict_items_nil ∅)).
Qed.

End IterationFacts.

(** ** Saving as a call that may fail *)

Section IoFacts.

Context (byte_encoder : byte → N) (os_error : file_op → pystr → option exn).
Context (left_behind : pystr → option node → option node).

Lemma write_files_cases files fs :
  match write_files os_error left_behind files fs with
  | (Return _, fs') =>
      Forall (λ f, os_error WriteFile f.1 = None) files ∧
      fs' = foldl (λ fs f, <[f.1 := f.2]> fs) fs files
  | (Raise e, fs') =>
      Exists (λ f, os_error WriteFile f.1 = Some e) files ∧
      ∀ path, path ∉ files.*1 → fs' !! path = fs !! path
  | (SysExit _, _) => False
  end.
Proof.
  revert fs. induction files as [|[p n] files IH]; intros fs; simpl.
  - by split.
  - unfold write_file. destruct (os_error WriteFile p) as [e|] eqn:Hp.
    + split; [by left|]. intros path Hpath.
      apply not_elem_of_cons in Hpath as [Hne _].
      by rewrite lookup_partial_alter_ne.
    + specialize (IH (<[p:=n]> fs)).
      destruct (write_files os_error left_behind files (<[p:=n]> fs)) as [[[]|e|c] fs'].
      * destruct IH as [Hall ->]. split; [by constructor|done].
      * destruct IH as [Hex Hframe]. split; [by right|].
        intros path Hpath. apply not_elem_of_cons in Hpath as [Hne Hpath].
        rewrite Hframe by done. by rewrite lookup_insert_ne.
      * done.
Qed.

Lemma saved_files_paths vocab merges output_dir name_prefix :
  (saved_files byte_encoder vocab merges output_dir name_prefix).*1
  = [ path_join output_dir (name_prefix ++ Py.lit "vocab.json");
      path_join output_dir (name_prefix ++ Py.lit "merges.txt");
      path_join output_dir (name_prefix ++ Py.lit "vocab_raw.json");
      path_join output_dir (name_prefix ++ Py.lit "merges_raw.txt") ].
Proof. reflexivity. Qed.

Lemma save_as_writes vocab merges output_dir name_prefix fs :
  foldl (λ fs f, <[f.1 := f.2]> fs) fs
        (saved_files byte_encoder vocab merges output_dir name_prefix)
  = save_vocab_and_merges byte_encoder vocab merges output_dir name_prefix fs.
Proof. reflexivity. Qed.

(** How [save_vocab_and_merges] ends: it returns when nothing fails,
    and the file system is then the one of [save_vocab_and_merges];
    otherwise it raises what the first failing call raises, and only the
    four files can have changed. *)
Lemma save_io_cases vocab merges output_dir name_prefix fs :
  match save_vocab_and_merges_io byte_encoder os_error left_behind vocab merges output_dir
          name_prefix fs with
  | (Return _, fs') =>
      os_error Mkdir output_dir = None ∧
      Forall (λ path, os_error WriteFile path = None)
        [ path_join output_dir (name_prefix ++ Py.lit "vocab.json");
          path_join output_dir (name_prefix ++ Py.lit "merges.txt");
          path_join output_dir (name_prefix ++ Py.lit "vocab_raw.json");
          path_join output_dir (name_prefix ++ Py.lit "merges_raw.txt") ] ∧
      fs' = save_vocab_and_merges byte_encoder vocab merges output_dir
              name_prefix fs
  | (Raise e, fs') =>
      (os_error Mkdir output_dir = Some e ∨
       Exists (λ path, os_error WriteFile path = Some e)
         [ path_join output_dir (name_prefix ++ Py.lit "vocab.json");
           path_join output_dir (name_prefix ++ Py.lit "merges.txt");
           path_join output_dir (name_prefix ++ Py.lit "vocab_raw.json");
           path_join output_dir (name_prefix ++ Py.lit "merges_raw.txt") ]) ∧
      ∀ path,
        path ∉ [ path_join output_dir (name_prefix ++ Py.lit "vocab.json");
                 path_join output_dir (name_prefix ++ Py.lit "merges.txt");
                 path_join output_dir (name_prefix ++ Py.lit "vocab_raw.json");
                 path_join output_dir (name_prefix ++ Py.lit "merges_raw.txt") ] →
        fs' !! path = fs !! path
  | (SysExit _, _) => False
  end.
Proof.
  unfold save_vocab_and_merges_io, mkdir.
  destruct (os_error Mkdir output_dir) as [e|] eqn:Hmk.
  { split; [by left|done]. }
  pose proof (write_files_cases
                (saved_files byte_encoder vocab merges output_dir name_prefix) fs)
    as H.
  destruct (write_files os_error left_behind _ fs) as [[[]|e|c] fs']; [| |done].
  - destruct H as [Hall ->]. split; [done|]. split; [|apply save_as_writes].
    rewrite <- (saved_files_paths vocab merges). by apply Forall_fmap.
  - destruct H as [Hex Hframe]. split; [|exact Hframe].
    right. rewrite <- (saved_files_paths vocab merges). by apply Exists_fmap.
Qed.

Lemma save_io_ok vocab merges output_dir name_prefix fs :
  os_error Mkdir output_dir = None →
  Forall (λ path, os_error WriteFile path = None)
    [ path_join output_dir (name_prefix ++ Py.lit "vocab.json");
      path_join output_dir (name_prefix ++ Py.lit "merges.txt");
      path_join output_dir (name_prefix ++ Py.lit "vocab_raw.json");
      path_join output_dir (name_prefix ++ Py.lit "merges_raw.txt") ] →
  save_vocab_and_merges_io byte_encoder os_error left_behind vocab merges output_dir
    name_prefix fs
  = (Return (),
     save_vocab_and_merges byte_encoder vocab merges output_dir name_prefix fs).
Proof.
  intros Hmk Hall.
  pose proof (save_io_cases vocab merges output_dir name_prefix fs) as H.
  destruct (save_vocab_and_merges_io _ _ _ _ _ _ _ fs) as [[[]|e|c] fs'];
    [| |done].
  - destruct H as (_ & _ & ->). done.
  - destruct H as [[Hm|Hex] _]; [congruence|].
    apply Exists_exists in Hex as (p & Hp & He).
    rewrite Forall_forall in Hall. apply Hall in Hp. congruence.
Qed.

End IoFacts.

(** ** Every way [train_bpe_tokenizer] can end *)

Section DriverFacts.

Context (byte_encoder : byte → N).
Context (run_train_bpe :
  gmap pystr node → pystr → Z → list bytes →
  outcome (gmap Z bytes * list (bytes * bytes))).
Context (lower : pystr → pystr) {pyfloat : Type} (elapsed_time : pyfloat)
        (peak_memory : Z).
Context (os_error : file_op → pystr → option exn).
Context (left_behind : pystr → option node → option node)
        (inserted_at : Z → nat).

Lemma path_exists_cases path fs :
  match os_error Stat path with
  | Some e =>
      path_exists os_error path fs
      = if ignored_by_exists e then Return false else Raise e
  | None =>
      path_exists os_error path fs = Return (bool_decide (fs !! path ≠ None)) ∧
      (fs !! path ≠ None → path_stat os_error path fs = Return ())
  end.
Proof.
  unfold path_exists, path_stat. destruct (os_error Stat path) as [e|]; [done|].
  destruct (fs !! path); [by split|]. split; [done|]. by intros [].
Qed.

Lemma driver_cases input_path vocab_size special_tokens output_dir dataset_name w :
  let call := CallRunTrainBpe input_path vocab_size special_tokens in
  let r := train_bpe_tokenizer byte_encoder run_train_bpe lower pyfloat
             elapsed_time peak_memory os_error left_behind inserted_at input_path vocab_size
             special_tokens output_dir dataset_name w in
  (∃ e, os_error Stat input_path = Some e ∧ ignored_by_exists e = false ∧
        r = (Raise e, w)) ∨
  (((∃ e, os_error Stat input_path = Some e ∧ ignored_by_exists e = true) ∨
    (os_error Stat input_path = None ∧ fs w !! input_path = None)) ∧
   r = (SysExit 1, log (PrintInputNotFound input_path) w)) ∨
  (os_error Stat input_path = None ∧ fs w !! input_path ≠ None ∧
   ((∃ e, run_train_bpe (fs w) input_path vocab_size special_tokens = Raise e ∧
          r = (SysExit 1, log (PrintTrainingError e) (log call w))) ∨
    (∃ code, run_train_bpe (fs w) input_path vocab_size special_tokens
             = SysExit code ∧
          r = (SysExit code, log call w)) ∨
    (∃ merges, run_train_bpe (fs w) input_path vocab_size special_tokens
               = Return (∅, merges) ∧
          r = (SysExit 1, log (PrintTrainingError ValueError) (log call w))) ∨
    (∃ vocab merges t,
       run_train_bpe (fs w) input_path vocab_size special_tokens
         = Return (vocab, merges) ∧
       longest (dict_values inserted_at vocab) = Some t ∧
       match save_vocab_and_merges_io byte_encoder os_error left_behind vocab merges
               output_dir (lower dataset_name ++ Py.lit "_") (fs w) with
       | (Return _, fs') =>
           r = (Return (vocab, merges, elapsed_time, peak_memory,
                        Py.utf8_decode t),
                {| fs := fs'; events := events w ++ [call] |})
       | (Raise e, fs') =>
           r = (SysExit 1,
                {| fs := fs';
                   events := events w ++ [call; PrintTrainingError e] |})
       | (SysExit _, _) => False
       end))).
Proof.
  intros call r. subst r. unfold train_bpe_tokenizer.
  pose proof (path_exists_cases input_path (fs w)) as Hex.
  destruct (os_error Stat input_path) as [e|] eqn:Hstat.
  { rewrite Hex. destruct (ignored_by_exists e) eqn:Hig.
    - right. left. split; [|done]. left. by exists e.
    - left. by exists e. }
  destruct Hex as [-> Hst].
  destruct (fs w !! input_path) as [n|] eqn:Hfs.
  2:{ right. left. rewrite bool_decide_eq_false_2 by (by intros []).
      split; [by right|done]. }
  rewrite bool_decide_eq_true_2 by done. rewrite Hst by done.
  right. right. split; [done|]. split; [done|].
  change (fs (log _ w)) with (fs w). fold call.
  destruct (run_train_bpe (fs w) input_path vocab_size special_tokens)
    as [[vocab merges]|e|code] eqn:Hrun; simpl.
  - unfold analyze_vocab. pose proof (longest_None inserted_at vocab) as Hl.
    destruct (longest (dict_values inserted_at vocab)) as [t|] eqn:Ht; simpl.
    + right. right. right. exists vocab, merges, t. split; [done|].
      split; [done|].
      pose proof (save_io_cases byte_encoder os_error left_behind vocab merges output_dir
                    (lower dataset_name ++ Py.lit "_") (fs w)) as Hsave.
      destruct (save_vocab_and_merges_io _ _ _ _ _ _ _ (fs w)) as [[[]|e|c] fs'];
        [done| |done].
      unfold log. simpl. by rewrite <- (assoc_L (++)).
    + right. right. left. exists merges. split; [|done].
      f_equal. f_equal. by apply Hl.
  - left. by exists e.
  - right. left. by exists code.
Qed.

End DriverFacts.

Section Serialization.

Context (byte_encoder : byte → N).

Local Abbreviation save := (save_vocab_and_merges byte_encoder).
Local Abbreviation encode := (encode_token byte_encoder).

(** C3: for every merge list, the merges file that
    [save_vocab_and_merges] writes consists of the one-line version header
    followed by one line per merge record, in merge order; each line is the
    first byte string with every byte replaced by its code point in the
    byte-to-unicode table, one space, the second byte string replaced
    likewise, and a line break.  The table is the one of the external
    interface: it yields printable code points only, so no mapped string
    contains a line break or a carriage return, and the lines of the file,
    also as [for line in f] reads them, are exactly these. *)
Theorem merges_file_format
    (Hprintable : ∀ b, printable (byte_encoder b) = true)
    vocab merges output_dir name_prefix fs :
  ∃ content,
    save_vocab_and_merges byte_encoder vocab merges output_dir name_prefix fs
      !! path_join output_dir (name_prefix ++ Py.lit "merges.txt")
    = Some (TextFile content) ∧
    content
    = Py.lit "#version: 0.2" ++ [10]
      ++ concat ((λ m, (byte_encoder <$> m.1) ++ [32]
                       ++ (byte_encoder <$> m.2) ++ [10]) <$> merges) ∧
    Py.lines content
    = (Py.lit "#version: 0.2" ++ [10])
        :: ((λ m, (byte_encoder <$> m.1) ++ [32]
                  ++ (byte_encoder <$> m.2) ++ [10]) <$> merges) ∧
    read_lines (TextFile content)
    = Return ((Py.lit "#version: 0.2" ++ [10])
                :: ((λ m, (byte_encoder <$> m.1) ++ [32]
                          ++ (byte_encoder <$> m.2) ++ [10]) <$> merges)) ∧
    length (Py.lines content) = S (length merges).
Proof.
  exists (merges_txt byte_encoder merges). split; [apply save_lookup|].
  assert (merge_line byte_encoder <$> merges
          = (λ m, (byte_encoder <$> m.1) ++ [32]
                  ++ (byte_encoder <$> m.2) ++ [10]) <$> merges) as Hlines.
  { apply list_fmap_ext. by intros _ [??] _. }
  assert (merges_txt byte_encoder merges
          = Py.lit "#version: 0.2" ++ [10]
            ++ concat ((λ m, (byte_encoder <$> m.1) ++ [32]
                             ++ (byte_encoder <$> m.2) ++ [10]) <$> merges))
    as Hcontent.
  { unfold merges_txt. rewrite (foldl_append (merge_line byte_encoder)).
    by rewrite Hlines, <- (assoc_L (++)). }
  assert (∀ t : bytes, Forall (λ c, c ≠ 13) (byte_encoder <$> t)) as Hcr.
  { intros t. apply Forall_fmap, Forall_forall. intros b _. simpl.
    intros Hb. specialize (Hprintable b). by rewrite Hb in Hprintable. }
  split_and!.
  - exact Hcontent.
  - rewrite merges_txt_lines
      by (intros b; apply printable_not_newline, Hprintable).
    by rewrite Hlines.
  - unfold read_lines. rewrite universal_newlines_id.
    + rewrite merges_txt_lines
        by (intros b; apply printable_not_newline, Hprintable).
      by rewrite Hlines.
    + rewrite Hcontent. rewrite !Forall_app. split_and!.
      * vm_compute. repeat constructor; discriminate.
      * by repeat constructor.
      * apply Forall_concat, Forall_fmap, Forall_forall. intros [t1 t2] _.
        change (Forall (λ c, c ≠ 13)
                  ((byte_encoder <$> t1) ++ [32] ++ (byte_encoder <$> t2) ++ [10])).
        rewrite !Forall_app. split_and!; [apply Hcr|by repeat constructor
                                         |apply Hcr|by repeat constructor].
  - rewrite merges_txt_lines
      by (intros b; apply printable_not_newline, Hprintable).
    simpl. by rewrite length_fmap.
Qed.

(** C10: for every vocabulary, and whatever the byte-to-unicode table
    is (two byte strings may even map to the same string), the dictionary
    written to [vocab.json] has exactly one entry per vocabulary entry: its
    key set is the set of the decimal forms of the token ids and its size
    is [len(vocab)]. *)
Theorem vocab_json_one_entry_per_id vocab merges output_dir name_prefix fs :
  ∃ vocab_gpt2,
    save vocab merges output_dir name_prefix fs
      !! path_join output_dir (name_prefix ++ Py.lit "vocab.json")
    = Some (JsonFile vocab_gpt2) ∧
    dom vocab_gpt2 =@{gset pystr} set_map Py.str (dom vocab) ∧
    size vocab_gpt2 = size vocab.
Proof.
  exists (vocab_gpt2_of byte_encoder vocab). split; [apply save_lookup|].
  rewrite vocab_gpt2_of_kmap. split.
  - by rewrite dom_kmap_L, dom_fmap_L by apply _.
  - by rewrite map_size_kmap_str, map_size_fmap.
Qed.

(** C4: for every vocabulary, [save_vocab_and_merges] writes a
    [vocab.json] that maps the decimal form of each token id to the token's
    bytes mapped one by one through the table; with a table that gives every
    byte value a code point of its own, all of them printable, every
    written string is printable, every key is a token id, and the
    vocabulary can be recovered from the written dictionary: nothing is
    lost. *)
Theorem vocab_json_lossless
    (Hunique : Inj (=) (=) byte_encoder)
    (Hprintable : ∀ b, printable (byte_encoder b) = true)
    vocab merges output_dir name_prefix fs :
  ∃ vocab_gpt2,
    save vocab merges output_dir name_prefix fs
      !! path_join output_dir (name_prefix ++ Py.lit "vocab.json")
    = Some (JsonFile vocab_gpt2) ∧
    (∀ token_id, vocab_gpt2 !! Py.str token_id = encode <$> vocab !! token_id) ∧
    (∀ key s, vocab_gpt2 !! key = Some s →
       (∃ token_id, key = Py.str token_id) ∧
       Forall (λ c, printable c = true) s) ∧
    (∀ vocab', vocab_gpt2_of byte_encoder vocab' = vocab_gpt2 → vocab' = vocab).
Proof.
  exists (vocab_gpt2_of byte_encoder vocab). split; [apply save_lookup|].
  rewrite vocab_gpt2_of_kmap. split_and!.
  - intros token_id. by rewrite lookup_kmap, lookup_fmap by apply _.
  - intros key s Hs. apply lookup_kmap_Some in Hs as (k & -> & Hk); [|apply _].
    split; [by exists k|]. rewrite lookup_fmap in Hk.
    destruct (vocab !! k) as [v|]; simplify_eq/=.
    apply Forall_fmap, Forall_forall. intros b _. apply Hprintable.
  - intros vocab'. rewrite vocab_gpt2_of_kmap. intros Heq.
    apply (kmap_inj Py.str) in Heq. revert Heq. apply map_fmap_inj.
    unfold encode_token. apply list_fmap_eq_inj, Hunique.
Qed.

(** C8: for every vocabulary, whenever the raw hexadecimal vocabulary
    file of a tokenizer directory is the one that [save_vocab_and_merges]
    wrote for that vocabulary, and whatever [vocab.json] holds or does not
    hold there, [fix_vocab_json] leaves a [vocab.json] with exactly the
    dictionary that [save_vocab_and_merges] writes to [vocab.json]: the
    same keys, the decimal forms of the token ids, and for each of them the
    token's bytes replaced by their code points in the byte-to-unicode
    table.  It is the value of the conversion loop on the raw
    dictionary. *)
Theorem fix_vocab_json_agrees vocab merges tokenizer_dir name_prefix fs fs0 :
  fs0 !! path_join tokenizer_dir (name_prefix ++ Py.lit "_vocab_raw.json")
  = save_vocab_and_merges byte_encoder vocab merges tokenizer_dir
      (name_prefix ++ Py.lit "_") fs
      !! path_join tokenizer_dir (name_prefix ++ Py.lit "_vocab_raw.json") →
  ∃ vocab_gpt2,
    (fix_vocab_json byte_encoder tokenizer_dir name_prefix fs0).2
      !! path_join tokenizer_dir (name_prefix ++ Py.lit "_vocab.json")
    = Some (JsonFile vocab_gpt2) ∧
    save_vocab_and_merges byte_encoder vocab merges tokenizer_dir
      (name_prefix ++ Py.lit "_") fs
      !! path_join tokenizer_dir (name_prefix ++ Py.lit "_vocab.json")
    = Some (JsonFile vocab_gpt2) ∧
    fix_vocab byte_encoder (json_dump_int_keys (vocab_serializable vocab))
    = Return vocab_gpt2 ∧
    dom vocab_gpt2 =@{gset pystr} set_map Py.str (dom vocab) ∧
    (∀ token_id,
       vocab_gpt2 !! Py.str token_id
       = (λ token_bytes, byte_encoder <$> token_bytes) <$> vocab !! token_id).
Proof.
  intros Hfs0.
  destruct (save_lookup byte_encoder vocab merges tokenizer_dir
              (name_prefix ++ Py.lit "_") fs) as (Hv & _ & Hraw & _).
  simpl in Hv, Hraw. rewrite <- !(assoc_L (++)) in Hv, Hraw.
  change (Py.lit "_" ++ Py.lit "vocab.json") with (Py.lit "_vocab.json") in Hv.
  change (Py.lit "_" ++ Py.lit "vocab_raw.json")
    with (Py.lit "_vocab_raw.json") in Hraw.
  rewrite Hraw in Hfs0.
  exists (vocab_gpt2_of byte_encoder vocab). split_and!.
  - unfold fix_vocab_json, open_read. rewrite Hfs0. simpl.
    rewrite fix_vocab_dump. simpl. apply lookup_insert_eq.
  - exact Hv.
  - apply fix_vocab_dump.
  - rewrite vocab_gpt2_of_kmap. by rewrite dom_kmap_L, dom_fmap_L by apply _.
  - intros token_id. rewrite vocab_gpt2_of_kmap.
    by rewrite lookup_kmap, lookup_fmap by apply _.
Qed.

(** C5, as amended: for every vocabulary and every merge list whose byte
    strings are all non-empty, writing them with [save_vocab_and_merges]
    and reading the raw files back with [load_tokenizer], with the same
    directory and name prefix, returns exactly the original vocabulary and
    the original list of merges in order. *)
Theorem raw_round_trip key_position vocab merges output_dir prefix fs :
  Forall (λ m, m.1 ≠ [] ∧ m.2 ≠ []) merges →
  load_tokenizer key_position output_dir prefix
    (save vocab merges output_dir prefix fs)
  = Return (vocab, merges).
Proof.
  intros Hne.
  destruct (save_lookup byte_encoder vocab merges output_dir prefix fs)
    as (_ & _ & Hraw & Hmerges). simpl in Hraw, Hmerges.
  unfold load_tokenizer, open_read. rewrite Hraw. simpl.
  rewrite load_vocab_dump. simpl. rewrite Hmerges. simpl.
  rewrite universal_newlines_id by apply merges_raw_txt_no_cr.
  rewrite merges_raw_txt_lines, load_merges_raw by done. done.
Qed.

End Serialization.

Section Driver.

Context (byte_encoder : byte → N).
Context (run_train_bpe :
  gmap pystr node → pystr → Z → list bytes →
  outcome (gmap Z bytes * list (bytes * bytes))).
Context (lower : pystr → pystr) {pyfloat : Type} (elapsed_time : pyfloat)
        (peak_memory : Z).
Context (os_error : file_op → pystr → option exn).
Context (left_behind : pystr → option node → option node)
        (inserted_at : Z → nat).

Local Abbreviation driver :=
  (train_bpe_tokenizer byte_encoder run_train_bpe lower pyfloat elapsed_time
                       peak_memory os_error left_behind inserted_at).

Lemma analyze_vocab_nonempty vocab merges :
  vocab ≠ ∅ →
  ∃ token_id t,
    vocab !! token_id = Some t ∧
    (∀ token_id' v, vocab !! token_id' = Some v → (length v ≤ length t)%nat) ∧
    (∀ token_id' v, vocab !! token_id' = Some v → length v = length t →
       (inserted_at token_id ≤ inserted_at token_id')%nat) ∧
    analyze_vocab inserted_at vocab merges = Return (Py.utf8_decode t).
Proof.
  intros Hne. unfold analyze_vocab.
  pose proof (longest_first inserted_at vocab) as H.
  destruct (longest (dict_values inserted_at vocab)) as [t|]; [|done].
  destruct H as (k & Hk & Hmax & Hfirst). by exists k, t.
Qed.

Lemma analyze_vocab_longest vocab merges t :
  longest (dict_values inserted_at vocab) = Some t →
  analyze_vocab inserted_at vocab merges = Return (Py.utf8_decode t).
Proof. unfold analyze_vocab. by intros ->. Qed.

Lemma train_bpe_tokenizer_returns input_path vocab_size special_tokens
    output_dir dataset_name w vocab merges e m l w' :
  driver input_path vocab_size special_tokens output_dir
    dataset_name w = (Return (vocab, merges, e, m, l), w') →
  run_train_bpe (fs w) input_path vocab_size special_tokens
    = Return (vocab, merges) ∧
  analyze_vocab inserted_at vocab merges = Return l.
Proof.
  intros Hrun.
  destruct (driver_cases byte_encoder run_train_bpe lower elapsed_time
              peak_memory os_error left_behind inserted_at input_path vocab_size
              special_tokens output_dir dataset_name w)
    as [(? & _ & _ & Heq)|[[_ Heq]|(_ & _ & [(? & _ & Heq)|[(? & _ & Heq)|
         [(? & _ & Heq)|(v & ms & t & Hr & Ht & Heq)]]])]];
    try (rewrite Heq in Hrun; discriminate).
  destruct (save_vocab_and_merges_io _ _ _ _ _ _ _ (fs w)) as [[[]|?|?] fs'];
    [|rewrite Heq in Hrun; discriminate|done].
  rewrite Heq in Hrun. injection Hrun as <- <- _ _ <- _.
  split; [done|]. by apply analyze_vocab_longest.
Qed.

Lemma train_bpe_tokenizer_succeeds input_path vocab_size special_tokens
    output_dir dataset_name w vocab merges :
  os_error Stat input_path = None →
  fs w !! input_path ≠ None →
  run_train_bpe (fs w) input_path vocab_size special_tokens
    = Return (vocab, merges) →
  vocab ≠ ∅ →
  os_error Mkdir output_dir = None →
  Forall (λ path, os_error WriteFile path = None)
    [ path_join output_dir ((lower dataset_name ++ Py.lit "_") ++ Py.lit "vocab.json");
      path_join output_dir ((lower dataset_name ++ Py.lit "_") ++ Py.lit "merges.txt");
      path_join output_dir
        ((lower dataset_name ++ Py.lit "_") ++ Py.lit "vocab_raw.json");
      path_join output_dir
        ((lower dataset_name ++ Py.lit "_") ++ Py.lit "merges_raw.txt") ] →
  ∃ t,
    longest (dict_values inserted_at vocab) = Some t ∧
    driver input_path vocab_size special_tokens output_dir dataset_name w
    = (Return (vocab, merges, elapsed_time, peak_memory, Py.utf8_decode t),
       {| fs := save_vocab_and_merges byte_encoder vocab merges output_dir
                  (lower dataset_name ++ Py.lit "_") (fs w);
          events := events w
            ++ [CallRunTrainBpe input_path vocab_size special_tokens] |}).
Proof.
  intros Hstat Hfs Hrun Hne Hmk Hopen.
  destruct (driver_cases byte_encoder run_train_bpe lower elapsed_time
              peak_memory os_error left_behind inserted_at input_path vocab_size
              special_tokens output_dir dataset_name w)
    as [(? & ? & _)|[[[(? & ? & _)|[_ ?]] _]|(_ & _ & [(? & ? & _)|[(? & ? & _)|
         [(? & Hr & _)|(v & ms & t & Hr & Ht & Heq)]]])]]; try congruence.
  rewrite Hrun in Hr. injection Hr as <- <-. exists t. split; [done|].
  by rewrite (save_io_ok byte_encoder os_error left_behind vocab merges output_dir _ (fs w))
    in Heq.
Qed.

(** C9: for every non-empty vocabulary, [analyze_vocab] returns the
    UTF-8 decoding of a token of maximal length, the one that comes first
    in the order of iteration of the dictionary ([None] when that token is
    no valid UTF-8).  After a successful training run, that is when the
    corpus exists, [run_train_bpe] returns a non-empty vocabulary and
    the output files are written, [train_bpe_tokenizer] returns the
    vocabulary and merges of [run_train_bpe] with, as last component, the
    value of [analyze_vocab] on them; and whatever [train_bpe_tokenizer]
    returns is of that form. *)
Theorem analyze_vocab_longest_decoded :
  (∀ vocab merges, vocab ≠ ∅ →
     ∃ token_id t,
       vocab !! token_id = Some t ∧
       (∀ token_id' v, vocab !! token_id' = Some v →
          (length v ≤ length t)%nat) ∧
       (∀ token_id' v, vocab !! token_id' = Some v → length v = length t →
          (inserted_at token_id ≤ inserted_at token_id')%nat) ∧
       analyze_vocab inserted_at vocab merges = Return (Py.utf8_decode t)) ∧
  (∀ input_path vocab_size special_tokens output_dir dataset_name w
     vocab merges,
     os_error Stat input_path = None →
     fs w !! input_path ≠ None →
     run_train_bpe (fs w) input_path vocab_size special_tokens
       = Return (vocab, merges) →
     vocab ≠ ∅ →
     os_error Mkdir output_dir = None →
     Forall (λ path, os_error WriteFile path = None)
       [ path_join output_dir
           ((lower dataset_name ++ Py.lit "_") ++ Py.lit "vocab.json");
         path_join output_dir
           ((lower dataset_name ++ Py.lit "_") ++ Py.lit "merges.txt");
         path_join output_dir
           ((lower dataset_name ++ Py.lit "_") ++ Py.lit "vocab_raw.json");
         path_join output_dir
           ((lower dataset_name ++ Py.lit "_") ++ Py.lit "merges_raw.txt") ] →
     ∃ longest_token_decoded w',
       analyze_vocab inserted_at vocab merges = Return longest_token_decoded ∧
       train_bpe_tokenizer byte_encoder run_train_bpe lower pyfloat
         elapsed_time peak_memory os_error left_behind inserted_at input_path vocab_size
         special_tokens output_dir dataset_name w
       = (Return (vocab, merges, elapsed_time, peak_memory,
                  longest_token_decoded), w')) ∧
  (∀ input_path vocab_size special_tokens output_dir dataset_name w
     vocab merges e m longest_token_decoded w',
     train_bpe_tokenizer byte_encoder run_train_bpe lower pyfloat
       elapsed_time peak_memory os_error left_behind inserted_at input_path vocab_size
       special_tokens output_dir dataset_name w
     = (Return (vocab, merges, e, m, longest_token_decoded), w') →
     run_train_bpe (fs w) input_path vocab_size special_tokens
       = Return (vocab, merges) ∧
     analyze_vocab inserted_at vocab merges = Return longest_token_decoded).
Proof.
  split_and!.
  - apply analyze_vocab_nonempty.
  - intros input_path vocab_size special_tokens output_dir dataset_name w
      vocab merges Hstat Hfs Hrun Hne Hmk Hopen.
    destruct (train_bpe_tokenizer_succeeds input_path vocab_size special_tokens
                output_dir dataset_name w vocab merges Hstat Hfs Hrun Hne Hmk
                Hopen) as (t & Ht & Heq).
    eexists _, _. split; [|exact Heq]. by apply analyze_vocab_longest.
  - intros. by eapply train_bpe_tokenizer_returns.
Qed.

Lemma driver_missing_input input_path vocab_size special_tokens output_dir
    dataset_name w :
  os_error Stat input_path = None →
  fs w !! input_path = None →
  driver input_path vocab_size special_tokens output_dir dataset_name w
  = (SysExit 1, {| fs := fs w;
                   events := events w ++ [PrintInputNotFound input_path] |}).
Proof.
  intros Hstat Hfs.
  destruct (driver_cases byte_encoder run_train_bpe lower elapsed_time
              peak_memory os_error left_behind inserted_at input_path vocab_size
              special_tokens output_dir dataset_name w)
    as [(? & ? & _)|[[_ Heq]|(_ & ? & _)]]; try congruence.
  exact Heq.
Qed.

Lemma driver_stat_refused input_path vocab_size special_tokens output_dir
    dataset_name w e :
  os_error Stat input_path = Some e →
  driver input_path vocab_size special_tokens output_dir dataset_name w
  = if ignored_by_exists e
    then (SysExit 1, {| fs := fs w;
                        events := events w ++ [PrintInputNotFound input_path] |})
    else (Raise e, w).
Proof.
  intros Hstat.
  destruct (driver_cases byte_encoder run_train_bpe lower elapsed_time
              peak_memory os_error left_behind inserted_at input_path vocab_size
              special_tokens output_dir dataset_name w)
    as [(e' & He' & Hig & Heq)|[[[(e' & He' & Hig)|[? _]] Heq]|(? & _)]];
    try congruence.
  - assert (e' = e) as -> by congruence. rewrite Hig. exact Heq.
  - assert (e' = e) as -> by congruence. rewrite Hig. exact Heq.
Qed.

Lemma driver_training_raises input_path vocab_size special_tokens output_dir
    dataset_name w e :
  os_error Stat input_path = None →
  fs w !! input_path ≠ None →
  run_train_bpe (fs w) input_path vocab_size special_tokens = Raise e →
  driver input_path vocab_size special_tokens output_dir dataset_name w
  = (SysExit 1,
     {| fs := fs w;
        events := events w
          ++ [CallRunTrainBpe input_path vocab_size special_tokens;
              PrintTrainingError e] |}).
Proof.
  intros Hstat Hfs He.
  destruct (driver_cases byte_encoder run_train_bpe lower elapsed_time
              peak_memory os_error left_behind inserted_at input_path vocab_size
              special_tokens output_dir dataset_name w)
    as [(? & ? & _)|[[[(? & ? & _)|[_ ?]] _]|(_ & _ & [(e' & Hr & Heq)|[(? & ? & _)|
         [(? & Hr & _)|(v & ms & t & Hr & _)]]])]]; try congruence.
  assert (e' = e) as -> by congruence. rewrite Heq.
  unfold log. simpl. by rewrite <- (assoc_L (++)).
Qed.

End Driver.

Section TrainingClaims.

Context (pretokenize : bytes → list bytes) (floor : nat).

(** C1: in every state that training reaches, after initialization and
    after every completed merge step, the vocabulary has
    [256 + len(special_tokens) + len(merges)] entries and the number of
    merges is at most [vocab_size - 256 - len(special_tokens)]; the same
    holds of every vocabulary and merge list that training returns. *)
Theorem vocabulary_size_invariant :
  (∀ corpus vocab_size special_tokens st,
     ¬ (vocab_size < 256 + Z.of_nat (length special_tokens))%Z →
     rtc (step pretokenize floor corpus vocab_size special_tokens)
         (start special_tokens) st →
     length (st_vocab st)
       = (256 + length special_tokens + length (st_merges st))%nat ∧
     (Z.of_nat (length (st_merges st))
        ≤ vocab_size - 256 - Z.of_nat (length special_tokens))%Z) ∧
  (∀ fs input_path vocab_size special_tokens vocab merges,
     trains pretokenize floor fs input_path vocab_size special_tokens
       (Return (vocab, merges)) →
     size vocab = (256 + length special_tokens + length merges)%nat ∧
     (Z.of_nat (length merges)
        ≤ vocab_size - 256 - Z.of_nat (length special_tokens))%Z) ∧
  (∀ fs input_path vocab_size special_tokens vocab merges,
     run_train_bpe pretokenize floor fs input_path vocab_size special_tokens
       = Return (vocab, merges) →
     size vocab = (256 + length special_tokens + length merges)%nat ∧
     (Z.of_nat (length merges)
        ≤ vocab_size - 256 - Z.of_nat (length special_tokens))%Z).
Proof.
  assert (∀ corpus vocab_size special_tokens st,
     ¬ (vocab_size < 256 + Z.of_nat (length special_tokens))%Z →
     rtc (step pretokenize floor corpus vocab_size special_tokens)
         (start special_tokens) st →
     length (st_vocab st)
       = (256 + length special_tokens + length (st_merges st))%nat ∧
     (Z.of_nat (length (st_merges st))
        ≤ vocab_size - 256 - Z.of_nat (length special_tokens))%Z) as Hreach.
  { intros corpus vocab_size special_tokens st Hcfg Hst.
    destruct (reachable_wf pretokenize floor corpus vocab_size special_tokens
                st Hcfg Hst) as [Hlen Hle].
    split; [done|lia]. }
  assert (∀ fs input_path vocab_size special_tokens vocab merges,
     trains pretokenize floor fs input_path vocab_size special_tokens
       (Return (vocab, merges)) →
     size vocab = (256 + length special_tokens + length merges)%nat ∧
     (Z.of_nat (length merges)
        ≤ vocab_size - 256 - Z.of_nat (length special_tokens))%Z) as Htrains.
  { intros fs input_path vocab_size special_tokens vocab merges Ht.
    remember (Return (vocab, merges)) as r eqn:Hr.
    destruct Ht as [?|? ?|corpus st Hcfg Hfs Hst Hd|]; try discriminate.
    injection Hr as <- <-. rewrite size_vocab_dict. eauto. }
  split_and!; [done..|].
  intros fs input_path vocab_size special_tokens vocab merges Hrun.
  apply (Htrains fs input_path). rewrite <- Hrun.
  apply run_train_bpe_trains.
Qed.

(** C2: training is deterministic: two training runs on the same corpus,
    vocabulary size and special tokens end in the same outcome, with equal
    vocabularies and equal merge lists in order; it is the outcome that
    [run_train_bpe] computes. *)
Theorem training_is_deterministic fs input_path vocab_size special_tokens r1 r2 :
  trains pretokenize floor fs input_path vocab_size special_tokens r1 →
  trains pretokenize floor fs input_path vocab_size special_tokens r2 →
  r1 = r2 ∧
  r1 = run_train_bpe pretokenize floor fs input_path vocab_size special_tokens.
Proof.
  intros H1 H2. split.
  - eapply trains_deterministic; eassumption.
  - eapply trains_deterministic; [eassumption|apply run_train_bpe_trains].
Qed.

Context (byte_encoder : byte → N) (lower : pystr → pystr) {pyfloat : Type}
        (elapsed_time : pyfloat) (peak_memory : Z).
Context (os_error : file_op → pystr → option exn).
Context (left_behind : pystr → option node → option node)
        (inserted_at : Z → nat).


(** C7, as amended: for every corpus path that is missing, or whose
    status the operating system refuses to give, [train_bpe_tokenizer]
    fails before training starts, whatever the training entry point is:
    [run_train_bpe] is not called and the file system is unchanged; it
    leaves through [sys.exit(1)], or with the exception of the refused
    call when [Path.exists] does not take that exception for a missing
    path.  For a path that exists and cannot be opened for reading,
    [run_train_bpe] is called once; it raises, [train_bpe_tokenizer] leaves
    through [sys.exit(1)] and the file system is unchanged. *)
Theorem corpus_errors_are_fatal input_path vocab_size special_tokens
    output_dir dataset_name w :
  (∀ trainer,
     os_error Stat input_path = None →
     fs w !! input_path = None →
     train_bpe_tokenizer byte_encoder trainer lower pyfloat elapsed_time
       peak_memory os_error left_behind inserted_at input_path vocab_size special_tokens
       output_dir dataset_name w
     = (SysExit 1,
        {| fs := fs w;
           events := events w ++ [PrintInputNotFound input_path] |})) ∧
  (∀ trainer e,
     os_error Stat input_path = Some e →
     train_bpe_tokenizer byte_encoder trainer lower pyfloat elapsed_time
       peak_memory os_error left_behind inserted_at input_path vocab_size special_tokens
       output_dir dataset_name w
     = if ignored_by_exists e
       then (SysExit 1,
             {| fs := fs w;
                events := events w ++ [PrintInputNotFound input_path] |})
       else (Raise e, w)) ∧
  (os_error Stat input_path = None →
   fs w !! input_path = Some Unreadable →
   ∃ e,
     run_train_bpe pretokenize floor (fs w) input_path vocab_size special_tokens
       = Raise e ∧
     (e = ConfigurationError ∨ e = InputError) ∧
     train_bpe_tokenizer byte_encoder (run_train_bpe pretokenize floor) lower
       pyfloat elapsed_time peak_memory os_error left_behind inserted_at input_path
       vocab_size special_tokens output_dir dataset_name w
     = (SysExit 1,
        {| fs := fs w;
           events := events w
             ++ [CallRunTrainBpe input_path vocab_size special_tokens;
                 PrintTrainingError e] |})).
Proof.
  split_and!.
  - intros trainer. apply driver_missing_input.
  - intros trainer e. apply driver_stat_refused.
  - intros Hstat Hfs.
    assert (∃ e, run_train_bpe pretokenize floor (fs w) input_path vocab_size
                   special_tokens = Raise e ∧
                 (e = ConfigurationError ∨ e = InputError)) as (e & He & Hor).
    { unfold run_train_bpe. rewrite Hfs. case_bool_decide; eauto. }
    exists e. split_and!; [done..|].
    apply driver_training_raises; [done|by rewrite Hfs|done].
Qed.

End TrainingClaims.

(** * More about the code: files, failures, statistics and scripts *)

(** ** More on the files *)

Lemma is_ascii_space_is_space c : Py.is_space c = false → Py.is_ascii_space c = false.
Proof.
  unfold Py.is_space, Py.is_ascii_space. intros H.
  repeat (apply orb_false_elim in H as [H ?]).
  apply orb_false_intro; [done|].
  apply N.eqb_neq. intros ->. by vm_compute in H0.
Qed.

Lemma fromhex_nonempty f bs :
  f ≠ [] → Py.nospace f → Py.fromhex f = Some bs → bs ≠ [].
Proof.
  intros Hne Hf. destruct Hf as [|c f Hc _]; [done|]. cbv beta in Hc.
  simpl. rewrite (is_ascii_space_is_space c Hc).
  destruct f as [|d f]; [done|].
  destruct (Py.hex_val c); [|done]. simpl.
  destruct (Py.hex_val d); [|done]. simpl.
  destruct (Byte.of_N _); [|done]. simpl.
  destruct (Py.fromhex f); [|done]. simpl. by intros [= <-].
Qed.

Lemma split_go_fields s cur :
  Py.nospace cur →
  Forall (λ f, f ≠ [] ∧ Py.nospace f) (Py.split_go cur s).
Proof.
  revert cur. induction s as [|c s IH]; intros cur Hcur; simpl.
  - destruct cur as [|x cur]; [constructor|].
    repeat constructor.
    + intros Hr. apply (f_equal length) in Hr.
      rewrite length_reverse in Hr. done.
    + unfold Py.nospace. by rewrite Forall_reverse.
  - destruct (Py.is_space c) eqn:Hc.
    + destruct cur as [|x cur]; [apply IH; constructor|].
      constructor; [|apply IH; constructor]. split.
      * intros Hr. apply (f_equal length) in Hr.
        rewrite length_reverse in Hr. done.
      * unfold Py.nospace. by rewrite Forall_reverse.
    + apply IH. by constructor.
Qed.

Lemma load_merge_line_nonempty line m :
  load_merge_line line = Return (Some m) → nonempty_pair m.
Proof.
  unfold load_merge_line. destruct (Py.strip line) as [|c l]; [done|].
  pose proof (split_go_fields (c :: l) [] (Forall_nil_2 _)) as Hf.
  fold (Py.split (c :: l)) in Hf.
  destruct (Py.split (c :: l)) as [|f1 [|f2 [|]]]; try done.
  apply Forall_cons in Hf as [[Hn1 Hs1] Hf].
  apply Forall_cons in Hf as [[Hn2 Hs2] _].
  destruct (Py.fromhex f1) as [t1|] eqn:H1; [|done].
  destruct (Py.fromhex f2) as [t2|] eqn:H2; [|done]. simpl.
  intros [= <-]. split; simpl; eauto using fromhex_nonempty.
Qed.

Lemma load_merges_nonempty ls acc merges :
  Forall nonempty_pair acc →
  load_merges acc ls = Return merges → Forall nonempty_pair merges.
Proof.
  revert acc. induction ls as [|line ls IH]; intros acc Hacc; simpl.
  - by intros [= <-].
  - destruct (load_merge_line line) as [[m|]| |] eqn:Hl; simpl; try done.
    + apply IH. apply Forall_app. split; [done|].
      constructor; [|constructor]. by eapply load_merge_line_nonempty.
    + by apply IH.
Qed.

Lemma load_tokenizer_nonempty key_position dir prefix fs vocab merges :
  load_tokenizer key_position dir prefix fs = Return (vocab, merges) →
  Forall nonempty_pair merges.
Proof.
  unfold load_tokenizer.
  destruct (open_read (path_join dir (prefix ++ Py.lit "vocab_raw.json")) fs)
    as [n1| |]; simpl; try done.
  destruct (json_load n1) as [o| |]; simpl; try done.
  destruct (load_vocab _ o) as [v| |]; simpl; try done.
  destruct (open_read (path_join dir (prefix ++ Py.lit "merges_raw.txt")) fs)
    as [n2| |]; simpl; try done.
  destruct (read_lines n2) as [ls| |]; simpl; try done.
  destruct (load_merges [] ls) as [ms| |] eqn:Hms; simpl; try done.
  intros H. assert (ms = merges) as <- by congruence.
  eapply load_merges_nonempty; [|exact Hms]. constructor.
Qed.

Section MoreFiles.

Context (byte_encoder : byte → N).

Local Abbreviation save := (save_vocab_and_merges byte_encoder).

Lemma save_other vocab merges dir prefix fs path :
  path ≠ path_join dir (prefix ++ Py.lit "vocab.json") →
  path ≠ path_join dir (prefix ++ Py.lit "merges.txt") →
  path ≠ path_join dir (prefix ++ Py.lit "vocab_raw.json") →
  path ≠ path_join dir (prefix ++ Py.lit "merges_raw.txt") →
  save vocab merges dir prefix fs !! path = fs !! path.
Proof.
  intros. unfold save_vocab_and_merges. simpl.
  by rewrite !lookup_insert_ne.
Qed.

Lemma load_after_save key_position vocab merges dir prefix fs :
  Forall nonempty_pair merges →
  load_tokenizer key_position dir prefix (save vocab merges dir prefix fs)
  = Return (vocab, merges).
Proof.
  intros Hne.
  destruct (save_lookup byte_encoder vocab merges dir prefix fs)
    as (_ & _ & Hraw & Hmerges). simpl in Hraw, Hmerges.
  unfold load_tokenizer, open_read. rewrite Hraw. simpl.
  rewrite load_vocab_dump. simpl. rewrite Hmerges. simpl.
  rewrite universal_newlines_id by apply merges_raw_txt_no_cr.
  rewrite merges_raw_txt_lines, load_merges_raw by done. done.
Qed.

(** X1: [save_vocab_and_merges] writes four files and nothing else: the
    paths that exist afterwards are those that existed before together with
    [vocab.json], [merges.txt], [vocab_raw.json] and [merges_raw.txt] under
    the output directory and name prefix, and every other path holds what
    it held before. *)
Theorem save_writes_four_files vocab merges output_dir name_prefix fs :
  dom (save_vocab_and_merges byte_encoder vocab merges output_dir name_prefix fs)
  =@{gset pystr}
    dom fs ∪ {[ path_join output_dir (name_prefix ++ Py.lit "vocab.json");
                path_join output_dir (name_prefix ++ Py.lit "merges.txt");
                path_join output_dir (name_prefix ++ Py.lit "vocab_raw.json");
                path_join output_dir (name_prefix ++ Py.lit "merges_raw.txt") ]} ∧
  ∀ path,
    path ∉ [ path_join output_dir (name_prefix ++ Py.lit "vocab.json");
             path_join output_dir (name_prefix ++ Py.lit "merges.txt");
             path_join output_dir (name_prefix ++ Py.lit "vocab_raw.json");
             path_join output_dir (name_prefix ++ Py.lit "merges_raw.txt") ] →
    save_vocab_and_merges byte_encoder vocab merges output_dir name_prefix fs
      !! path = fs !! path.
Proof.
  split.
  - unfold save_vocab_and_merges. simpl. rewrite !dom_insert_L.
    apply set_eq. intros path.
    rewrite !elem_of_union, !elem_of_singleton. tauto.
  - intros path Hp. apply save_other; intros ->; apply Hp;
      rewrite !elem_of_cons; auto 6.
Qed.

(** X2: saving a second tokenizer to the same directory under the same
    name prefix overwrites the first one entirely: the file system is the
    one a single call with the second vocabulary and merges leaves. *)
Theorem save_overwrites vocab1 merges1 vocab2 merges2 output_dir name_prefix fs :
  save_vocab_and_merges byte_encoder vocab2 merges2 output_dir name_prefix
    (save_vocab_and_merges byte_encoder vocab1 merges1 output_dir name_prefix fs)
  = save_vocab_and_merges byte_encoder vocab2 merges2 output_dir name_prefix fs.
Proof.
  apply map_eq. intros path.
  destruct (save_lookup byte_encoder vocab2 merges2 output_dir name_prefix
              (save vocab1 merges1 output_dir name_prefix fs)) as (A1 & A2 & A3 & A4).
  destruct (save_lookup byte_encoder vocab2 merges2 output_dir name_prefix fs)
    as (B1 & B2 & B3 & B4).
  simpl in *.
  destruct (decide (path = path_join output_dir (name_prefix ++ Py.lit "vocab.json")))
    as [->|?]; [by rewrite A1, B1|].
  destruct (decide (path = path_join output_dir (name_prefix ++ Py.lit "merges.txt")))
    as [->|?]; [by rewrite A2, B2|].
  destruct (decide (path = path_join output_dir (name_prefix ++ Py.lit "vocab_raw.json")))
    as [->|?]; [by rewrite A3, B3|].
  destruct (decide (path = path_join output_dir (name_prefix ++ Py.lit "merges_raw.txt")))
    as [->|?]; [by rewrite A4, B4|].
  by rewrite !save_other.
Qed.

(** X3: for every merge list, [merges_raw.txt] as written by
    [save_vocab_and_merges] has exactly one line per merge, in merge order,
    and each line is the hexadecimal form of the first byte string, one
    space, the hexadecimal form of the second one and a line break; there
    is no header line. *)
Theorem raw_merges_file_format vocab merges output_dir name_prefix fs :
  ∃ content,
    save vocab merges output_dir name_prefix fs
      !! path_join output_dir (name_prefix ++ Py.lit "merges_raw.txt")
    = Some (TextFile content) ∧
    Py.lines content
    = (λ m, Py.hex m.1 ++ [32] ++ Py.hex m.2 ++ [10]) <$> merges ∧
    length (Py.lines content) = length merges.
Proof.
  exists (merges_raw_txt merges). split; [apply save_lookup|].
  rewrite merges_raw_txt_lines. split; [|by rewrite length_fmap].
  apply list_fmap_ext. by intros _ [??] _.
Qed.

(** X4: whenever [load_tokenizer] returns, both byte strings of every
    merge it returns are non-empty. *)
Theorem loaded_merges_are_nonempty key_position output_dir prefix fs
    vocab merges :
  load_tokenizer key_position output_dir prefix fs = Return (vocab, merges) →
  Forall (λ m, m.1 ≠ [] ∧ m.2 ≠ []) merges.
Proof. apply load_tokenizer_nonempty. Qed.

(** X5: whatever [load_tokenizer] returns can be written with
    [save_vocab_and_merges], to any directory and under any name prefix,
    and read back from there unchanged. *)
Theorem load_save_load key_position output_dir prefix fs vocab merges
    dir' prefix' fs' :
  load_tokenizer key_position output_dir prefix fs = Return (vocab, merges) →
  load_tokenizer key_position dir' prefix'
    (save vocab merges dir' prefix' fs')
  = Return (vocab, merges).
Proof.
  intros Hload. apply load_after_save. by eapply load_tokenizer_nonempty.
Qed.

End MoreFiles.

Lemma fix_paths_distinct dir prefix :
  path_join dir (prefix ++ Py.lit "_vocab_raw.json")
  ≠ path_join dir (prefix ++ Py.lit "_vocab.json").
Proof. intros H. apply path_join_inj in H. by vm_compute in H. Qed.

Section MoreFix.

Context (byte_encoder : byte → N).

Local Abbreviation encode := (encode_token byte_encoder).
Local Abbreviation fixj := (fix_vocab_json byte_encoder).

Lemma fix_vocab_spec (vocab_raw : gmap pystr pystr) :
  match fix_vocab byte_encoder vocab_raw with
  | Return vocab_gpt2 =>
      dom vocab_gpt2 =@{gset pystr} dom vocab_raw ∧
      ∀ k h, vocab_raw !! k = Some h →
        ∃ bs, Py.fromhex h = Some bs ∧ vocab_gpt2 !! k = Some (encode bs)
  | Raise e =>
      e = ValueError ∧ ∃ k h, vocab_raw !! k = Some h ∧ Py.fromhex h = None
  | SysExit _ => False
  end.
Proof.
  unfold fix_vocab.
  apply (map_fold_weak_ind (λ r (m : gmap pystr pystr),
    match r with
    | Return g =>
        dom g =@{gset pystr} dom m ∧
        ∀ k h, m !! k = Some h →
          ∃ bs, Py.fromhex h = Some bs ∧ g !! k = Some (encode bs)
    | Raise e => e = ValueError ∧ ∃ k h, m !! k = Some h ∧ Py.fromhex h = None
    | SysExit _ => False
    end)).
  { split; [by rewrite !dom_empty_L|]. intros k h. by rewrite lookup_empty. }
  intros i x m r Hi IH. destruct r as [g|e|c]; simpl; [| |done].
  - destruct IH as [Hdom Hval].
    destruct (Py.fromhex x) as [bs|] eqn:Hx; simpl.
    + split; [by rewrite !dom_insert_L, Hdom|].
      intros k h. rewrite !lookup_insert.
      destruct (decide (i = k)) as [<-|_]; [|by apply Hval].
      intros [= <-]. by exists bs.
    + split; [done|]. exists i, x. by rewrite lookup_insert_eq.
  - destruct IH as [-> (k & h & Hk & Hh)]. split; [done|].
    exists k, h. split; [|done]. rewrite lookup_insert_ne; [done|]. congruence.
Qed.

Lemma fix_vocab_json_cases tokenizer_dir name_prefix fs :
  let raw_path := path_join tokenizer_dir (name_prefix ++ Py.lit "_vocab_raw.json") in
  let vocab_path := path_join tokenizer_dir (name_prefix ++ Py.lit "_vocab.json") in
  (∃ vocab_raw vocab_gpt2,
     fs !! raw_path = Some (JsonFile vocab_raw) ∧
     fix_vocab byte_encoder vocab_raw = Return vocab_gpt2 ∧
     fixj tokenizer_dir name_prefix fs
     = (verify_ids vocab_gpt2, <[vocab_path := JsonFile vocab_gpt2]> fs)) ∨
  (∃ e, fixj tokenizer_dir name_prefix fs = (Raise e, fs)).
Proof.
  intros raw_path vocab_path. unfold fix_vocab_json, open_read.
  fold raw_path vocab_path.
  destruct (fs !! raw_path) as [[| | |vocab_raw]|] eqn:Hraw; simpl; eauto.
  pose proof (fix_vocab_spec vocab_raw) as H.
  destruct (fix_vocab byte_encoder vocab_raw) as [g|e|c] eqn:Hfix;
    [|eauto|done].
  left. by exists vocab_raw, g.
Qed.


(** X11: [fix_vocab_json] touches no path but the [vocab.json] of its
    directory and name prefix, and it writes that file only when the raw
    vocabulary has been read and converted in full: the file then holds the
    converted dictionary; otherwise the file system is unchanged. *)
Theorem fix_vocab_json_writes_all_or_nothing tokenizer_dir name_prefix fs :
  let fs' := (fixj tokenizer_dir name_prefix fs).2 in
  let vocab_path := path_join tokenizer_dir (name_prefix ++ Py.lit "_vocab.json") in
  (∀ path, path ≠ vocab_path → fs' !! path = fs !! path) ∧
  (fs' = fs ∨
   ∃ vocab_raw vocab_gpt2,
     fs !! path_join tokenizer_dir (name_prefix ++ Py.lit "_vocab_raw.json")
       = Some (JsonFile vocab_raw) ∧
     fix_vocab byte_encoder vocab_raw = Return vocab_gpt2 ∧
     fs' = <[vocab_path := JsonFile vocab_gpt2]> fs).
Proof.
  intros fs' vocab_path. subst fs'.
  destruct (fix_vocab_json_cases tokenizer_dir name_prefix fs)
    as [(raw & g & Hraw & Hfix & ->)|[e ->]]; simpl.
  - split; [|right; by exists raw, g].
    intros path Hne. by rewrite lookup_insert_ne.
  - split; [done|by left].
Qed.

(** X13: [fix_vocab_json] is idempotent: a second run on the file system
    the first run left ends the same way and leaves the same file
    system. *)
Theorem fix_vocab_json_idempotent tokenizer_dir name_prefix fs :
  fix_vocab_json byte_encoder tokenizer_dir name_prefix
    (fix_vocab_json byte_encoder tokenizer_dir name_prefix fs).2
  = fix_vocab_json byte_encoder tokenizer_dir name_prefix fs.
Proof.
  destruct (fix_vocab_json_cases tokenizer_dir name_prefix fs)
    as [(raw & g & Hraw & Hfix & Heq)|[e Heq]]; rewrite Heq; simpl; [|done].
  unfold fix_vocab_json at 1, open_read.
  rewrite lookup_insert_ne by (symmetry; apply fix_paths_distinct).
  rewrite Hraw. simpl. rewrite Hfix. by rewrite insert_insert_eq.
Qed.

Lemma verify_ids_saved (vocab : gmap Z bytes) :
  verify_ids (vocab_gpt2_of byte_encoder vocab)
  = if decide (vocab = ∅) then Raise ValueError else Return ().
Proof.
  rewrite vocab_gpt2_of_kmap. unfold verify_ids.
  set (g := kmap (M2 := gmap pystr) Py.str (encode <$> vocab)).
  assert (is_Some (mapM Py.int (map_to_list g).*1)) as [ids Hids].
  { apply mapM_is_Some, Forall_forall. intros key Hkey.
    apply list_elem_of_fmap in Hkey as ([k s] & -> & Hks).
    apply elem_of_map_to_list in Hks.
    apply lookup_kmap_Some in Hks as (i & -> & _); [|apply _].
    simpl. rewrite int_str. by eexists. }
  rewrite Hids. apply length_mapM in Hids.
  rewrite length_fmap, length_map_to_list in Hids.
  assert (size g = size vocab) as Hsz.
  { unfold g. by rewrite map_size_kmap_str, map_size_fmap. }
  rewrite Hsz in Hids.
  destruct (decide (vocab = ∅)) as [->|Hne].
  - rewrite map_size_empty in Hids. destruct ids; [done|]. simpl in Hids. lia.
  - destruct ids; [|done]. exfalso. apply Hne, map_size_empty_iff.
    simpl in Hids. lia.
Qed.

(** X12: run on what [save_vocab_and_merges] wrote for the same
    directory and name, [fix_vocab_json] returns normally, except on an
    empty vocabulary, where its closing [min] over the token ids raises
    [ValueError]. *)
Theorem fix_vocab_json_after_save vocab merges tokenizer_dir name_prefix fs :
  (fixj tokenizer_dir name_prefix
     (save_vocab_and_merges byte_encoder vocab merges tokenizer_dir
        (name_prefix ++ Py.lit "_") fs)).1
  = if decide (vocab = ∅) then Raise ValueError else Return ().
Proof.
  destruct (save_lookup byte_encoder vocab merges tokenizer_dir
              (name_prefix ++ Py.lit "_") fs) as (_ & _ & Hraw & _).
  simpl in Hraw. rewrite <- !(assoc_L (++)) in Hraw.
  change (Py.lit "_" ++ Py.lit "vocab_raw.json")
    with (Py.lit "_vocab_raw.json") in Hraw.
  unfold fix_vocab_json, open_read. rewrite Hraw. simpl.
  rewrite fix_vocab_dump. simpl. apply verify_ids_saved.
Qed.

End MoreFix.

(** X6: [analyze_vocab] raises [ValueError] exactly when the vocabulary
    is empty, whatever the order of iteration of the dictionary is; it
    raises no other exception and never leaves through [sys.exit]. *)
Theorem analyze_vocab_raises_on_empty_only inserted_at vocab merges :
  (analyze_vocab inserted_at vocab merges = Raise ValueError ↔ vocab = ∅) ∧
  (∀ e, analyze_vocab inserted_at vocab merges = Raise e → e = ValueError) ∧
  (∀ code, analyze_vocab inserted_at vocab merges ≠ SysExit code).
Proof.
  unfold analyze_vocab. rewrite <- (longest_None inserted_at vocab).
  destruct (longest (dict_values inserted_at vocab)) as [t|]; simpl.
  - split_and!; [split; discriminate|discriminate..].
  - split_and!; [done| |discriminate]. by intros e [= <-].
Qed.

Section MoreDriver.

Context (byte_encoder : byte → N).
Context (run_train_bpe :
  gmap pystr node → pystr → Z → list bytes →
  outcome (gmap Z bytes * list (bytes * bytes))).
Context (lower : pystr → pystr) {pyfloat : Type} (elapsed_time : pyfloat)
        (peak_memory : Z).
Context (os_error : file_op → pystr → option exn).
Context (left_behind : pystr → option node → option node)
        (inserted_at : Z → nat).

Local Abbreviation driver :=
  (train_bpe_tokenizer byte_encoder run_train_bpe lower pyfloat elapsed_time
                       peak_memory os_error left_behind inserted_at).

(** X7: the only exceptions that escape [train_bpe_tokenizer] are those
    of the status check of the corpus path, before anything else is done.
    When it leaves through [sys.exit], the status is 1 unless
    [run_train_bpe] itself left with that status, no path other than the
    four output files has changed, and nothing at all has changed unless
    [run_train_bpe] had returned a non-empty vocabulary and saving it
    failed. *)
Theorem train_bpe_tokenizer_contains_failures input_path vocab_size
    special_tokens output_dir dataset_name w :
  match train_bpe_tokenizer byte_encoder run_train_bpe lower pyfloat
          elapsed_time peak_memory
          os_error left_behind inserted_at input_path vocab_size
          special_tokens output_dir dataset_name w with
  | (Return _, _) => True
  | (Raise e, w') => os_error Stat input_path = Some e ∧ w' = w
  | (SysExit code, w') =>
      (code = 1%Z ∨
       run_train_bpe (fs w) input_path vocab_size special_tokens = SysExit code) ∧
      (∀ path,
         path ∉ [ path_join output_dir
                    ((lower dataset_name ++ Py.lit "_") ++ Py.lit "vocab.json");
                  path_join output_dir
                    ((lower dataset_name ++ Py.lit "_") ++ Py.lit "merges.txt");
                  path_join output_dir
                    ((lower dataset_name ++ Py.lit "_") ++ Py.lit "vocab_raw.json");
                  path_join output_dir
                    ((lower dataset_name ++ Py.lit "_") ++ Py.lit "merges_raw.txt") ] →
         fs w' !! path = fs w !! path) ∧
      (fs w' = fs w ∨
       ∃ vocab merges e,
         run_train_bpe (fs w) input_path vocab_size special_tokens
           = Return (vocab, merges) ∧
         vocab ≠ ∅ ∧
         (os_error Mkdir output_dir = Some e ∨
          Exists (λ path, os_error WriteFile path = Some e)
            [ path_join output_dir
                ((lower dataset_name ++ Py.lit "_") ++ Py.lit "vocab.json");
              path_join output_dir
                ((lower dataset_name ++ Py.lit "_") ++ Py.lit "merges.txt");
              path_join output_dir
                ((lower dataset_name ++ Py.lit "_") ++ Py.lit "vocab_raw.json");
              path_join output_dir
                ((lower dataset_name ++ Py.lit "_") ++ Py.lit "merges_raw.txt") ]))
  end.
Proof.
  destruct (driver_cases byte_encoder run_train_bpe lower elapsed_time
              peak_memory os_error left_behind inserted_at input_path vocab_size
              special_tokens output_dir dataset_name w)
    as [(e & He & _ & ->)|[[_ ->]|(_ & _ & [(e & _ & ->)|[(code & Hc & ->)|
         [(ms & _ & ->)|(v & ms & t & Hr & Ht & Heq)]]])]]; simpl; auto.
  pose proof (save_io_cases byte_encoder os_error left_behind v ms output_dir
                (lower dataset_name ++ Py.lit "_") (fs w)) as Hsave.
  destruct (save_vocab_and_merges_io _ _ _ _ _ _ _ (fs w)) as [[[]|e|c] fs'];
    [by rewrite Heq| |done].
  rewrite Heq. simpl. destruct Hsave as [Hrefused Hframe].
  split_and!; [by left|exact Hframe|].
  right. exists v, ms, e. split_and!; [done| |done].
  intros ->. by rewrite (proj2 (longest_None inserted_at ∅)) in Ht.
Qed.

(** X8: [train_bpe_tokenizer] returns exactly when the status of the
    corpus path can be read and the path exists, [run_train_bpe] returns a
    non-empty vocabulary, and neither the creation of the output directory
    nor the writing of one of the four output files fails; it then
    returns that vocabulary and merge list, the measured time and memory
    and the decoding of the longest token, the four files are written under
    the lower-cased dataset name, and [run_train_bpe] was called once. *)
Theorem train_bpe_tokenizer_returns_iff input_path vocab_size special_tokens
    output_dir dataset_name w r w' :
  train_bpe_tokenizer byte_encoder run_train_bpe lower pyfloat elapsed_time
    peak_memory
    os_error left_behind inserted_at input_path vocab_size special_tokens
    output_dir dataset_name w
    = (Return r, w') ↔
  ∃ vocab merges t,
    os_error Stat input_path = None ∧
    fs w !! input_path ≠ None ∧
    run_train_bpe (fs w) input_path vocab_size special_tokens
      = Return (vocab, merges) ∧
    longest (dict_values inserted_at vocab) = Some t ∧
    os_error Mkdir output_dir = None ∧
    Forall (λ path, os_error WriteFile path = None)
      [ path_join output_dir
          ((lower dataset_name ++ Py.lit "_") ++ Py.lit "vocab.json");
        path_join output_dir
          ((lower dataset_name ++ Py.lit "_") ++ Py.lit "merges.txt");
        path_join output_dir
          ((lower dataset_name ++ Py.lit "_") ++ Py.lit "vocab_raw.json");
        path_join output_dir
          ((lower dataset_name ++ Py.lit "_") ++ Py.lit "merges_raw.txt") ] ∧
    r = (vocab, merges, elapsed_time, peak_memory, Py.utf8_decode t) ∧
    w' = {| fs := save_vocab_and_merges byte_encoder vocab merges output_dir
                    (lower dataset_name ++ Py.lit "_") (fs w);
            events := events w
              ++ [CallRunTrainBpe input_path vocab_size special_tokens] |}.
Proof.
  split.
  - intros Hrun.
    destruct (driver_cases byte_encoder run_train_bpe lower elapsed_time
                peak_memory
                os_error left_behind inserted_at input_path vocab_size
                special_tokens output_dir dataset_name w)
      as [(? & _ & _ & Heq)|[[_ Heq]|(Hstat & Hfs & [(? & _ & Heq)|[(? & _ & Heq)|
           [(? & _ & Heq)|(v & ms & t & Hr & Ht & Heq)]]])]];
      try (rewrite Heq in Hrun; discriminate).
    pose proof (save_io_cases byte_encoder os_error left_behind v ms output_dir
                  (lower dataset_name ++ Py.lit "_") (fs w)) as Hsave.
    destruct (save_vocab_and_merges_io _ _ _ _ _ _ _ (fs w)) as [[[]|?|?] fs'];
      [|rewrite Heq in Hrun; discriminate|done].
    destruct Hsave as (Hmk & Hopen & ->).
    rewrite Heq in Hrun. injection Hrun as <- <-.
    by exists v, ms, t.
  - intros (vocab & merges & t & Hstat & Hfs & Hr & Ht & Hmk & Hopen & -> & ->).
    assert (vocab ≠ ∅) as Hne.
    { intros ->. by rewrite (proj2 (longest_None inserted_at ∅)) in Ht. }
    destruct (train_bpe_tokenizer_succeeds byte_encoder run_train_bpe lower
                elapsed_time peak_memory
                os_error left_behind inserted_at input_path
                vocab_size special_tokens output_dir dataset_name w vocab merges
                Hstat Hfs Hr Hne Hmk Hopen) as (t' & Ht' & Heq).
    rewrite Ht in Ht'. injection Ht' as <-. exact Heq.
Qed.

Lemma driver_returned input_path vocab_size special_tokens output_dir
    dataset_name w vocab merges e m l w' :
  driver input_path vocab_size special_tokens output_dir dataset_name w
    = (Return (vocab, merges, e, m, l), w') →
  vocab ≠ ∅ ∧
  fs w' = save_vocab_and_merges byte_encoder vocab merges output_dir
            (lower dataset_name ++ Py.lit "_") (fs w).
Proof.
  intros Hrun.
  destruct (driver_cases byte_encoder run_train_bpe lower elapsed_time
              peak_memory os_error left_behind inserted_at input_path vocab_size
              special_tokens output_dir dataset_name w)
    as [(? & _ & _ & Heq)|[[_ Heq]|(_ & _ & [(? & _ & Heq)|[(? & _ & Heq)|
         [(? & _ & Heq)|(v & ms & t & Hr & Ht & Heq)]]])]];
    try (rewrite Heq in Hrun; discriminate).
  pose proof (save_io_cases byte_encoder os_error left_behind v ms output_dir
                (lower dataset_name ++ Py.lit "_") (fs w)) as Hsave.
  destruct (save_vocab_and_merges_io _ _ _ _ _ _ _ (fs w)) as [[[]|?|?] fs'];
    [|rewrite Heq in Hrun; discriminate|done].
  destruct Hsave as (_ & _ & ->).
  rewrite Heq in Hrun. injection Hrun as <- <- _ _ _ <-. split; [|done].
  intros ->. by rewrite (proj2 (longest_None inserted_at ∅)) in Ht.
Qed.

(** X9: after [train_bpe_tokenizer] has returned a vocabulary and a
    merge list without empty byte strings, [load_tokenizer] on its output
    directory, with the lower-cased dataset name followed by an underscore
    as prefix, returns that vocabulary and that merge list. *)
Theorem trained_tokenizer_loads_back key_position input_path vocab_size
    special_tokens output_dir dataset_name w vocab merges e m l w' :
  driver input_path vocab_size special_tokens output_dir dataset_name w
    = (Return (vocab, merges, e, m, l), w') →
  Forall (λ p, p.1 ≠ [] ∧ p.2 ≠ []) merges →
  load_tokenizer key_position output_dir (lower dataset_name ++ Py.lit "_")
    (fs w')
  = Return (vocab, merges).
Proof.
  intros Hrun Hne.
  apply driver_returned in Hrun as [_ ->].
  by apply load_after_save.
Qed.

End MoreDriver.

(** ** The statistics *)

Lemma foldl_max_spec l x :
  (foldl Nat.max x l = x ∨ foldl Nat.max x l ∈ l) ∧
  (x ≤ foldl Nat.max x l)%nat ∧
  ∀ y, y ∈ l → (y ≤ foldl Nat.max x l)%nat.
Proof.
  revert x. induction l as [|z l IH]; intros x; simpl.
  - split_and!; [by left|done|]. intros y Hy. by apply elem_of_nil in Hy.
  - destruct (IH (x `max` z)%nat) as (Hin & Hle & Hmax). split_and!.
    + destruct Hin as [Hin|Hin]; [|right; by constructor].
      destruct (Nat.max_spec x z) as [[_ Hm]|[_ Hm]].
      * right. rewrite Hin, Hm. constructor.
      * left. by rewrite Hin, Hm.
    + lia.
    + intros y Hy. apply elem_of_cons in Hy as [->|Hy]; [lia|by apply Hmax].
Qed.

Lemma py_max_spec l m :
  py_max l = Some m → m ∈ l ∧ ∀ y, y ∈ l → (y ≤ m)%nat.
Proof.
  destruct l as [|x l]; [done|]. simpl. intros [= <-].
  destruct (foldl_max_spec l x) as (Hin & Hle & Hmax). split.
  - destruct Hin as [->|Hin]; [constructor|by constructor].
  - intros y Hy. apply elem_of_cons in Hy as [->|Hy]; [done|by apply Hmax].
Qed.

Lemma elem_of_token_lengths vocab n :
  n ∈ token_lengths vocab ↔ ∃ k v, vocab !! k = Some v ∧ n = length v.
Proof.
  unfold token_lengths. rewrite list_elem_of_fmap. split.
  - intros ([k v] & -> & Hkv). apply elem_of_map_to_list in Hkv. by exists k, v.
  - intros (k & v & Hkv & ->). exists (k, v). split; [done|].
    by apply elem_of_map_to_list.
Qed.

Lemma token_lengths_nil vocab : token_lengths vocab = [] ↔ vocab = ∅.
Proof.
  unfold token_lengths. split.
  - intros H. apply fmap_nil_inv in H. by apply map_to_list_empty_iff.
  - intros ->. by rewrite map_to_list_empty.
Qed.

Section MoreCompare.

Context (isalnum : pystr → bool) {pyfloat : Type}.
Context (truediv : Z → Z → pyfloat) (times100 : pyfloat → pyfloat).

Local Abbreviation characteristics :=
  (analyze_tokenizer_characteristics isalnum pyfloat truediv times100).

Lemma count_tokens_bound vocab :
  let '(a, s, m) := count_tokens isalnum vocab in
  (a + s ≤ size vocab)%nat ∧ (m ≤ size vocab)%nat.
Proof.
  unfold count_tokens.
  apply (map_fold_weak_ind (λ r (v : gmap Z bytes),
    let '(a, s, m) := r in (a + s ≤ size v)%nat ∧ (m ≤ size v)%nat)).
  { rewrite map_size_empty. lia. }
  intros k t v [[a s] m] Hk [IH1 IH2]. rewrite map_size_insert_None by done.
  unfold count_token. destruct (Py.utf8_decode t) as [decoded|]; [|lia].
  destruct (isalnum decoded), (negb (isspace decoded)),
    (bool_decide (32 ∈ decoded) && (1 <? length (Py.split decoded))%nat);
    lia.
Qed.

Lemma characteristics_spec vocab merges name :
  vocab ≠ ∅ →
  ∃ s, characteristics vocab merges name = Return s ∧
       stats_vocab_size pyfloat s = size vocab ∧
       stats_num_merges pyfloat s = length merges ∧
       (∃ token_id t, vocab !! token_id = Some t ∧
          stats_max_token_length pyfloat s = length t) ∧
       (∀ token_id v, vocab !! token_id = Some v →
          (length v ≤ stats_max_token_length pyfloat s)%nat) ∧
       (stats_multi_word_count pyfloat s ≤ stats_vocab_size pyfloat s)%nat.
Proof.
  intros Hne. unfold analyze_tokenizer_characteristics.
  rewrite <- token_lengths_nil in Hne.
  destruct (token_lengths vocab) as [|x l] eqn:Hl; [done|].
  change (py_min (x :: l)) with (Some (foldl Nat.min x l)).
  destruct (py_max (x :: l)) as [mx|] eqn:Hmx; [|done].
  apply py_max_spec in Hmx as [Hin Hmax]. rewrite <- Hl in Hin, Hmax.
  pose proof (count_tokens_bound vocab) as Hc.
  destruct (count_tokens isalnum vocab) as [[a sp] m]. simpl.
  eexists. split; [reflexivity|]. simpl. split_and!; [done|done| | |lia].
  - apply elem_of_token_lengths in Hin as (k & v & Hkv & ->). by exists k, v.
  - intros k v Hkv. apply Hmax, elem_of_token_lengths. by exists k, v.
Qed.

(** X14: [analyze_tokenizer_characteristics] raises [ValueError] on an
    empty vocabulary.  On any other vocabulary it returns statistics whose
    vocabulary size and merge count are those of its arguments and whose
    maximal token length is the length of some token, no token is longer,
    and it is the length of the longest token that [analyze_vocab]
    reports, whatever the order of iteration of the dictionary is. *)
Theorem characteristics_of_a_vocabulary vocab merges name :
  (vocab = ∅ → characteristics vocab merges name = Raise ValueError) ∧
  (vocab ≠ ∅ →
   ∃ s, characteristics vocab merges name = Return s ∧
        stats_vocab_size pyfloat s = size vocab ∧
        stats_num_merges pyfloat s = length merges ∧
        (∃ token_id t, vocab !! token_id = Some t ∧
           stats_max_token_length pyfloat s = length t) ∧
        (∀ token_id v, vocab !! token_id = Some v →
           (length v ≤ stats_max_token_length pyfloat s)%nat) ∧
        (∀ inserted_at t,
           longest (dict_values inserted_at vocab) = Some t →
           stats_max_token_length pyfloat s = length t)).
Proof.
  split.
  - intros ->. reflexivity.
  - intros Hne.
    destruct (characteristics_spec vocab merges name Hne)
      as (s & Hs & H1 & H2 & (k & t & Hk & Ht) & Hmax & _).
    exists s. split_and!; eauto.
    intros inserted_at t' Ht'.
    pose proof (longest_spec inserted_at vocab) as Hl. rewrite Ht' in Hl.
    destruct Hl as [[k' Hk'] Hmax']. apply Nat.le_antisymm.
    + rewrite Ht. eauto.
    + eauto.
Qed.

(** X15: in the statistics that [analyze_tokenizer_characteristics]
    returns, the multi-word count is the one the character type loop
    computes and is at most the vocabulary size; the alphanumeric and the
    special-character tokens that the loop counts are together at most
    the vocabulary size, since no token is counted as both. *)
Theorem token_counts_are_bounded vocab merges name s :
  characteristics vocab merges name = Return s →
  (stats_multi_word_count pyfloat s ≤ stats_vocab_size pyfloat s)%nat ∧
  let '(alphanumeric_count, special_char_count, multi_word_count) :=
    count_tokens isalnum vocab in
  stats_multi_word_count pyfloat s = multi_word_count ∧
  (alphanumeric_count + special_char_count ≤ size vocab)%nat.
Proof.
  intros Hs. destruct (decide (vocab = ∅)) as [->|Hne]; [done|].
  destruct (characteristics_spec vocab merges name Hne) as (s' & Hs' & H).
  rewrite Hs in Hs'. injection Hs' as <-. split; [apply H|].
  pose proof (count_tokens_bound vocab) as Hc. revert Hs.
  unfold analyze_tokenizer_characteristics.
  destruct (py_min _); [|done]. destruct (py_max _); [|done]. simpl.
  destruct (count_tokens isalnum vocab) as [[a sp] m].
  intros [= <-]. simpl. split; [done|apply Hc].
Qed.

End MoreCompare.

(** ** The scripts, one after the other *)

Lemma tinystories_dir_eq :
  Py.lit "/home/lifans/cs336/cs336-assignment1-basics/tokenizer_output/tinystories"
  = tinystories_dir.
Proof. reflexivity. Qed.

Lemma openwebtext_dir_eq :
  Py.lit "/home/lifans/cs336/cs336-assignment1-basics/tokenizer_output/openwebtext"
  = openwebtext_dir.
Proof. reflexivity. Qed.

(** [load_tokenizer] reads two files and nothing else. *)
Lemma load_tokenizer_ext key_position dir prefix fs fs' :
  fs' !! path_join dir (prefix ++ Py.lit "vocab_raw.json")
    = fs !! path_join dir (prefix ++ Py.lit "vocab_raw.json") →
  fs' !! path_join dir (prefix ++ Py.lit "merges_raw.txt")
    = fs !! path_join dir (prefix ++ Py.lit "merges_raw.txt") →
  load_tokenizer key_position dir prefix fs'
  = load_tokenizer key_position dir prefix fs.
Proof. intros H1 H2. unfold load_tokenizer, open_read. by rewrite H1, H2. Qed.

(** The files of the two tokenizers do not overlap. *)
Lemma script_paths_distinct a b :
  path_join tinystories_dir (Py.lit "tinystories_" ++ a)
  ≠ path_join openwebtext_dir (Py.lit "openwebtext_" ++ b).
Proof.
  intros H. apply (f_equal (λ l, l !! 62%nat)) in H. by vm_compute in H.
Qed.

Section MoreScripts.

Context (byte_encoder : byte → N).
Context (run_train_bpe :
  gmap pystr node → pystr → Z → list bytes →
  outcome (gmap Z bytes * list (bytes * bytes))).
Context (lower : pystr → pystr) {pyfloat : Type} (elapsed_time : pyfloat)
        (peak_memory : Z).
Context (os_error : file_op → pystr → option exn).
Context (left_behind : pystr → option node → option node)
        (inserted_at : Z → nat).
Context (isalnum : pystr → bool) (truediv : Z → Z → pyfloat)
        (times100 : pyfloat → pyfloat).

(** X16: when the OpenWebText corpus exists, [run_train_bpe] returns a
    non-empty vocabulary and the output files are written, the script
    of [train_bpe_expts_owt.py] has written the tokenizer files under the
    [openwebtext] directory, and it then runs to its end if the longest
    token, the first of maximal length in the order of iteration of the
    vocabulary, is valid UTF-8, and stops on an [AttributeError] ([None]
    has no [encode]) if it is not. *)
Theorem owt_script_needs_a_decodable_token w vocab merges t :
  os_error Stat owt_input = None →
  fs w !! owt_input ≠ None →
  run_train_bpe (fs w) owt_input 32000 [endoftext] = Return (vocab, merges) →
  longest (dict_values inserted_at vocab) = Some t →
  os_error Mkdir openwebtext_dir = None →
  Forall (λ path, os_error WriteFile path = None)
    [ path_join openwebtext_dir
        ((lower (Py.lit "OpenWebText") ++ Py.lit "_") ++ Py.lit "vocab.json");
      path_join openwebtext_dir
        ((lower (Py.lit "OpenWebText") ++ Py.lit "_") ++ Py.lit "merges.txt");
      path_join openwebtext_dir
        ((lower (Py.lit "OpenWebText") ++ Py.lit "_") ++ Py.lit "vocab_raw.json");
      path_join openwebtext_dir
        ((lower (Py.lit "OpenWebText") ++ Py.lit "_") ++ Py.lit "merges_raw.txt") ] →
  train_bpe_expts_owt_main byte_encoder run_train_bpe lower pyfloat elapsed_time
    peak_memory os_error left_behind inserted_at w
  = (match Py.utf8_decode t with
     | Some _ => ScriptDone
     | None => ScriptAttributeError
     end,
     {| fs := save_vocab_and_merges byte_encoder vocab merges openwebtext_dir
                (lower (Py.lit "OpenWebText") ++ Py.lit "_") (fs w);
        events := events w ++ [CallRunTrainBpe owt_input 32000 [endoftext]] |}).
Proof.
  intros Hstat Hfs Hrun Hl Hmk Hopen.
  assert (vocab ≠ ∅) as Hne.
  { intros ->. by rewrite (proj2 (longest_None inserted_at ∅)) in Hl. }
  unfold train_bpe_expts_owt_main, train_bpe_expts_owt.
  rewrite openwebtext_dir_eq.
  destruct (train_bpe_tokenizer_succeeds byte_encoder run_train_bpe lower
              elapsed_time peak_memory
              os_error left_behind inserted_at owt_input 32000%Z
              [endoftext] openwebtext_dir (Py.lit "OpenWebText") w vocab merges
              Hstat Hfs Hrun Hne Hmk Hopen) as (t' & Ht' & ->).
  rewrite Hl in Ht'. injection Ht' as <-.
  by destruct (Py.utf8_decode t).
Qed.

(** X17: when the two training scripts have run one after the other and
    both calls of [train_bpe_tokenizer] returned, with merge lists free of
    empty byte strings, then on the file system they leave the two
    [load_tokenizer] calls of the script of [compare_tokenizers.py] return
    exactly the two trained tokenizers, and the comparison script runs to
    its end.  [str.lower] is a parameter, used on the two dataset
    names. *)
Theorem comparison_reads_what_training_wrote key_position w w1 w2
    vocab1 merges1 e1 m1 l1 vocab2 merges2 e2 m2 l2 :
  lower (Py.lit "TinyStories") = Py.lit "tinystories" →
  lower (Py.lit "OpenWebText") = Py.lit "openwebtext" →
  train_bpe_tinystories byte_encoder run_train_bpe lower pyfloat elapsed_time
    peak_memory os_error left_behind inserted_at w
    = (Return (vocab1, merges1, e1, m1, l1), w1) →
  train_bpe_expts_owt byte_encoder run_train_bpe lower pyfloat elapsed_time
    peak_memory os_error left_behind inserted_at w1
    = (Return (vocab2, merges2, e2, m2, l2), w2) →
  Forall (λ p, p.1 ≠ [] ∧ p.2 ≠ []) merges1 →
  Forall (λ p, p.1 ≠ [] ∧ p.2 ≠ []) merges2 →
  load_tokenizer key_position tinystories_dir (Py.lit "tinystories_") (fs w2)
    = Return (vocab1, merges1) ∧
  load_tokenizer key_position openwebtext_dir (Py.lit "openwebtext_") (fs w2)
    = Return (vocab2, merges2) ∧
  compare_tokenizers_main isalnum pyfloat truediv times100 key_position (fs w2)
    = Return ().
Proof.
  intros Hlow1 Hlow2 Hrun1 Hrun2 Hne1 Hne2.
  unfold train_bpe_tinystories in Hrun1. unfold train_bpe_expts_owt in Hrun2.
  rewrite tinystories_dir_eq in Hrun1. rewrite openwebtext_dir_eq in Hrun2.
  apply driver_returned in Hrun1 as [Hv1 Hfs1].
  apply driver_returned in Hrun2 as [Hv2 Hfs2].
  rewrite Hfs2, Hfs1, Hlow1, Hlow2.
  assert (load_tokenizer key_position tinystories_dir (Py.lit "tinystories_")
            (save_vocab_and_merges byte_encoder vocab2 merges2 openwebtext_dir
               (Py.lit "openwebtext" ++ Py.lit "_")
               (save_vocab_and_merges byte_encoder vocab1 merges1 tinystories_dir
                  (Py.lit "tinystories" ++ Py.lit "_") (fs w)))
          = Return (vocab1, merges1)) as Hload1.
  { rewrite <- (load_after_save byte_encoder key_position vocab1 merges1
                  tinystories_dir
                  (Py.lit "tinystories_") (fs w)) by done.
    apply load_tokenizer_ext; apply save_other;
      apply (script_paths_distinct _ (Py.lit _)). }
  assert (load_tokenizer key_position openwebtext_dir (Py.lit "openwebtext_")
            (save_vocab_and_merges byte_encoder vocab2 merges2 openwebtext_dir
               (Py.lit "openwebtext" ++ Py.lit "_")
               (save_vocab_and_merges byte_encoder vocab1 merges1 tinystories_dir
                  (Py.lit "tinystories" ++ Py.lit "_") (fs w)))
          = Return (vocab2, merges2)) as Hload2.
  { by apply (load_after_save byte_encoder key_position vocab2 merges2
                openwebtext_dir
                (Py.lit "openwebtext_")). }
  split_and!; [done..|].
  unfold compare_tokenizers_main. fold tinystories_dir openwebtext_dir.
  rewrite Hload1, Hload2.
  destruct (characteristics_spec isalnum truediv times100 vocab1 merges1
              (Py.lit "TinyStories") Hv1) as (s1 & -> & _).
  destruct (characteristics_spec isalnum truediv times100 vocab2 merges2
              (Py.lit "OpenWebText") Hv2) as (s2 & -> & _).
  reflexivity.
Qed.

End MoreScripts.

(** ** How the loaders and the comparison fail *)

Lemma load_vocab_fails position vocab_hex :
  value_error_only (load_vocab position vocab_hex).
Proof.
  unfold load_vocab.
  induction (json_items position vocab_hex) as [|kv l IH] using rev_ind;
    [done|].
  rewrite foldl_snoc. destruct (foldl _ _ l) as [g|e|c]; simpl in *; [|done..].
  destruct (Py.int kv.1); simpl; [|done]. by destruct (Py.fromhex kv.2).
Qed.

Lemma load_merge_line_fails line : value_error_only (load_merge_line line).
Proof.
  unfold load_merge_line. destruct (Py.strip line) as [|c l]; [done|].
  destruct (Py.split (c :: l)) as [|f1 [|f2 [|]]]; try done.
  destruct (Py.fromhex f1); simpl; [|done]. by destruct (Py.fromhex f2).
Qed.

Lemma load_merges_fails ls acc : value_error_only (load_merges acc ls).
Proof.
  revert acc. induction ls as [|line ls IH]; intros acc; simpl; [done|].
  pose proof (load_merge_line_fails line) as Hl.
  destruct (load_merge_line line) as [r|e|c]; simpl in *; [apply IH|done..].
Qed.

(** [load_tokenizer] reports a file as not found only when one of its two
    files is missing, and it never leaves through [sys.exit]. *)
Lemma load_tokenizer_fails key_position dir prefix fs :
  match load_tokenizer key_position dir prefix fs with
  | Return _ => True
  | Raise FileNotFoundError =>
      fs !! path_join dir (prefix ++ Py.lit "vocab_raw.json") = None ∨
      fs !! path_join dir (prefix ++ Py.lit "merges_raw.txt") = None
  | Raise _ => True
  | SysExit _ => False
  end.
Proof.
  unfold load_tokenizer, open_read.
  destruct (fs !! path_join dir (prefix ++ Py.lit "vocab_raw.json"))
    as [[| | |o]|]; simpl; auto.
  pose proof (load_vocab_fails
    (key_position (path_join dir (prefix ++ Py.lit "vocab_raw.json"))) o)
    as Hv.
  destruct (load_vocab _ o) as [v|e|c]; simpl in *; [|by subst|done].
  destruct (fs !! path_join dir (prefix ++ Py.lit "merges_raw.txt"))
    as [[| |s|]|]; simpl; auto.
  pose proof (load_merges_fails (Py.lines (Py.universal_newlines s)) [])
    as Hm.
  destruct (load_merges [] (Py.lines (Py.universal_newlines s)))
    as [ms|e|c]; simpl in *;
    [done|by subst|done].
Qed.

Lemma load_tokenizer_missing key_position dir prefix fs :
  fs !! path_join dir (prefix ++ Py.lit "vocab_raw.json") = None →
  load_tokenizer key_position dir prefix fs = Raise FileNotFoundError.
Proof. intros H. unfold load_tokenizer, open_read. by rewrite H. Qed.

Section MoreCompare2.

Context (isalnum : pystr → bool) {pyfloat : Type}.
Context (truediv : Z → Z → pyfloat) (times100 : pyfloat → pyfloat).

Lemma characteristics_fails vocab merges name :
  value_error_only
    (analyze_tokenizer_characteristics isalnum pyfloat truediv times100
       vocab merges name).
Proof.
  unfold analyze_tokenizer_characteristics.
  destruct (py_min _); simpl; [|done]. destruct (py_max _); simpl; [|done].
  by destruct (count_tokens isalnum vocab) as [[??]?].
Qed.

(** X18: the script of [compare_tokenizers.py] leaves with exit status
    1 when the raw vocabulary file of the TinyStories tokenizer is
    missing; whenever it leaves through [exit], the status is 1 and one of
    the four raw files it reads is missing; and no [FileNotFoundError]
    escapes it. *)
Theorem comparison_exit_means_missing_file key_position fs :
  (fs !! path_join tinystories_dir (Py.lit "tinystories_" ++ Py.lit "vocab_raw.json")
     = None →
   compare_tokenizers_main isalnum pyfloat truediv times100 key_position fs = SysExit 1) ∧
  (∀ code,
     compare_tokenizers_main isalnum pyfloat truediv times100 key_position fs = SysExit code →
     code = 1%Z ∧
     ∃ path,
       path ∈ [ path_join tinystories_dir
                  (Py.lit "tinystories_" ++ Py.lit "vocab_raw.json");
                path_join tinystories_dir
                  (Py.lit "tinystories_" ++ Py.lit "merges_raw.txt");
                path_join openwebtext_dir
                  (Py.lit "openwebtext_" ++ Py.lit "vocab_raw.json");
                path_join openwebtext_dir
                  (Py.lit "openwebtext_" ++ Py.lit "merges_raw.txt") ] ∧
       fs !! path = None) ∧
  (∀ e,
     compare_tokenizers_main isalnum pyfloat truediv times100 key_position fs = Raise e →
     e ≠ FileNotFoundError).
Proof.
  unfold compare_tokenizers_main. fold tinystories_dir openwebtext_dir.
  split_and!.
  - intros H. by rewrite (load_tokenizer_missing _ _ _ _ H).
  - intros code.
    pose proof (load_tokenizer_fails key_position tinystories_dir
                  (Py.lit "tinystories_") fs)
      as H1.
    pose proof (load_tokenizer_fails key_position openwebtext_dir
                  (Py.lit "openwebtext_") fs)
      as H2.
    destruct (load_tokenizer _ tinystories_dir (Py.lit "tinystories_") fs)
      as [[v1 m1]|[]|c1]; try done.
    + destruct (load_tokenizer _ openwebtext_dir (Py.lit "openwebtext_") fs)
        as [[v2 m2]|[]|c2]; try done.
      * pose proof (characteristics_fails v1 m1 (Py.lit "TinyStories")) as C1.
        pose proof (characteristics_fails v2 m2 (Py.lit "OpenWebText")) as C2.
        destruct (analyze_tokenizer_characteristics _ _ _ _ v1 _ _); try done.
        destruct (analyze_tokenizer_characteristics _ _ _ _ v2 _ _); try done.
      * intros [= <-]. split; [done|].
        destruct H2 as [H2|H2]; eexists; (split; [|exact H2]); set_solver.
    + intros [= <-]. split; [done|].
      destruct H1 as [H1|H1]; eexists; (split; [|exact H1]); set_solver.
  - intros e.
    destruct (load_tokenizer _ tinystories_dir (Py.lit "tinystories_") fs)
      as [[v1 m1]|[]|c1]; try done; try (by intros [= <-]).
    destruct (load_tokenizer _ openwebtext_dir (Py.lit "openwebtext_") fs)
      as [[v2 m2]|[]|c2]; try done; try (by intros [= <-]).
    pose proof (characteristics_fails v1 m1 (Py.lit "TinyStories")) as C1.
    pose proof (characteristics_fails v2 m2 (Py.lit "OpenWebText")) as C2.
    destruct (analyze_tokenizer_characteristics _ _ _ _ v1 _ _);
      simpl in *; [|by intros [= <-]; subst|done].
    destruct (analyze_tokenizer_characteristics _ _ _ _ v2 _ _);
      simpl in *; [done|by intros [= <-]; subst|done].
Qed.

End MoreCompare2.

(** ** Concrete runs *)

(** The two sides of an equation evaluate to the same value. *)
Ltac evaluated :=
  lazymatch goal with |- _ = ?r => vm_cast_no_check (@eq_refl _ r) end.

Example ex_run :
  run_train_bpe one_pretoken 1 ex_fs ex_path 259 [] = Return (ex_vocab, ex_merges).
Proof. vm_compute. reflexivity. Qed.

(** The concrete scenarios of the specification, on the model: a corpus
    made of special tokens only, a vocabulary size of 256, and a tie
    between two pairs of equal frequency. *)
Example scenario_special_tokens_only :
  merges_of (run_train_bpe one_pretoken 1
               {[ ex_path := RawFile (list_byte_of_string "<e><e><e>") ]}
               ex_path 300 [list_byte_of_string "<e>"])
  = Some (257%nat, []).
Proof. vm_compute. reflexivity. Qed.

Example scenario_vocab_size_256 :
  merges_of (run_train_bpe one_pretoken 1 ex_fs ex_path 256 []) = Some (256%nat, []).
Proof. vm_compute. reflexivity. Qed.

Example scenario_tie_break :
  merges_of (run_train_bpe one_pretoken 1
               {[ ex_path := RawFile (list_byte_of_string "xyx") ]}
               ex_path 257 [])
  = Some (257%nat, [(["y"], ["x"])]%byte).
Proof. vm_compute. reflexivity. Qed.

Lemma vocabulary_size_invariant_witness :
  size ex_vocab = (256 + 0 + length ex_merges)%nat ∧
  (Z.of_nat (length ex_merges) ≤ 259 - 256 - Z.of_nat 0)%Z.
Proof.
  apply (proj2 (proj2 (vocabulary_size_invariant one_pretoken 1))
           ex_fs ex_path 259%Z []).
  vm_compute. reflexivity.
Defined.

Lemma training_is_deterministic_witness :
  Return (ex_vocab, ex_merges) = Return (ex_vocab, ex_merges) ∧
  Return (ex_vocab, ex_merges)
  = run_train_bpe one_pretoken 1 ex_fs ex_path 259 [].
Proof.
  assert (trains one_pretoken 1 ex_fs ex_path 259 [] (Return (ex_vocab, ex_merges)))
    as H.
  { replace (Return (ex_vocab, ex_merges))
      with (run_train_bpe one_pretoken 1 ex_fs ex_path 259 [])
      by (vm_compute; reflexivity).
    apply run_train_bpe_trains. }
  exact (training_is_deterministic one_pretoken 1 ex_fs ex_path 259%Z [] _ _ H H).
Defined.

Lemma merges_file_format_witness :
  ∃ content,
    save_vocab_and_merges gpt2_bytes_to_unicode ex_vocab ex_merges ex_dir [] ∅
      !! path_join ex_dir ([] ++ Py.lit "merges.txt") = Some (TextFile content) ∧
    content
    = Py.lit "#version: 0.2" ++ [10]
      ++ concat ((λ m, (gpt2_bytes_to_unicode <$> m.1) ++ [32]
                       ++ (gpt2_bytes_to_unicode <$> m.2) ++ [10])
                   <$> ex_merges) ∧
    Py.lines content
    = (Py.lit "#version: 0.2" ++ [10])
        :: ((λ m, (gpt2_bytes_to_unicode <$> m.1) ++ [32]
                  ++ (gpt2_bytes_to_unicode <$> m.2) ++ [10])
              <$> ex_merges) ∧
    read_lines (TextFile content)
    = Return ((Py.lit "#version: 0.2" ++ [10])
                :: ((λ m, (gpt2_bytes_to_unicode <$> m.1) ++ [32]
                          ++ (gpt2_bytes_to_unicode <$> m.2) ++ [10])
                      <$> ex_merges)) ∧
    length (Py.lines content) = S (length ex_merges).
Proof.
  exact (merges_file_format gpt2_bytes_to_unicode gpt2_table_printable
           ex_vocab ex_merges ex_dir [] ∅).
Defined.

Lemma vocab_json_lossless_witness :
  ∃ vocab_gpt2,
    save_vocab_and_merges gpt2_bytes_to_unicode ex_small_vocab ex_merges ex_dir [] ∅
      !! path_join ex_dir ([] ++ Py.lit "vocab.json") = Some (JsonFile vocab_gpt2) ∧
    (∀ token_id, vocab_gpt2 !! Py.str token_id
       = encode_token gpt2_bytes_to_unicode <$> ex_small_vocab !! token_id) ∧
    (∀ key s, vocab_gpt2 !! key = Some s →
       (∃ token_id, key = Py.str token_id) ∧
       Forall (λ c, printable c = true) s) ∧
    (∀ vocab', vocab_gpt2_of gpt2_bytes_to_unicode vocab' = vocab_gpt2 →
       vocab' = ex_small_vocab).
Proof.
  exact (vocab_json_lossless gpt2_bytes_to_unicode gpt2_table_inj
           gpt2_table_printable ex_small_vocab ex_merges ex_dir [] ∅).
Defined.

Lemma raw_round_trip_witness :
  load_tokenizer by_first ex_dir []
    (save_vocab_and_merges gpt2_bytes_to_unicode ex_small_vocab ex_merges ex_dir [] ∅)
  = Return (ex_small_vocab, ex_merges).
Proof.
  apply (raw_round_trip gpt2_bytes_to_unicode).
  repeat constructor; discriminate.
Defined.

(** C5, counterexample: a merge of two empty byte strings is dropped by
    [load_tokenizer], and a merge with one empty byte string makes it
    raise. *)
Lemma raw_round_trip_counterexample :
  load_tokenizer by_first ex_dir []
    (save_vocab_and_merges gpt2_bytes_to_unicode ∅ [([], [])] ex_dir [] ∅)
  = Return (∅, []) ∧
  load_tokenizer by_first ex_dir []
    (save_vocab_and_merges gpt2_bytes_to_unicode ∅ [([], ["a"]%byte)] ex_dir [] ∅)
  = Raise ValueError.
Proof. split; vm_compute; reflexivity. Qed.

(** C8: the raw vocabulary file is there, [vocab.json] is not. *)
Lemma fix_vocab_json_agrees_witness :
  ∃ vocab_gpt2,
    (fix_vocab_json gpt2_bytes_to_unicode ex_dir (Py.lit "tiny")
       (delete (path_join ex_dir (Py.lit "tiny_vocab.json"))
          (save_vocab_and_merges gpt2_bytes_to_unicode ex_small_vocab ex_merges
             ex_dir (Py.lit "tiny" ++ Py.lit "_") ∅))).2
      !! path_join ex_dir (Py.lit "tiny" ++ Py.lit "_vocab.json")
    = Some (JsonFile vocab_gpt2) ∧
    save_vocab_and_merges gpt2_bytes_to_unicode ex_small_vocab ex_merges ex_dir
      (Py.lit "tiny" ++ Py.lit "_") ∅
      !! path_join ex_dir (Py.lit "tiny" ++ Py.lit "_vocab.json")
    = Some (JsonFile vocab_gpt2) ∧
    fix_vocab gpt2_bytes_to_unicode
      (json_dump_int_keys (vocab_serializable ex_small_vocab))
    = Return vocab_gpt2 ∧
    dom vocab_gpt2 =@{gset pystr} set_map Py.str (dom ex_small_vocab) ∧
    (∀ token_id,
       vocab_gpt2 !! Py.str token_id
       = (λ token_bytes, gpt2_bytes_to_unicode <$> token_bytes)
           <$> ex_small_vocab !! token_id).
Proof.
  apply (fix_vocab_json_agrees gpt2_bytes_to_unicode ex_small_vocab ex_merges
           ex_dir (Py.lit "tiny") ∅
           (delete (path_join ex_dir (Py.lit "tiny_vocab.json"))
              (save_vocab_and_merges gpt2_bytes_to_unicode ex_small_vocab
                 ex_merges ex_dir (Py.lit "tiny" ++ Py.lit "_") ∅))).
  evaluated.
Defined.

Example fix_vocab_json_writes_missing_file :
  delete (path_join ex_dir (Py.lit "tiny_vocab.json"))
    (save_vocab_and_merges gpt2_bytes_to_unicode ex_small_vocab ex_merges
       ex_dir (Py.lit "tiny" ++ Py.lit "_") ∅)
    !! path_join ex_dir (Py.lit "tiny_vocab.json") = None.
Proof. evaluated. Qed.



Lemma corpus_errors_are_fatal_witness :
  train_bpe_tokenizer gpt2_bytes_to_unicode (run_train_bpe one_pretoken 1) id
    Z 0%Z 0%Z os_ok left_as_is by_id (Py.lit "missing.txt") 259 [] ex_dir (Py.lit "Tiny")
    ex_world
  = (SysExit 1,
     {| fs := fs ex_world;
        events := events ex_world ++ [PrintInputNotFound (Py.lit "missing.txt")] |}) ∧
  train_bpe_tokenizer gpt2_bytes_to_unicode (run_train_bpe one_pretoken 1) id
    Z 0%Z 0%Z os_no_stat left_as_is by_id ex_path 259 [] ex_dir (Py.lit "Tiny") ex_world
  = (if ignored_by_exists PermissionError
     then (SysExit 1,
           {| fs := fs ex_world;
              events := events ex_world ++ [PrintInputNotFound ex_path] |})
     else (Raise PermissionError, ex_world)) ∧
  ∃ e,
    run_train_bpe one_pretoken 1 (fs ex_unreadable) ex_path 259 [] = Raise e ∧
    (e = ConfigurationError ∨ e = InputError) ∧
    train_bpe_tokenizer gpt2_bytes_to_unicode (run_train_bpe one_pretoken 1) id
      Z 0%Z 0%Z os_ok left_as_is by_id ex_path 259 [] ex_dir (Py.lit "Tiny") ex_unreadable
    = (SysExit 1,
       {| fs := fs ex_unreadable;
          events := events ex_unreadable
            ++ [CallRunTrainBpe ex_path 259 []; PrintTrainingError e] |}).
Proof.
  split_and!.
  - apply (proj1 (corpus_errors_are_fatal one_pretoken 1 gpt2_bytes_to_unicode
             id 0%Z 0%Z os_ok left_as_is by_id (Py.lit "missing.txt") 259%Z [] ex_dir
             (Py.lit "Tiny") ex_world)); reflexivity.
  - apply (proj1 (proj2 (corpus_errors_are_fatal one_pretoken 1
             gpt2_bytes_to_unicode id 0%Z 0%Z os_no_stat left_as_is by_id ex_path 259%Z []
             ex_dir (Py.lit "Tiny") ex_world))). reflexivity.
  - apply (proj2 (proj2 (corpus_errors_are_fatal one_pretoken 1
             gpt2_bytes_to_unicode id 0%Z 0%Z os_ok left_as_is by_id ex_path 259%Z []
             ex_dir (Py.lit "Tiny") ex_unreadable))); reflexivity.
Defined.

(** C7, counterexample: the corpus exists and cannot be opened for
    reading; the training entry point is called all the same. *)
Lemma unreadable_corpus_counterexample :
  open_read ex_path (fs ex_unreadable) = Raise PermissionError ∧
  events (train_bpe_tokenizer gpt2_bytes_to_unicode (run_train_bpe one_pretoken 1)
            id Z 0%Z 0%Z os_ok left_as_is by_id ex_path 259 [] ex_dir (Py.lit "Tiny")
            ex_unreadable).2
  = [CallRunTrainBpe ex_path 259 []; PrintTrainingError InputError].
Proof. split; vm_compute; reflexivity. Qed.

(** The corpus lies where its status cannot be read: the exception of
    [Path.exists] escapes, and the training entry point is not called. *)
Example corpus_status_refused :
  train_bpe_tokenizer gpt2_bytes_to_unicode (run_train_bpe one_pretoken 1) id
    Z 0%Z 0%Z os_no_stat left_as_is by_id ex_path 259 [] ex_dir (Py.lit "Tiny") ex_world
  = (Raise PermissionError, ex_world).
Proof. vm_compute. reflexivity. Qed.

(** The output directory cannot be created: the failure of saving ends in
    [sys.exit(1)], after the training entry point has returned. *)
Example output_directory_refused :
  train_bpe_tokenizer gpt2_bytes_to_unicode ex_trainer id Z 0%Z 0%Z os_no_mkdir left_as_is
    by_id ex_path 259 [] ex_dir (Py.lit "Tiny") ex_world
  = (SysExit 1,
     {| fs := fs ex_world;
        events := [CallRunTrainBpe ex_path 259 [];
                   PrintTrainingError FileExistsError] |}).
Proof. vm_compute. reflexivity. Qed.

(** The disk fills up while [tiny_merges.txt] is written: [tiny_vocab.json]
    has been written, the merges file is left empty, the raw files are not
    written, and the failure ends in [sys.exit(1)]. *)
Example disk_full_while_saving :
  let r :=
    train_bpe_tokenizer gpt2_bytes_to_unicode ex_trainer ascii_lower Z 0%Z 0%Z
      os_disk_full left_empty by_id ex_path 259 [] ex_dir (Py.lit "Tiny")
      ex_world in
  r.1 = SysExit 1 ∧
  events r.2
  = [CallRunTrainBpe ex_path 259 []; PrintTrainingError (OSError 28)] ∧
  fs r.2 !! path_join ex_dir (Py.lit "tiny_vocab.json")
  = Some (JsonFile (vocab_gpt2_of gpt2_bytes_to_unicode ex_small_vocab)) ∧
  fs r.2 !! path_join ex_dir (Py.lit "tiny_merges.txt") = Some (TextFile []) ∧
  fs r.2 !! path_join ex_dir (Py.lit "tiny_vocab_raw.json") = None.
Proof. vm_compute. repeat split. Qed.

(** Two tokens of maximal length: the one that entered the dictionary
    first is picked. *)
Example longest_of_a_tie :
  longest (dict_values by_id ex_tie_vocab) = Some [xff]%byte ∧
  longest (dict_values by_id_reversed ex_tie_vocab) = Some ["c"]%byte ∧
  analyze_vocab by_id ex_tie_vocab [] = Return None ∧
  analyze_vocab by_id_reversed ex_tie_vocab [] = Return (Some [99]).
Proof. split_and!; reflexivity. Qed.

Lemma analyze_vocab_longest_decoded_witness :
  (∃ token_id t,
     ex_tie_vocab !! token_id = Some t ∧
     (∀ token_id' v, ex_tie_vocab !! token_id' = Some v →
        (length v ≤ length t)%nat) ∧
     (∀ token_id' v, ex_tie_vocab !! token_id' = Some v → length v = length t →
        (by_id token_id ≤ by_id token_id')%nat) ∧
     analyze_vocab by_id ex_tie_vocab [] = Return (Py.utf8_decode t)) ∧
  (∃ longest_token_decoded w',
     analyze_vocab by_id ex_small_vocab ex_merges = Return longest_token_decoded ∧
     train_bpe_tokenizer gpt2_bytes_to_unicode ex_trainer id Z 0%Z 0%Z os_ok left_as_is
       by_id ex_path 259 [] ex_dir (Py.lit "Tiny") ex_world
     = (Return (ex_small_vocab, ex_merges, 0%Z, 0%Z, longest_token_decoded), w')).
Proof.
  split.
  - apply (proj1 (analyze_vocab_longest_decoded gpt2_bytes_to_unicode ex_trainer
             id 0%Z 0%Z os_ok left_as_is by_id)).
    apply insert_non_empty.
  - apply (proj1 (proj2 (analyze_vocab_longest_decoded gpt2_bytes_to_unicode
             ex_trainer id 0%Z 0%Z os_ok left_as_is by_id))).
    + reflexivity.
    + vm_compute. discriminate.
    + reflexivity.
    + apply insert_non_empty.
    + reflexivity.
    + repeat constructor.
Defined.

Example analyze_small :
  analyze_vocab by_id ex_small_vocab [] = Return (Some [233]).
Proof. reflexivity. Qed.

(** [int] as the loader uses it on the keys of the raw vocabulary. *)
Example int_of_keys :
  Py.int (Py.lit " 1_0 ") = Some 10%Z ∧ Py.int [1633; 1632] = Some 10%Z ∧
  Py.int (Py.lit "-07") = Some (-7)%Z ∧ Py.int (Py.lit "1__0") = None ∧
  Py.int (Py.lit "_1") = None ∧ Py.int (Py.lit "1_") = None ∧
  Py.int [28; 49] = None ∧ Py.int [160; 49] = Some 1%Z ∧
  Py.int (Py.lit "- 1") = None ∧ Py.int (Py.lit "+1") = Some 1%Z ∧
  Py.int [] = None.
Proof. repeat split. Qed.

(** Files written by hand: of two keys for the same integer the later one
    of the file stays, and a carriage return ends a line. *)
Example load_by_hand :
  load_tokenizer by_first ex_dir [] ex_hand_fs
  = Return ({[ 10%Z := ["b"]%byte ]},
            [(["a"], ["b"]); (["a"; "a"], ["b"])]%byte) ∧
  load_tokenizer by_first_reversed ex_dir [] ex_hand_fs
  = Return ({[ 10%Z := ["a"]%byte ]},
            [(["a"], ["b"]); (["a"; "a"], ["b"])]%byte).
Proof. split; vm_compute; reflexivity. Qed.

Lemma loaded_merges_are_nonempty_witness :
  Forall (λ m : bytes * bytes, m.1 ≠ [] ∧ m.2 ≠ [])
         [(["a"], ["b"]); (["a"; "a"], ["b"])]%byte.
Proof.
  apply (loaded_merges_are_nonempty by_first ex_dir [] ex_hand_fs
           {[ 10%Z := ["b"]%byte ]}).
  evaluated.
Defined.

Lemma load_save_load_witness :
  load_tokenizer by_first (Py.lit "copy") (Py.lit "b_")
    (save_vocab_and_merges gpt2_bytes_to_unicode {[ 10%Z := ["b"]%byte ]}
       [(["a"], ["b"]); (["a"; "a"], ["b"])]%byte
       (Py.lit "copy") (Py.lit "b_") ex_fs)
  = Return ({[ 10%Z := ["b"]%byte ]},
            [(["a"], ["b"]); (["a"; "a"], ["b"])]%byte).
Proof.
  apply (load_save_load gpt2_bytes_to_unicode by_first ex_dir [] ex_hand_fs).
  evaluated.
Defined.

Lemma trained_tokenizer_loads_back_witness :
  load_tokenizer by_first ex_dir (ascii_lower (Py.lit "Tiny") ++ Py.lit "_")
    (save_vocab_and_merges gpt2_bytes_to_unicode ex_small_vocab ex_merges ex_dir
       (ascii_lower (Py.lit "Tiny") ++ Py.lit "_") ex_fs)
  = Return (ex_small_vocab, ex_merges).
Proof.
  apply (trained_tokenizer_loads_back gpt2_bytes_to_unicode ex_trainer
           ascii_lower 0%Z 0%Z os_ok left_as_is by_id by_first ex_path 259%Z [] ex_dir
           (Py.lit "Tiny") ex_world ex_small_vocab ex_merges 0%Z 0%Z (Some [233])
           (World (save_vocab_and_merges gpt2_bytes_to_unicode ex_small_vocab
                     ex_merges ex_dir (ascii_lower (Py.lit "Tiny") ++ Py.lit "_")
                     ex_fs)
                  [CallRunTrainBpe ex_path 259 []])).
  - evaluated.
  - repeat constructor; discriminate.
Defined.

Lemma token_counts_are_bounded_witness :
  (0 ≤ 2)%nat ∧
  let '(alphanumeric_count, special_char_count, multi_word_count) :=
    count_tokens ascii_isalnum ex_small_vocab in
  0%nat = multi_word_count ∧
  (alphanumeric_count + special_char_count ≤ size ex_small_vocab)%nat.
Proof.
  apply (token_counts_are_bounded ascii_isalnum Z.div (Z.mul 100) ex_small_vocab
           ex_merges (Py.lit "Small")
           {| stats_vocab_size := 2; stats_num_merges := 3;
              stats_avg_token_length := 1%Z; stats_max_token_length := 2;
              stats_alphanumeric_pct := 0%Z; stats_multi_word_count := 0 |}).
  evaluated.
Defined.

(** The script of [train_bpe_expts_owt.py] on a vocabulary whose longest
    tokens are two of one byte, the first of them no valid UTF-8. *)
Lemma owt_script_needs_a_decodable_token_witness :
  train_bpe_expts_owt_main gpt2_bytes_to_unicode ex_tie_trainer ascii_lower Z
    0%Z 0%Z os_ok left_as_is by_id ex_scripts_world
  = (match Py.utf8_decode [xff]%byte with
     | Some _ => ScriptDone
     | None => ScriptAttributeError
     end,
     {| fs := save_vocab_and_merges gpt2_bytes_to_unicode ex_tie_vocab
                ex_merges openwebtext_dir
                (ascii_lower (Py.lit "OpenWebText") ++ Py.lit "_")
                (fs ex_scripts_world);
        events := events ex_scripts_world
                  ++ [CallRunTrainBpe owt_input 32000 [endoftext]] |}).
Proof.
  apply (owt_script_needs_a_decodable_token gpt2_bytes_to_unicode ex_tie_trainer
           ascii_lower 0%Z 0%Z os_ok left_as_is by_id ex_scripts_world ex_tie_vocab
           ex_merges [xff]%byte).
  - reflexivity.
  - vm_compute. discriminate.
  - evaluated.
  - evaluated.
  - reflexivity.
  - repeat constructor.
Defined.

Example owt_script_stops :
  (train_bpe_expts_owt_main gpt2_bytes_to_unicode ex_tie_trainer ascii_lower Z
     0%Z 0%Z os_ok left_as_is by_id ex_scripts_world).1 = ScriptAttributeError ∧
  (train_bpe_expts_owt_main gpt2_bytes_to_unicode ex_tie_trainer ascii_lower Z
     0%Z 0%Z os_ok left_as_is by_id_reversed ex_scripts_world).1 = ScriptDone.
Proof. split; evaluated. Qed.

Lemma comparison_reads_what_training_wrote_witness :
  load_tokenizer by_first tinystories_dir (Py.lit "tinystories_")
    (fs ex_trained_world)
    = Return (ex_small_vocab, ex_merges) ∧
  load_tokenizer by_first openwebtext_dir (Py.lit "openwebtext_")
    (fs ex_trained_world)
    = Return (ex_small_vocab, ex_merges) ∧
  compare_tokenizers_main ascii_isalnum Z Z.div (Z.mul 100) by_first
    (fs ex_trained_world)
    = Return ().
Proof.
  refine (comparison_reads_what_training_wrote gpt2_bytes_to_unicode ex_trainer
            ascii_lower 0%Z 0%Z os_ok left_as_is by_id ascii_isalnum Z.div (Z.mul 100)
            by_first ex_scripts_world
            (train_bpe_tinystories gpt2_bytes_to_unicode ex_trainer ascii_lower
               Z 0%Z 0%Z os_ok left_as_is by_id ex_scripts_world).2
            ex_trained_world
            ex_small_vocab ex_merges 0%Z 0%Z (Some [233])
            ex_small_vocab ex_merges 0%Z 0%Z (Some [233]) _ _ _ _ _ _).
  - reflexivity.
  - reflexivity.
  - evaluated.
  - evaluated.
  - repeat constructor; discriminate.
  - repeat constructor; discriminate.
Defined.
